(** * The lavender decision engine (src/lavender_backend/src/services/decisionEngine.js)

    A shallow embedding of the [DecisionEngine] class and the properties of
    its rule tree, followed by the code around it: the sensor service
    (services/sensorService.js), the analysis route (routes/analysis.js)
    and the colour helper of the dashboard
    (lib/widgets/health_indicator.dart).

    - JavaScript numbers are IEEE-754 binary64 values: [spec_float] of the
      Standard Library with [prec = 53] and [emax = 1024].  Comparisons and
      arithmetic are the library's [SFltb], [SFeqb], [SFmul], [SFadd], ...
    - A readings object (the result of [JSON.parse]) is an association list
      from sensor names to numbers, in the enumeration order of its own
      keys; [sensorData[k]] is the first binding of [k].
    - Strings are byte strings (UTF-8).  All literals compared by the engine
      are ASCII.
    - [console.log] tracing has no influence on any returned value and is
      left out.
    - Exceptions.  The engine is embedded twice: first as functions of a
      vision result and a readings object, then once more with the
      TypeErrors of JavaScript written out ([outcome]), for arguments that
      may be [null] or [undefined] and vision results that are ill-formed.
      The second embedding is the one the route calls; on well-formed
      arguments it returns the value of the first. *)

From Stdlib Require Import ZArith List String Ascii Bool Lia.
From Stdlib Require Import Sorted Permutation DecimalString.
From Stdlib Require Import Floats.SpecFloat.
Import ListNotations.

Local Open Scope string_scope.
Local Open Scope list_scope.

(** ** JavaScript numbers *)

Definition number : Type := spec_float.

Module Number.
Definition prec : Z := 53.
Definition emax : Z := 1024.

(** The double nearest to [m * 2^e]; every constant of the source is
    exactly representable, so no rounding takes place for them. *)
Definition dyadic (m e : Z) : number := binary_normalize prec emax m e false.
Definition ofZ (z : Z) : number := dyadic z 0.

Definition NaN : number := S754_nan.

Definition mul : number -> number -> number := SFmul prec emax.
Definition add : number -> number -> number := SFadd prec emax.
Definition sub : number -> number -> number := SFsub prec emax.

(** [a < b], [a > b] and [a === b] on numbers. *)
Definition lt (a b : number) : bool := SFltb a b.
Definition gt (a b : number) : bool := SFltb b a.
Definition strictEq (a b : number) : bool := SFeqb a b.

(** [lo <= a <= hi] as an IEEE comparison; false when [a] is NaN. *)
Definition within (lo hi a : number) : bool := SFleb lo a && SFleb a hi.
End Number.

(** [x < c] where [x] may be [undefined] (a missing property):
    [undefined] converts to NaN and every comparison with NaN is false. *)
Definition ltU (x : option number) (c : number) : bool :=
  match x with Some v => Number.lt v c | None => false end.

Module Math.
(** [Math.max(a, b)]: NaN if either argument is NaN; [+0] is larger
    than [-0]. *)
Definition max (a b : number) : number :=
  match a, b with
  | S754_nan, _ | _, S754_nan => S754_nan
  | S754_zero sa, S754_zero sb => S754_zero (sa && sb)
  | _, _ => if SFltb a b then b else a
  end.

(** [Math.min(a, b)]: NaN if either argument is NaN; [-0] is smaller
    than [+0]. *)
Definition min (a b : number) : number :=
  match a, b with
  | S754_nan, _ | _, S754_nan => S754_nan
  | S754_zero sa, S754_zero sb => S754_zero (sa || sb)
  | _, _ => if SFltb b a then b else a
  end.

Definition abs (a : number) : number := SFabs a.
End Math.

(** The numeric literals of the source. *)
Definition n0 : number := S754_zero false.
Definition n1 : number := Eval vm_compute in Number.ofZ 1.
Definition n2 : number := Eval vm_compute in Number.ofZ 2.
Definition n3 : number := Eval vm_compute in Number.ofZ 3.
Definition n6 : number := Eval vm_compute in Number.ofZ 6.
Definition n6_5 : number := Eval vm_compute in Number.dyadic 13 (-1).
Definition n7 : number := Eval vm_compute in Number.ofZ 7.
Definition n7_5 : number := Eval vm_compute in Number.dyadic 15 (-1).
Definition n10 : number := Eval vm_compute in Number.ofZ 10.
Definition n12 : number := Eval vm_compute in Number.ofZ 12.
Definition n15 : number := Eval vm_compute in Number.ofZ 15.
Definition n20 : number := Eval vm_compute in Number.ofZ 20.
Definition n22 : number := Eval vm_compute in Number.ofZ 22.
Definition n25 : number := Eval vm_compute in Number.ofZ 25.
Definition n30 : number := Eval vm_compute in Number.ofZ 30.
Definition n35 : number := Eval vm_compute in Number.ofZ 35.
Definition n40 : number := Eval vm_compute in Number.ofZ 40.
Definition n50 : number := Eval vm_compute in Number.ofZ 50.
Definition n60 : number := Eval vm_compute in Number.ofZ 60.
Definition n70 : number := Eval vm_compute in Number.ofZ 70.
Definition n80 : number := Eval vm_compute in Number.ofZ 80.
Definition n100 : number := Eval vm_compute in Number.ofZ 100.

(** ** Readings objects *)

Definition readings : Type := list (string * number).

Module Object.
Definition keys (o : readings) : list string := map fst o.
Definition values (o : readings) : list number := map snd o.
Definition entries (o : readings) : list (string * number) := o.

(** [o[k]] / [o.k] for a plain object without inherited numeric
    properties: [None] is [undefined]. *)
Fixpoint get (o : readings) (k : string) : option number :=
  match o with
  | [] => None
  | (k', v) :: o' => if String.eqb k' k then Some v else get o' k
  end.
End Object.

(** ** The standards table *)

Module Standard.
Record t : Type := mk
  { min : number; max : number; optimal : number;
    unit : string; description : string }.
End Standard.

(** The result of the property read [this.sensorStandards[key]]. *)
Inductive property : Type :=
  | Own (s : Standard.t)   (* one of the seven entries of the table *)
  | Inherited              (* a member of Object.prototype: a truthy value
                              whose [min] and [max] are undefined *)
  | Undefined.

(** The names every plain object inherits from [Object.prototype]. *)
Definition objectPrototypeKeys : list string :=
  [ "constructor"; "__defineGetter__"; "__defineSetter__"; "hasOwnProperty";
    "__lookupGetter__"; "__lookupSetter__"; "isPrototypeOf";
    "propertyIsEnumerable"; "toString"; "valueOf"; "__proto__";
    "toLocaleString" ].

Definition sensorTable : list (string * Standard.t) :=
  [ ("nitrogen", Standard.mk n40 n80 n60 "ppm" "Leaf growth and color");
    ("phosphorus", Standard.mk n20 n50 n35 "ppm" "Root and flower development");
    ("potassium", Standard.mk n30 n70 n50 "ppm" "Disease resistance");
    ("moisture", Standard.mk n20 n40 n30 "%" "Soil water content");
    ("temperature", Standard.mk n15 n30 n22 "°C" "Ambient temperature");
    ("ph", Standard.mk n6_5 n7_5 n7 "pH" "Soil acidity");
    ("ec", Standard.mk n1 n3 n2 "mS/cm" "Nutrient concentration") ].

Fixpoint assoc {A : Type} (l : list (string * A)) (k : string) : option A :=
  match l with
  | [] => None
  | (k', v) :: l' => if String.eqb k' k then Some v else assoc l' k
  end.

Definition sensorStandards (key : string) : property :=
  match assoc sensorTable key with
  | Some s => Own s
  | None =>
      if existsb (String.eqb key) objectPrototypeKeys then Inherited
      else Undefined
  end.

(** A property key that may be [undefined] (the result of a failed [find])
    is converted to the string "undefined". *)
Definition toPropertyKey (k : option string) : string :=
  match k with Some s => s | None => "undefined" end.

Definition truthy (p : property) : bool :=
  match p with Undefined => false | _ => true end.

Definition natToString (n : nat) : string :=
  NilEmpty.string_of_uint (Nat.to_uint n).

(** ** Result shapes *)

(** A template literal with at most one interpolated number.  The decimal
    rendering of the number is kept symbolic. *)
Inductive text : Type :=
  | Lit (s : string)
  | Fixed1 (before : string) (n : number) (after : string)
      (* `${before}${n.toFixed(1)}${after}` *)
  | Shown (before : string) (n : number) (after : string).
      (* `${before}${n}${after}` *)

Module NPK.
Record t : Type := mk
  { nitrogen : number; phosphorus : number; potassium : number }.
End NPK.

Module Issue.
Record t : Type := mk
  { sensor : string; value : number; unit : string;
    min : number; max : number; severity : string }.
End Issue.

Module Validity.
Record t : Type := mk
  { hasIssues : bool; issues : list Issue.t; message : string }.
End Validity.

Module Assessment.
Record t : Type := mk
  { status : string; message : string; confidence : string;
    recommendation : string }.
End Assessment.

Module Diagnosis.
Record t : Type := mk
  { verdict : string; confidence : string; message : text;
    reasoning : string; requiresImmediateAction : bool }.
End Diagnosis.

Module Emergency.
Record t : Type := mk
  { level : string; color : string; icon : string; message : string }.
End Emergency.

Module Recommendation.
Record t : Type := mk
  { action : string; reason : text; priority : Z; icon : string }.
End Recommendation.

(** ** String and array primitives *)

(** [hay.includes(needle)] *)
Fixpoint includes (needle hay : string) : bool :=
  String.prefix needle hay ||
  match hay with
  | EmptyString => false
  | String _ rest => includes needle rest
  end.

(** [arr.join(sep)] *)
Fixpoint join (sep : string) (arr : list string) : string :=
  match arr with
  | [] => ""
  | [x] => x
  | x :: rest => x ++ sep ++ join sep rest
  end.

(** [arr.sort(compare)].  The language requires the sort to be stable; for
    a comparator that orders by a numeric key the outcome is the one
    computed here (lemma [sort_determined]): each element is placed in
    front of the first later element that does not compare strictly below
    it. *)
Fixpoint insertBy {A : Type} (compare : A -> A -> Z) (x : A) (l : list A)
  : list A :=
  match l with
  | [] => [x]
  | y :: l' =>
      if (compare x y <=? 0)%Z then x :: y :: l'
      else y :: insertBy compare x l'
  end.

Definition sort {A : Type} (compare : A -> A -> Z) (arr : list A) : list A :=
  fold_right (insertBy compare) [] arr.

(** [arr.map((x, index) => f x index)] *)
Fixpoint mapi_from {A B : Type} (f : A -> nat -> B) (index : nat)
  (arr : list A) : list B :=
  match arr with
  | [] => []
  | x :: rest => f x index :: mapi_from f (S index) rest
  end.

Definition mapi {A B : Type} (f : A -> nat -> B) (arr : list A) : list B :=
  mapi_from f 0 arr.

(** ** class DecisionEngine *)

(** Calculate NPK from EC and pH *)
Definition calculateNPKFromECpH (ec ph : number) : NPK.t :=
  {| NPK.nitrogen :=
       Math.min n100 (Math.max n0
         (Number.add (Number.mul ec n25)
                     (Number.mul (Number.sub ph n6) n10)));
     NPK.phosphorus :=
       Math.min n100 (Math.max n0
         (Number.add (Number.mul ec n15)
                     (Number.mul (Number.sub n7 (Math.abs (Number.sub n7 ph)))
                                 n15)));
     NPK.potassium :=
       Math.min n100 (Math.max n0
         (Number.add (Number.mul ec n20)
                     (Number.mul (Number.sub ph n6_5) n12))) |}.

(** The body of the [forEach] callback of [checkSensorValidity]: the issues
    one entry contributes. *)
Definition checkEntry (entry : string * number) : list Issue.t :=
  let '(key, value) := entry in
  match sensorStandards key with
  | Own standard =>
      if Number.lt value (Standard.min standard)
         || Number.gt value (Standard.max standard)
      then [ {| Issue.sensor := key;
                Issue.value := value;
                Issue.unit := Standard.unit standard;
                Issue.min := Standard.min standard;
                Issue.max := Standard.max standard;
                Issue.severity :=
                  if Number.lt value (Standard.min standard)
                  then "low" else "high" |} ]
      else []
  | Inherited => []   (* value < undefined || value > undefined *)
  | Undefined => []   (* standard && ... *)
  end.

Definition checkSensorValidity (sensorData : readings) : Validity.t :=
  let issues := flat_map checkEntry (Object.entries sensorData) in
  {| Validity.hasIssues := (0 <? List.length issues)%nat;
     Validity.issues := issues;
     Validity.message :=
       if (List.length issues =? 0)%nat then "All sensors optimal"
       else natToString (List.length issues) ++ " sensor(s) need attention" |}.

(** The two [every] tests of [assessSensorCredibility]. *)
Definition allZero (sensorData : readings) : bool :=
  forallb (fun val => Number.strictEq val n0 || Number.strictEq val n0)
          (Object.values sensorData).

Definition allMax (sensorData : readings) : bool :=
  forallb
    (fun val =>
       let key :=
         find (fun k =>
                 match Object.get sensorData k with
                 | Some v => Number.strictEq v val
                 | None => false
                 end)
              (Object.keys sensorData) in
       let standard := sensorStandards (toPropertyKey key) in
       truthy standard && Number.strictEq val n100)
    (Object.values sensorData).

(** Assess if sensors are credible or malfunctioning *)
Definition assessSensorCredibility (sensorData : readings) : Assessment.t :=
  if allZero sensorData then
    {| Assessment.status := "malfunctioning";
       Assessment.message :=
         "⚠️ SENSOR MALFUNCTION DETECTED: All sensors read 0";
       Assessment.confidence := "low";
       Assessment.recommendation :=
         "Check sensor connections and power supply" |}
  else if allMax sensorData then
    {| Assessment.status := "suspicious";
       Assessment.message :=
         "⚠️ SUSPICIOUS READINGS: All sensors at maximum values";
       Assessment.confidence := "medium";
       Assessment.recommendation := "Verify sensor calibration" |}
  else
    let issues := checkSensorValidity sensorData in
    {| Assessment.status :=
         if Validity.hasIssues issues then "needs_attention" else "credible";
       Assessment.message :=
         if Validity.hasIssues issues
         then natToString (List.length (Validity.issues issues))
              ++ " sensor(s) out of optimal range"
         else "Sensor readings appear credible";
       Assessment.confidence := "high";
       Assessment.recommendation :=
         if Validity.hasIssues issues then "Adjust sensor values"
         else "Sensors working properly" |}.

(** [calculatedNPK || sensorData]: the object the deficiency checks read
    their three nutrient values from. *)
Definition npkValues (sensorData : readings) (calculatedNPK : option NPK.t)
  : string -> option number :=
  match calculatedNPK with
  | Some npk =>
      fun k =>
        if String.eqb k "nitrogen" then Some (NPK.nitrogen npk)
        else if String.eqb k "phosphorus" then Some (NPK.phosphorus npk)
        else if String.eqb k "potassium" then Some (NPK.potassium npk)
        else None
  | None => Object.get sensorData
  end.

(** Detect specific nutrient deficiencies *)
Definition detectNutrientDeficiencies (sensorData : readings)
  (calculatedNPK : option NPK.t) : list string :=
  let npk := npkValues sensorData calculatedNPK in
  (if ltU (npk "nitrogen") n40 then ["Nitrogen (N)"] else [])
  ++ (if ltU (npk "phosphorus") n20 then ["Phosphorus (P)"] else [])
  ++ (if ltU (npk "potassium") n30 then ["Potassium (K)"] else []).

(** [(aiConfidence * 100).toFixed(1)] inside a message template. *)
Definition percent (before : string) (aiConfidence : number) (after : string)
  : text :=
  Fixed1 before (Number.mul aiConfidence n100) after.

(** The agreement block ("Case 1") of [generateIntelligentDiagnosis]:
    [None] when control leaves the block without a [return]. *)
Definition agreementVerdict (aiPrediction : string) (aiConfidence : number)
  (sensorData : readings) (calculatedNPK : option NPK.t)
  (hasIssues : bool) : option Diagnosis.t :=
  if (String.eqb aiPrediction "healthy" && negb hasIssues)
     || (negb (String.eqb aiPrediction "healthy") && hasIssues)
  then
    if String.eqb aiPrediction "healthy" then
      Some {| Diagnosis.verdict := "PLANT IS HEALTHY";
              Diagnosis.confidence := "very_high";
              Diagnosis.message :=
                percent "✅ Visual appearance (" aiConfidence
                  "% confidence) confirms healthy plant. Sensors show optimal conditions.";
              Diagnosis.reasoning :=
                "Both visual indicators and sensor data agree on plant health.";
              Diagnosis.requiresImmediateAction := false |}
    else if String.eqb aiPrediction "nutrient_deficient" then
      let deficiencies := detectNutrientDeficiencies sensorData calculatedNPK in
      Some {| Diagnosis.verdict := "NUTRIENT DEFICIENCY CONFIRMED";
              Diagnosis.confidence := "high";
              Diagnosis.message :=
                percent "⚠️ Visual symptoms (" aiConfidence
                  "% confidence) match sensor-detected nutrient issues.";
              Diagnosis.reasoning :=
                "CNN detected deficiency patterns matching "
                ++ (if (0 <? List.length deficiencies)%nat
                    then join ", " deficiencies else "multiple nutrient")
                ++ " imbalances.";
              Diagnosis.requiresImmediateAction := true |}
    else if String.eqb aiPrediction "diseased" then
      Some {| Diagnosis.verdict := "DISEASE DETECTED";
              Diagnosis.confidence := "high";
              Diagnosis.message :=
                percent "🚨 Visual analysis (" aiConfidence
                  "% confidence) indicates disease. Sensor conditions may be contributing.";
              Diagnosis.reasoning :=
                "Plant shows visual disease symptoms that require immediate attention.";
              Diagnosis.requiresImmediateAction := true |}
    else None
  else None.

(** Generate intelligent diagnosis *)
Definition generateIntelligentDiagnosis (aiPrediction : string)
  (aiConfidence : number) (sensorData : readings)
  (sensorAssessment : Assessment.t) (calculatedNPK : option NPK.t)
  : Diagnosis.t :=
  let sensorIssues := checkSensorValidity sensorData in
  (* Case 1: CNN and sensors agree *)
  match agreementVerdict aiPrediction aiConfidence sensorData calculatedNPK
          (Validity.hasIssues sensorIssues) with
  | Some diagnosis => diagnosis
  | None =>
      (* Case 2: CNN says healthy but sensors show issues *)
      if String.eqb aiPrediction "healthy" && Validity.hasIssues sensorIssues
      then
        if String.eqb (Assessment.status sensorAssessment) "malfunctioning"
        then
          {| Diagnosis.verdict := "SENSOR MALFUNCTION";
             Diagnosis.confidence := "high";
             Diagnosis.message :=
               percent "✅ Plant appears healthy (" aiConfidence
                 "% confidence) but sensors show malfunction.";
             Diagnosis.reasoning :=
               "Visual health indicators contradict sensor readings. Likely sensor hardware issue.";
             Diagnosis.requiresImmediateAction := false |}
        else
          {| Diagnosis.verdict := "EARLY WARNING";
             Diagnosis.confidence := "medium";
             Diagnosis.message :=
               percent "⚠️ Plant looks healthy (" aiConfidence
                 "% confidence) but sensors show developing issues.";
             Diagnosis.reasoning :=
               "Sensors detect suboptimal conditions that may not yet show visual symptoms.";
             Diagnosis.requiresImmediateAction := true |}
      (* Case 3: CNN shows issues but sensors say healthy *)
      else if negb (String.eqb aiPrediction "healthy")
              && negb (Validity.hasIssues sensorIssues)
      then
        {| Diagnosis.verdict := "VISUAL ISSUE DETECTED";
           Diagnosis.confidence := "medium";
           Diagnosis.message :=
             percent "🔍 CNN detects issues (" aiConfidence
               "% confidence) but sensors report normal conditions.";
           Diagnosis.reasoning :=
             "Visual symptoms detected that may not be related to measured soil conditions.";
           Diagnosis.requiresImmediateAction := true |}
      else
        {| Diagnosis.verdict := "INCONCLUSIVE";
           Diagnosis.confidence := "low";
           Diagnosis.message :=
             Lit "Analysis results are inconclusive. Further investigation needed.";
           Diagnosis.reasoning :=
             "Conflicting signals between visual and sensor data.";
           Diagnosis.requiresImmediateAction := false |}
  end.

(** Determine emergency level *)
Definition determineEmergencyLevel (diagnosis : Diagnosis.t)
  (sensorAssessment : Assessment.t) : Emergency.t :=
  if includes "DISEASE" (Diagnosis.verdict diagnosis)
     || Diagnosis.requiresImmediateAction diagnosis
  then
    {| Emergency.level := "high"; Emergency.color := "red";
       Emergency.icon := "🚨";
       Emergency.message := "IMMEDIATE ACTION REQUIRED" |}
  else if String.eqb (Assessment.status sensorAssessment) "malfunctioning"
          || includes "WARNING" (Diagnosis.verdict diagnosis)
  then
    {| Emergency.level := "medium"; Emergency.color := "orange";
       Emergency.icon := "⚠️";
       Emergency.message := "ATTENTION NEEDED" |}
  else
    {| Emergency.level := "low"; Emergency.color := "green";
       Emergency.icon := "✅";
       Emergency.message := "MONITOR REGULARLY" |}.

Definition getNutrientAction (deficiency : string) : string :=
  if String.eqb deficiency "Nitrogen (N)"
  then "APPLY NITROGEN-RICH FERTILIZER (20-10-10)"
  else if String.eqb deficiency "Phosphorus (P)"
  then "ADD BONE MEAL OR ROCK PHOSPHATE"
  else if String.eqb deficiency "Potassium (K)"
  then "APPLY POTASH OR POTASSIUM SULFATE"
  else "APPLY BALANCED FERTILIZER".

(** The objects pushed by [generateActionableRecommendations], one
    definition per block of the source. *)
Definition isolatePlant : Recommendation.t :=
  {| Recommendation.action := "ISOLATE PLANT";
     Recommendation.reason := Lit "Prevent spread to other plants";
     Recommendation.priority := 1;
     Recommendation.icon := "🚨" |}.

Definition checkSensorConnections : Recommendation.t :=
  {| Recommendation.action := "CHECK SENSOR CONNECTIONS";
     Recommendation.reason :=
       Lit "All sensors reading 0 - likely hardware issue";
     Recommendation.priority := 1;
     Recommendation.icon := "🔧" |}.

Definition emergencyActions (emergencyLevel : Emergency.t)
  : list Recommendation.t :=
  if String.eqb (Emergency.level emergencyLevel) "high"
  then [isolatePlant] else [].

Definition nutrientRecommendations (sensorData : readings)
  : list Recommendation.t :=
  mapi (fun def index =>
          {| Recommendation.action := getNutrientAction def;
             Recommendation.reason := Lit (def ++ " deficiency detected");
             Recommendation.priority := 2 + Z.of_nat index;
             Recommendation.icon := "🌱" |})
       (detectNutrientDeficiencies sensorData None).

Definition waterRecommendations (sensorData : readings)
  : list Recommendation.t :=
  match Object.get sensorData "moisture" with
  | Some moisture =>
      if Number.lt moisture n20 then
        [ {| Recommendation.action := "WATER IMMEDIATELY";
             Recommendation.reason :=
               Shown "Soil moisture at " moisture "% (optimal: 20-40%)";
             Recommendation.priority := 2;
             Recommendation.icon := "💧" |} ]
      else if Number.gt moisture n40 then
        [ {| Recommendation.action := "REDUCE WATERING";
             Recommendation.reason :=
               Shown "Soil moisture at " moisture "% (optimal: 20-40%)";
             Recommendation.priority := 2;
             Recommendation.icon := "⏱️" |} ]
      else []
  | None => []   (* undefined < 20 and undefined > 40 are false *)
  end.

Definition phRecommendations (sensorData : readings)
  : list Recommendation.t :=
  match Object.get sensorData "ph" with
  | Some ph =>
      if Number.lt ph n6_5 then
        [ {| Recommendation.action := "ADD LIME TO RAISE pH";
             Recommendation.reason :=
               Shown "Soil pH at " ph " (optimal: 6.5-7.5)";
             Recommendation.priority := 3;
             Recommendation.icon := "🧪" |} ]
      else if Number.gt ph n7_5 then
        [ {| Recommendation.action := "ADD SULFUR TO LOWER pH";
             Recommendation.reason :=
               Shown "Soil pH at " ph " (optimal: 6.5-7.5)";
             Recommendation.priority := 3;
             Recommendation.icon := "🧪" |} ]
      else []
  | None => []
  end.

(** The [recommendations] array as it stands when control reaches the
    final [sort], in push order. *)
Definition pushedRecommendations (sensorData : readings)
  (emergencyLevel : Emergency.t) : list Recommendation.t :=
  emergencyActions emergencyLevel
  ++ nutrientRecommendations sensorData
  ++ waterRecommendations sensorData
  ++ phRecommendations sensorData.

Definition byPriority (a b : Recommendation.t) : Z :=
  (Recommendation.priority a - Recommendation.priority b)%Z.

(** Generate actionable recommendations *)
Definition generateActionableRecommendations (diagnosis : Diagnosis.t)
  (sensorData : readings) (sensorAssessment : Assessment.t)
  (emergencyLevel : Emergency.t) : list Recommendation.t :=
  if String.eqb (Assessment.status sensorAssessment) "malfunctioning"
  then emergencyActions emergencyLevel ++ [checkSensorConnections]
  else sort byPriority (pushedRecommendations sensorData emergencyLevel).

(** [s.replace(pattern, replacement)] with a string pattern: the first
    occurrence only. *)
Fixpoint replace (pattern replacement s : string) : string :=
  if String.prefix pattern s
  then replacement
       ++ String.substring (String.length pattern)
            (String.length s - String.length pattern) s
  else match s with
       | EmptyString => EmptyString
       | String c rest => String c (replace pattern replacement rest)
       end.

(** [s.toUpperCase()] on the ASCII letters; other bytes are kept (the
    issue tags of the classifier are ASCII identifiers).  A letter outside
    ASCII is not mapped: "café" gives "CAFé" here and "CAFÉ" in
    JavaScript.  The only value that passes through this function is the
    name of a visual deficiency, and no property below speaks of it. *)
Definition upcase (c : ascii) : ascii :=
  let n := nat_of_ascii c in
  if ((97 <=? n) && (n <=? 122))%nat then ascii_of_nat (n - 32) else c.

Fixpoint toUpperCase (s : string) : string :=
  match s with
  | EmptyString => EmptyString
  | String c rest => String (upcase c) (toUpperCase rest)
  end.

Module AIResult.
(** [possible_issues] is [None] when the property is absent. *)
Record t : Type := mk
  { prediction : string; confidence : number;
    possible_issues : option (list string) }.
End AIResult.

Inductive deficiency : Type :=
  | VisualDeficiency (type deficiency detectedBy : string)
      (confidence : number)
  | SensorDeficiency (type deficiency : string) (level : number)
      (unit detectedBy severity : string).

Definition sensorDeficiency (name : string) (reading : option number)
  (threshold severeBelow : number) : list deficiency :=
  match reading with
  | Some level =>
      if Number.lt level threshold
      then [ SensorDeficiency "sensor" name level "ppm" "Soil Sensor"
               (if Number.lt level severeBelow then "severe" else "moderate") ]
      else []
  | None => []
  end.

(** Identify all deficiencies *)
Definition identifySpecificDeficiencies (aiResult : AIResult.t)
  (sensorData : readings) (calculatedNPK : option NPK.t) : list deficiency :=
  let visual :=
    match AIResult.possible_issues aiResult with
    | Some possible_issues =>
        map (fun issue =>
               VisualDeficiency "visual"
                 (toUpperCase (replace "_deficiency" "" issue))
                 "CNN Model" (AIResult.confidence aiResult))
            possible_issues
    | None => []
    end in
  let npk := npkValues sensorData calculatedNPK in
  visual
  ++ sensorDeficiency "NITROGEN" (npk "nitrogen") n40 n20
  ++ sensorDeficiency "PHOSPHORUS" (npk "phosphorus") n20 n10
  ++ sensorDeficiency "POTASSIUM" (npk "potassium") n30 n15.

Module NextSteps.
Record t : Type := mk
  { title : string; steps : list string; buttonText : string }.
End NextSteps.

(** Generate next steps *)
Definition generateNextSteps (emergencyLevel : Emergency.t)
  (requiresImmediateAction : bool) : NextSteps.t :=
  if requiresImmediateAction then
    {| NextSteps.title := "🔄 WHAT TO DO NEXT";
       NextSteps.steps :=
         [ "1. Review emergency actions below";
           "2. Implement highest priority recommendations first";
           "3. Take photos after treatment for comparison";
           "4. Re-analyze in 3-5 days" ];
       NextSteps.buttonText :=
         if String.eqb (Emergency.level emergencyLevel) "high"
         then "🚨 TAKE EMERGENCY ACTION" else "⚡ START RECOVERY PLAN" |}
  else
    {| NextSteps.title := "📝 RECOMMENDED NEXT STEPS";
       NextSteps.steps :=
         [ "1. Review recommendations below";
           "2. Adjust care routine as suggested";
           "3. Monitor plant daily";
           "4. Re-analyze weekly for improvements" ];
       NextSteps.buttonText := "🌱 VIEW ACTION PLAN" |}.

Definition getVisualAssessmentMessage (prediction : string)
  (confidence : number) : text :=
  if String.eqb prediction "healthy" then
    percent "The plant appears visually healthy with " confidence
      "% confidence."
  else if String.eqb prediction "nutrient_deficient" then
    percent "Visual symptoms suggest nutrient deficiency with " confidence
      "% confidence."
  else if String.eqb prediction "diseased" then
    percent "Disease symptoms detected with " confidence "% confidence."
  else
    percent "Visual analysis completed with " confidence "% confidence.".

Module VisualAssessment.
Record t : Type := mk
  { prediction : string; confidence : number; message : text }.
End VisualAssessment.

Module SensorReport.
(** [{ ...sensorAssessment, readings, calculatedNPK, issues }] *)
Record t : Type := mk
  { assessment : Assessment.t; readings : list (string * number);
    calculatedNPK : option NPK.t; issues : list Issue.t }.
End SensorReport.

Module Analysis.
Record t : Type := mk
  { emergencyLevel : Emergency.t;
    visualAssessment : VisualAssessment.t;
    sensorAssessment : SensorReport.t;
    intelligentDiagnosis : Diagnosis.t;
    deficiencies : list deficiency;
    recommendations : list Recommendation.t;
    nextSteps : NextSteps.t }.
End Analysis.

(** Step 2 of [analyzeSituation]: the estimate is computed only when both
    [ec] and [ph] are defined. *)
Definition estimateNPK (sensorData : readings) : option NPK.t :=
  match Object.get sensorData "ec", Object.get sensorData "ph" with
  | Some ec, Some ph => Some (calculateNPKFromECpH ec ph)
  | _, _ => None
  end.

(** MAIN INTELLIGENT DIAGNOSIS ENGINE *)
Definition analyzeSituation (aiResult : AIResult.t) (sensorData : readings)
  : Analysis.t :=
  let aiPrediction := AIResult.prediction aiResult in
  let aiConfidence := AIResult.confidence aiResult in
  let sensorAssessment := assessSensorCredibility sensorData in
  let sensorIssues := checkSensorValidity sensorData in
  let calculatedNPK := estimateNPK sensorData in
  let diagnosis :=
    generateIntelligentDiagnosis aiPrediction aiConfidence sensorData
      sensorAssessment calculatedNPK in
  let emergencyLevel := determineEmergencyLevel diagnosis sensorAssessment in
  let recommendations :=
    generateActionableRecommendations diagnosis sensorData sensorAssessment
      emergencyLevel in
  let deficiencies :=
    identifySpecificDeficiencies aiResult sensorData calculatedNPK in
  {| Analysis.emergencyLevel := emergencyLevel;
     Analysis.visualAssessment :=
       {| VisualAssessment.prediction := aiPrediction;
          VisualAssessment.confidence := aiConfidence;
          VisualAssessment.message :=
            getVisualAssessmentMessage aiPrediction aiConfidence |};
     Analysis.sensorAssessment :=
       {| SensorReport.assessment := sensorAssessment;
          SensorReport.readings := sensorData;
          SensorReport.calculatedNPK := calculatedNPK;
          SensorReport.issues := Validity.issues sensorIssues |};
     Analysis.intelligentDiagnosis := diagnosis;
     Analysis.deficiencies := deficiencies;
     Analysis.recommendations := recommendations;
     Analysis.nextSteps :=
       generateNextSteps emergencyLevel
         (Diagnosis.requiresImmediateAction diagnosis) |}.

(** ** The engine with its exceptions

    The definitions above read the engine on a vision result and a readings
    object.  The ones below follow the same source once more with every
    place where JavaScript can raise a TypeError written out: reading a
    property of [null] or [undefined], enumerating [null] or [undefined],
    and calling a method a value does not have.  *)

Inductive jsError : Type := TypeError.

Inductive outcome (A : Type) : Type :=
  | Returns (a : A)
  | Throws (e : jsError).

Arguments Returns {A} a.
Arguments Throws {A} e.

Definition bind {A B : Type} (m : outcome A) (k : A -> outcome B)
  : outcome B :=
  match m with
  | Returns a => k a
  | Throws e => Throws e
  end.

Notation "x <- m ;; k" := (bind m (fun x => k))
  (at level 61, m at next level, right associativity).

(** A value passed where an object is expected. *)
Inductive ref (A : Type) : Type :=
  | JsNull
  | JsUndefined
  | JsObject (a : A).

Arguments JsNull {A}.
Arguments JsUndefined {A}.
Arguments JsObject {A} a.

(** [base.property], [Object.values(base)], [Object.entries(base)]: a
    TypeError unless [base] is an object. *)
Definition deref {A : Type} (base : ref A) : outcome A :=
  match base with
  | JsObject a => Returns a
  | JsNull | JsUndefined => Throws TypeError
  end.

(** An element of [possible_issues]: a string, or a value without a
    [replace] method (a number, [null], an array, ...). *)
Inductive issueTag : Type :=
  | TagString (s : string)
  | TagOther.

(** The [possible_issues] property of a vision result. *)
Inductive issuesField : Type :=
  | IssuesFalsy                       (* absent, [null] or another falsy value *)
  | IssuesArray (tags : list issueTag)
  | IssuesOther.                      (* a truthy value without [forEach] *)

Module AIInput.
Record t : Type := mk
  { prediction : string; confidence : number;
    possible_issues : issuesField }.
End AIInput.

(** A well-formed vision result as the engine receives it. *)
Definition inputOf (aiResult : AIResult.t) : AIInput.t :=
  {| AIInput.prediction := AIResult.prediction aiResult;
     AIInput.confidence := AIResult.confidence aiResult;
     AIInput.possible_issues :=
       match AIResult.possible_issues aiResult with
       | Some tags => IssuesArray (map TagString tags)
       | None => IssuesFalsy
       end |}.

(** [arr.forEach(callback)] where the callback pushes to an array: the
    pushes in order, unless a call throws. *)
Fixpoint forEachPush {A B : Type} (callback : A -> outcome (list B))
  (arr : list A) : outcome (list B) :=
  match arr with
  | [] => Returns []
  | x :: rest =>
      pushed <- callback x ;;
      later <- forEachPush callback rest ;;
      Returns (pushed ++ later)
  end.

(** The callback of [checkSensorValidity].  The right operand of
    [standard && (...)] reads [standard.min]; it is evaluated only for a
    truthy [standard]. *)
Definition checkEntryJS (entry : string * number) : outcome (list Issue.t) :=
  let '(key, value) := entry in
  let standard := sensorStandards key in
  if truthy standard then
    match standard with
    | Own standard =>
        if Number.lt value (Standard.min standard)
           || Number.gt value (Standard.max standard)
        then Returns
               [ {| Issue.sensor := key;
                    Issue.value := value;
                    Issue.unit := Standard.unit standard;
                    Issue.min := Standard.min standard;
                    Issue.max := Standard.max standard;
                    Issue.severity :=
                      if Number.lt value (Standard.min standard)
                      then "low" else "high" |} ]
        else Returns []
    | Inherited => Returns []       (* [min] and [max] are undefined *)
    | Undefined => Throws TypeError (* [standard.min] of undefined *)
    end
  else Returns [].

Definition checkSensorValidityJS (sensorData : ref readings)
  : outcome Validity.t :=
  entries <- deref sensorData ;;
  issues <- forEachPush checkEntryJS entries ;;
  Returns
    {| Validity.hasIssues := (0 <? List.length issues)%nat;
       Validity.issues := issues;
       Validity.message :=
         if (List.length issues =? 0)%nat then "All sensors optimal"
         else natToString (List.length issues) ++ " sensor(s) need attention" |}.

Definition assessSensorCredibilityJS (sensorData : ref readings)
  : outcome Assessment.t :=
  object <- deref sensorData ;;
  if allZero object then
    Returns
      {| Assessment.status := "malfunctioning";
         Assessment.message :=
           "⚠️ SENSOR MALFUNCTION DETECTED: All sensors read 0";
         Assessment.confidence := "low";
         Assessment.recommendation :=
           "Check sensor connections and power supply" |}
  else if allMax object then
    Returns
      {| Assessment.status := "suspicious";
         Assessment.message :=
           "⚠️ SUSPICIOUS READINGS: All sensors at maximum values";
         Assessment.confidence := "medium";
         Assessment.recommendation := "Verify sensor calibration" |}
  else
    issues <- checkSensorValidityJS sensorData ;;
    Returns
      {| Assessment.status :=
           if Validity.hasIssues issues then "needs_attention" else "credible";
         Assessment.message :=
           if Validity.hasIssues issues
           then natToString (List.length (Validity.issues issues))
                ++ " sensor(s) out of optimal range"
           else "Sensor readings appear credible";
         Assessment.confidence := "high";
         Assessment.recommendation :=
           if Validity.hasIssues issues then "Adjust sensor values"
           else "Sensors working properly" |}.

(** [calculatedNPK || sensorData], then the reads of its properties. *)
Definition npkValuesJS (sensorData : ref readings)
  (calculatedNPK : option NPK.t) : outcome (string -> option number) :=
  match calculatedNPK with
  | Some npk =>
      Returns
        (fun k =>
           if String.eqb k "nitrogen" then Some (NPK.nitrogen npk)
           else if String.eqb k "phosphorus" then Some (NPK.phosphorus npk)
           else if String.eqb k "potassium" then Some (NPK.potassium npk)
           else None)
  | None => object <- deref sensorData ;; Returns (Object.get object)
  end.

Definition detectNutrientDeficienciesJS (sensorData : ref readings)
  (calculatedNPK : option NPK.t) : outcome (list string) :=
  npk <- npkValuesJS sensorData calculatedNPK ;;
  Returns
    ((if ltU (npk "nitrogen") n40 then ["Nitrogen (N)"] else [])
     ++ (if ltU (npk "phosphorus") n20 then ["Phosphorus (P)"] else [])
     ++ (if ltU (npk "potassium") n30 then ["Potassium (K)"] else [])).

(** The agreement block; [None] when control leaves it without a
    [return]. *)
Definition agreementVerdictJS (aiPrediction : string) (aiConfidence : number)
  (sensorData : ref readings) (calculatedNPK : option NPK.t)
  (hasIssues : bool) : outcome (option Diagnosis.t) :=
  if (String.eqb aiPrediction "healthy" && negb hasIssues)
     || (negb (String.eqb aiPrediction "healthy") && hasIssues)
  then
    if String.eqb aiPrediction "healthy" then
      Returns
        (Some {| Diagnosis.verdict := "PLANT IS HEALTHY";
                 Diagnosis.confidence := "very_high";
                 Diagnosis.message :=
                   percent "✅ Visual appearance (" aiConfidence
                     "% confidence) confirms healthy plant. Sensors show optimal conditions.";
                 Diagnosis.reasoning :=
                   "Both visual indicators and sensor data agree on plant health.";
                 Diagnosis.requiresImmediateAction := false |})
    else if String.eqb aiPrediction "nutrient_deficient" then
      deficiencies <- detectNutrientDeficienciesJS sensorData calculatedNPK ;;
      Returns
        (Some {| Diagnosis.verdict := "NUTRIENT DEFICIENCY CONFIRMED";
                 Diagnosis.confidence := "high";
                 Diagnosis.message :=
                   percent "⚠️ Visual symptoms (" aiConfidence
                     "% confidence) match sensor-detected nutrient issues.";
                 Diagnosis.reasoning :=
                   "CNN detected deficiency patterns matching "
                   ++ (if (0 <? List.length deficiencies)%nat
                       then join ", " deficiencies else "multiple nutrient")
                   ++ " imbalances.";
                 Diagnosis.requiresImmediateAction := true |})
    else if String.eqb aiPrediction "diseased" then
      Returns
        (Some {| Diagnosis.verdict := "DISEASE DETECTED";
                 Diagnosis.confidence := "high";
                 Diagnosis.message :=
                   percent "🚨 Visual analysis (" aiConfidence
                     "% confidence) indicates disease. Sensor conditions may be contributing.";
                 Diagnosis.reasoning :=
                   "Plant shows visual disease symptoms that require immediate attention.";
                 Diagnosis.requiresImmediateAction := true |})
    else Returns None
  else Returns None.

(** The function returns [undefined] only if control runs off its end;
    the unconditional last [return] makes the result an object on every
    path. *)
Definition generateIntelligentDiagnosisJS (aiPrediction : string)
  (aiConfidence : number) (sensorData : ref readings)
  (sensorAssessment : Assessment.t) (calculatedNPK : option NPK.t)
  : outcome (ref Diagnosis.t) :=
  sensorIssues <- checkSensorValidityJS sensorData ;;
  agreed <- agreementVerdictJS aiPrediction aiConfidence sensorData
                 calculatedNPK (Validity.hasIssues sensorIssues) ;;
  match agreed with
  | Some diagnosis => Returns (JsObject diagnosis)
  | None =>
      if String.eqb aiPrediction "healthy" && Validity.hasIssues sensorIssues
      then
        if String.eqb (Assessment.status sensorAssessment) "malfunctioning"
        then
          Returns
            (JsObject
               {| Diagnosis.verdict := "SENSOR MALFUNCTION";
                  Diagnosis.confidence := "high";
                  Diagnosis.message :=
                    percent "✅ Plant appears healthy (" aiConfidence
                      "% confidence) but sensors show malfunction.";
                  Diagnosis.reasoning :=
                    "Visual health indicators contradict sensor readings. Likely sensor hardware issue.";
                  Diagnosis.requiresImmediateAction := false |})
        else
          Returns
            (JsObject
               {| Diagnosis.verdict := "EARLY WARNING";
                  Diagnosis.confidence := "medium";
                  Diagnosis.message :=
                    percent "⚠️ Plant looks healthy (" aiConfidence
                      "% confidence) but sensors show developing issues.";
                  Diagnosis.reasoning :=
                    "Sensors detect suboptimal conditions that may not yet show visual symptoms.";
                  Diagnosis.requiresImmediateAction := true |})
      else if negb (String.eqb aiPrediction "healthy")
              && negb (Validity.hasIssues sensorIssues)
      then
        Returns
          (JsObject
             {| Diagnosis.verdict := "VISUAL ISSUE DETECTED";
                Diagnosis.confidence := "medium";
                Diagnosis.message :=
                  percent "🔍 CNN detects issues (" aiConfidence
                    "% confidence) but sensors report normal conditions.";
                Diagnosis.reasoning :=
                  "Visual symptoms detected that may not be related to measured soil conditions.";
                Diagnosis.requiresImmediateAction := true |})
      else
        Returns
          (JsObject
             {| Diagnosis.verdict := "INCONCLUSIVE";
                Diagnosis.confidence := "low";
                Diagnosis.message :=
                  Lit "Analysis results are inconclusive. Further investigation needed.";
                Diagnosis.reasoning :=
                  "Conflicting signals between visual and sensor data.";
                Diagnosis.requiresImmediateAction := false |})
  end.

(** [diagnosis.verdict.includes(...)] and [diagnosis.requiresImmediateAction]
    need [diagnosis] to be an object. *)
Definition determineEmergencyLevelJS (diagnosis : ref Diagnosis.t)
  (sensorAssessment : Assessment.t) : outcome Emergency.t :=
  object <- deref diagnosis ;;
  Returns (determineEmergencyLevel object sensorAssessment).

Definition generateActionableRecommendationsJS (diagnosis : ref Diagnosis.t)
  (sensorData : ref readings) (sensorAssessment : Assessment.t)
  (emergencyLevel : Emergency.t) : outcome (list Recommendation.t) :=
  let recommendations := emergencyActions emergencyLevel in
  if String.eqb (Assessment.status sensorAssessment) "malfunctioning"
  then Returns (recommendations ++ [checkSensorConnections])
  else
    deficiencies <- detectNutrientDeficienciesJS sensorData None ;;
    let nutrient :=
      mapi (fun def index =>
              {| Recommendation.action := getNutrientAction def;
                 Recommendation.reason := Lit (def ++ " deficiency detected");
                 Recommendation.priority := 2 + Z.of_nat index;
                 Recommendation.icon := "🌱" |})
           deficiencies in
    object <- deref sensorData ;;
    Returns
      (sort byPriority
         (recommendations ++ nutrient ++ waterRecommendations object
          ++ phRecommendations object)).

(** The callback of [possible_issues.forEach]. *)
Definition visualDeficiencyJS (confidence : number) (issue : issueTag)
  : outcome (list deficiency) :=
  match issue with
  | TagString issue =>
      Returns
        [ VisualDeficiency "visual"
            (toUpperCase (replace "_deficiency" "" issue))
            "CNN Model" confidence ]
  | TagOther => Throws TypeError   (* [issue.replace] is not a function *)
  end.

Definition identifySpecificDeficienciesJS (aiResult : ref AIInput.t)
  (sensorData : ref readings) (calculatedNPK : option NPK.t)
  : outcome (list deficiency) :=
  ai <- deref aiResult ;;
  visual <-
    match AIInput.possible_issues ai with
    | IssuesFalsy => Returns []
    | IssuesArray tags =>
        forEachPush (visualDeficiencyJS (AIInput.confidence ai)) tags
    | IssuesOther => Throws TypeError   (* [forEach] is not a function *)
    end ;;
  npk <- npkValuesJS sensorData calculatedNPK ;;
  Returns
    (visual
     ++ sensorDeficiency "NITROGEN" (npk "nitrogen") n40 n20
     ++ sensorDeficiency "PHOSPHORUS" (npk "phosphorus") n20 n10
     ++ sensorDeficiency "POTASSIUM" (npk "potassium") n30 n15).

(** Step 2 of [analyzeSituation] with its reads of [sensorData]. *)
Definition estimateNPKJS (sensorData : ref readings) : outcome (option NPK.t) :=
  object <- deref sensorData ;;
  Returns
    match Object.get object "ec", Object.get object "ph" with
    | Some ec, Some ph => Some (calculateNPKFromECpH ec ph)
    | _, _ => None
    end.

(** [analyzeSituation] as the caller may invoke it.  The first statement
    already reads [aiResult.prediction] and [aiResult.confidence] for its
    trace. *)
Definition analyzeSituationJS (aiResult : ref AIInput.t)
  (sensorData : ref readings) : outcome Analysis.t :=
  ai <- deref aiResult ;;
  let aiPrediction := AIInput.prediction ai in
  let aiConfidence := AIInput.confidence ai in
  sensorAssessment <- assessSensorCredibilityJS sensorData ;;
  sensorIssues <- checkSensorValidityJS sensorData ;;
  calculatedNPK <- estimateNPKJS sensorData ;;
  diagnosis <- generateIntelligentDiagnosisJS aiPrediction aiConfidence
                    sensorData sensorAssessment calculatedNPK ;;
  emergencyLevel <- determineEmergencyLevelJS diagnosis sensorAssessment ;;
  recommendations <- generateActionableRecommendationsJS diagnosis
                          sensorData sensorAssessment emergencyLevel ;;
  deficiencies <- identifySpecificDeficienciesJS aiResult sensorData
                       calculatedNPK ;;
  (* [sensorData] is an object here, or [assessSensorCredibility] would
     have thrown; [diagnosis.requiresImmediateAction] is read for
     [generateNextSteps] *)
  readings <- deref sensorData ;;
  verdict <- deref diagnosis ;;
  Returns
    {| Analysis.emergencyLevel := emergencyLevel;
       Analysis.visualAssessment :=
         {| VisualAssessment.prediction := aiPrediction;
            VisualAssessment.confidence := aiConfidence;
            VisualAssessment.message :=
              getVisualAssessmentMessage aiPrediction aiConfidence |};
       Analysis.sensorAssessment :=
         {| SensorReport.assessment := sensorAssessment;
            SensorReport.readings := readings;
            SensorReport.calculatedNPK := calculatedNPK;
            SensorReport.issues := Validity.issues sensorIssues |};
       Analysis.intelligentDiagnosis := verdict;
       Analysis.deficiencies := deficiencies;
       Analysis.recommendations := recommendations;
       Analysis.nextSteps :=
         generateNextSteps emergencyLevel
           (Diagnosis.requiresImmediateAction verdict) |}.

(** ** class SensorService (services/sensorService.js) *)

(** The [standards] table local to [analyzeSensorData]: the engine's
    intervals without [ec]. *)
Definition serviceTable : list (string * Standard.t) :=
  [ ("nitrogen",
     Standard.mk n40 n80 n60 "ppm" "Essential for leaf growth and green color");
    ("phosphorus",
     Standard.mk n20 n50 n35 "ppm"
       "Important for root development and flowering");
    ("potassium",
     Standard.mk n30 n70 n50 "ppm"
       "Improves disease resistance and overall health");
    ("moisture",
     Standard.mk n20 n40 n30 "%"
       "Soil moisture content (lavender prefers dry conditions)");
    ("temperature", Standard.mk n15 n30 n22 "°C" "Ambient temperature");
    ("ph",
     Standard.mk n6_5 n7_5 n7 "pH"
       "Soil acidity/alkalinity (lavender prefers neutral to slightly alkaline)") ].

(** The property read [standards[key]]. *)
Definition serviceStandards (key : string) : property :=
  match assoc serviceTable key with
  | Some s => Own s
  | None =>
      if existsb (String.eqb key) objectPrototypeKeys then Inherited
      else Undefined
  end.

Module SensorAnalysis.
Record t : Type := mk
  { status : string; message : string; issues : list string;
    severity : string; standards : list (string * Standard.t);
    timestamp : string }.
End SensorAnalysis.

(** The body of the [for ... of Object.entries(sensorData)] loop: the
    issue tags one entry contributes. *)
Definition analyzeEntry (entry : string * number) : list string :=
  let '(key, value) := entry in
  match serviceStandards key with
  | Own standard =>
      if Number.lt value (Standard.min standard)
         || Number.gt value (Standard.max standard)
      then [(key ++ "_out_of_range")%string] else []
  | Inherited => []   (* value < undefined || value > undefined *)
  | Undefined => []   (* if (standard) *)
  end.

(** [analyzeSensorData]; [now] is the value of
    [new Date().toISOString()] at the call. *)
Definition analyzeSensorData (now : string) (sensorData : readings)
  : SensorAnalysis.t :=
  let issues := flat_map analyzeEntry (Object.entries sensorData) in
  {| SensorAnalysis.status :=
       if (List.length issues =? 0)%nat then "optimal" else "needs_attention";
     SensorAnalysis.message :=
       if (List.length issues =? 0)%nat
       then "All sensor readings within optimal range"
       else natToString (List.length issues)
            ++ " sensor(s) out of optimal range";
     SensorAnalysis.issues := issues;
     SensorAnalysis.severity :=
       if (2 <? List.length issues)%nat then "high"
       else if (0 <? List.length issues)%nat then "medium" else "low";
     SensorAnalysis.standards := serviceTable;
     SensorAnalysis.timestamp := now |}.

(** ** The analysis route (routes/analysis.js) *)

(** The object the classifier resolves with: the vision result and its
    [test_mode] flag (absent is [false]). *)
Module Classification.
Record t : Type := mk { result : AIResult.t; test_mode : bool }.
End Classification.

(** [`${min}-${max}${unit}`], the two numbers kept symbolic. *)
Inductive rangeText : Type :=
  | Range (min max : number) (unit : string).

Module IssueView.
Record t : Type := mk
  { sensor : string; value : number; unit : string;
    optimalRange : rangeText; status : string }.
End IssueView.

Module Step.
Record t : Type := mk
  { step : nat; action : string; reason : text; icon : string;
    priority : Z }.
End Step.

Module ResponseVisual.
Record t : Type := mk
  { cnnPrediction : string; confidence : number;
    confidencePercentage : text; message : text;
    possibleIssues : list string }.
End ResponseVisual.

Module ResponseSensors.
Record t : Type := mk
  { raw : readings; assessment : SensorReport.t;
    calculatedNPK : option NPK.t; issues : list IssueView.t }.
End ResponseSensors.

Module ResponseDiagnosis.
Record t : Type := mk
  { emergencyLevel : Emergency.t; verdict : string; confidence : string;
    message : text; reasoning : string; requiresImmediateAction : bool }.
End ResponseDiagnosis.

Module ResponseRecommendations.
Record t : Type := mk
  { emergencyLevel : string; priorityOrder : list Step.t;
    totalSteps : nat }.
End ResponseRecommendations.

Module ResponseFinal.
Record t : Type := mk
  { health : string; confidence : number; message : text }.
End ResponseFinal.

Module Response.
Record t : Type := mk
  { success : bool; mode : string; timestamp : string; image : string;
    visualAssessment : ResponseVisual.t;
    sensorReadings : ResponseSensors.t;
    intelligentDiagnosis : ResponseDiagnosis.t;
    deficiencies : list deficiency;
    recommendations : ResponseRecommendations.t;
    nextSteps : NextSteps.t;
    finalDiagnosis : ResponseFinal.t }.
End Response.

(** The callback of [issues.map(issue => ...)]. *)
Definition issueView (issue : Issue.t) : IssueView.t :=
  {| IssueView.sensor := Issue.sensor issue;
     IssueView.value := Issue.value issue;
     IssueView.unit := Issue.unit issue;
     IssueView.optimalRange :=
       Range (Issue.min issue) (Issue.max issue) (Issue.unit issue);
     IssueView.status :=
       if String.eqb (Issue.severity issue) "low"
       then "too_low" else "too_high" |}.

(** The callback of [recommendations.map((rec, index) => ...)]. *)
Definition stepView (rec : Recommendation.t) (index : nat) : Step.t :=
  {| Step.step := index + 1;
     Step.action := Recommendation.action rec;
     Step.reason := Recommendation.reason rec;
     Step.icon := Recommendation.icon rec;
     Step.priority := Recommendation.priority rec |}.

(** The [response] object literal of the POST handler, built from the
    analysis the engine returned. *)
Definition responseFrom (now filename : string)
  (aiResult : Classification.t) (sensorData : readings)
  (intelligentAnalysis : Analysis.t) : Response.t :=
  let ai := Classification.result aiResult in
  {| Response.success := true;
     Response.mode := if Classification.test_mode aiResult then "mock" else "ai";
     Response.timestamp := now;
     Response.image := filename;
     Response.visualAssessment :=
       {| ResponseVisual.cnnPrediction := AIResult.prediction ai;
          ResponseVisual.confidence := AIResult.confidence ai;
          ResponseVisual.confidencePercentage :=
            percent "" (AIResult.confidence ai) "";
          ResponseVisual.message :=
            VisualAssessment.message
              (Analysis.visualAssessment intelligentAnalysis);
          ResponseVisual.possibleIssues :=
            match AIResult.possible_issues ai with
            | Some possible_issues => possible_issues
            | None => []
            end |};
     Response.sensorReadings :=
       {| ResponseSensors.raw := sensorData;
          ResponseSensors.assessment :=
            Analysis.sensorAssessment intelligentAnalysis;
          ResponseSensors.calculatedNPK :=
            SensorReport.calculatedNPK
              (Analysis.sensorAssessment intelligentAnalysis);
          ResponseSensors.issues :=
            map issueView
              (SensorReport.issues
                 (Analysis.sensorAssessment intelligentAnalysis)) |};
     Response.intelligentDiagnosis :=
       let diagnosis := Analysis.intelligentDiagnosis intelligentAnalysis in
       {| ResponseDiagnosis.emergencyLevel :=
            Analysis.emergencyLevel intelligentAnalysis;
          ResponseDiagnosis.verdict := Diagnosis.verdict diagnosis;
          ResponseDiagnosis.confidence := Diagnosis.confidence diagnosis;
          ResponseDiagnosis.message := Diagnosis.message diagnosis;
          ResponseDiagnosis.reasoning := Diagnosis.reasoning diagnosis;
          ResponseDiagnosis.requiresImmediateAction :=
            Diagnosis.requiresImmediateAction diagnosis |};
     Response.deficiencies := Analysis.deficiencies intelligentAnalysis;
     Response.recommendations :=
       {| ResponseRecommendations.emergencyLevel :=
            Emergency.level (Analysis.emergencyLevel intelligentAnalysis);
          ResponseRecommendations.priorityOrder :=
            mapi stepView (Analysis.recommendations intelligentAnalysis);
          ResponseRecommendations.totalSteps :=
            List.length (Analysis.recommendations intelligentAnalysis) |};
     Response.nextSteps := Analysis.nextSteps intelligentAnalysis;
     Response.finalDiagnosis :=
       {| ResponseFinal.health := AIResult.prediction ai;
          ResponseFinal.confidence := AIResult.confidence ai;
          ResponseFinal.message :=
            Diagnosis.message
              (Analysis.intelligentDiagnosis intelligentAnalysis) |} |}.

(** The response to a vision result and a readings object: the engine's
    analysis, then the literal. *)
Definition buildResponse (now filename : string)
  (aiResult : Classification.t) (sensorData : readings) : Response.t :=
  let ai := Classification.result aiResult in
  let intelligentAnalysis := analyzeSituation ai sensorData in
  responseFrom now filename aiResult sensorData intelligentAnalysis.

(** What the request carries in [req.body.sensorData].  Of the values
    [JSON.parse] can return, [null] and an object of numbers are covered;
    a number, a string, a boolean, an array, or an object that holds
    anything but numbers is not. *)
Inductive sensorField : Type :=
  | FieldAbsent                   (* missing or empty: falsy *)
  | FieldUnparseable              (* [JSON.parse] throws *)
  | FieldParsed (r : readings)    (* [JSON.parse] returns a readings object *)
  | FieldParsedNull.              (* [JSON.parse] returns [null] *)

(** The outcome of [await aiService.analyzeImage(req.file.path)]. *)
Inductive aiOutcome : Type :=
  | Resolved (aiResult : Classification.t)
  | Rejected.

Inductive reply : Type :=
  | Status400 (success : bool) (error : string)
  | Json (response : Response.t)
  | Next (error : jsError).       (* [next(error)] in the outer [catch] *)

(** "Parse sensor data": the empty object unless the field parses. *)
Definition parseSensorData (field : sensorField) : ref readings :=
  match field with
  | FieldParsed r => JsObject r
  | FieldParsedNull => JsNull
  | FieldAbsent | FieldUnparseable => JsObject []
  end.

(** The POST handler.  [file] is the [filename] of [req.file] when a file
    was uploaded, [mock] the object [mockImageAnalysis()] returns and [now]
    the time stamp of the response.  An exception of the engine is caught
    and passed to [next]. *)
Definition postAnalysis (now : string) (file : option string)
  (field : sensorField) (ai : aiOutcome) (mock : Classification.t) : reply :=
  match file with
  | None => Status400 false "No image file received"
  | Some filename =>
      let sensorData := parseSensorData field in
      let aiResult :=
        match ai with
        | Resolved aiResult => aiResult
        | Rejected => mock
        end in
      let response :=
        intelligentAnalysis <-
          analyzeSituationJS
            (JsObject (inputOf (Classification.result aiResult))) sensorData ;;
        (* [raw: sensorData]: an object, since the engine has returned *)
        raw <- deref sensorData ;;
        Returns (responseFrom now filename aiResult raw intelligentAnalysis) in
      match response with
      | Returns response => Json response
      | Throws error => Next error
      end
  end.

(** The text of the [error] property of an error reply. *)
Inductive errorText : Type :=
  | InternalServerError           (* 'Internal server error' *)
  | MessageOf (error : jsError).  (* [err.message] *)

Module ErrorReply.
Record t : Type := mk { status : Z; success : bool; error : errorText }.
End ErrorReply.

(** The global error handler of index.js.  A TypeError has no [status]
    property, so [err.status || 500] is 500; [development] tells whether
    [NODE_ENV] is 'development'. *)
Definition globalErrorHandler (development : bool) (err : jsError)
  : ErrorReply.t :=
  {| ErrorReply.status := match err with TypeError => 500 end;
     ErrorReply.success := false;
     ErrorReply.error :=
       if development then MessageOf err else InternalServerError |}.

(** ** The dashboard (lib/widgets/health_indicator.dart) *)

Module Colors.
Inductive t : Type := red | orange | green | grey.
End Colors.

Definition downcase (c : ascii) : ascii :=
  let n := nat_of_ascii c in
  if ((65 <=? n) && (n <=? 90))%nat then ascii_of_nat (n + 32) else c.

(** [s.toLowerCase()] on the ASCII letters.  No other character maps to a
    letter of 'high', 'medium' or 'low', so the [switch] below takes the
    same branch as in Dart for every string. *)
Fixpoint toLowerCase (s : string) : string :=
  match s with
  | EmptyString => EmptyString
  | String c rest => String (downcase c) (toLowerCase rest)
  end.

(** [_getEmergencyColor(String? level)] *)
Definition _getEmergencyColor (level : option string) : Colors.t :=
  match level with
  | Some level =>
      let l := toLowerCase level in
      if String.eqb l "high" then Colors.red
      else if String.eqb l "medium" then Colors.orange
      else if String.eqb l "low" then Colors.green
      else Colors.grey
  | None => Colors.grey
  end.

(** * Vocabulary of the properties *)

(** [v] is exactly 0, of either sign ([-0 === 0] holds). *)
Definition isZero (v : number) : Prop := exists s, v = S754_zero s.

(** [key] is one of the seven sensors of the standards table. *)
Definition isSensor (key : string) : Prop :=
  exists s, assoc sensorTable key = Some s.

(** [value] falls outside the [min, max] interval of [standard]. *)
Definition outside (standard : Standard.t) (value : number) : Prop :=
  Number.lt value (Standard.min standard) = true
  \/ Number.gt value (Standard.max standard) = true.

(** [needle] occurs in [hay]. *)
Definition Contains (needle hay : string) : Prop :=
  exists before after, hay = (before ++ needle ++ after)%string.

(** The three classes of the vision model. *)
Definition knownPrediction (aiPrediction : string) : Prop :=
  aiPrediction = "healthy" \/ aiPrediction = "nutrient_deficient"
  \/ aiPrediction = "diseased".

(** Order by a numeric key, and the elements of one key. *)
Definition nonDecreasing {A : Type} (key : A -> Z) (a b : A) : Prop :=
  (key a <= key b)%Z.

Definition withKey {A : Type} (key : A -> Z) (p : Z) (a : A) : bool :=
  (key a =? p)%Z.

(** The recommendations in the order in which they are pushed, along the
    path the call takes. *)
Definition insertionOrder (sensorData : readings)
  (sensorAssessment : Assessment.t) (emergencyLevel : Emergency.t)
  : list Recommendation.t :=
  if String.eqb (Assessment.status sensorAssessment) "malfunctioning"
  then emergencyActions emergencyLevel ++ [checkSensorConnections]
  else pushedRecommendations sensorData emergencyLevel.

(** The clamp of the three formulas. *)
Definition clamp (x : number) : number := Math.min n100 (Math.max n0 x).

(** The three estimates before clamping, as the specification writes
    them. *)
Definition nitrogenFormula (ec ph : number) : number :=
  Number.add (Number.mul ec n25) (Number.mul (Number.sub ph n6) n10).

Definition phosphorusFormula (ec ph : number) : number :=
  Number.add (Number.mul ec n15)
    (Number.mul (Number.sub n7 (Math.abs (Number.sub n7 ph))) n15).

Definition potassiumFormula (ec ph : number) : number :=
  Number.add (Number.mul ec n20) (Number.mul (Number.sub ph n6_5) n12).

(** Neither NaN nor an infinity. *)
Definition isFinite (x : number) : bool :=
  match x with
  | S754_zero _ | S754_finite _ _ _ => true
  | _ => false
  end.

(** The largest power of two among the doubles, [2^1023]. *)
Definition twoTo1023 : number := S754_finite false (2 ^ 52) 971.

(** The part of an analysis the scenarios of the specification look at. *)
Definition outline (analysis : Analysis.t)
  : string * string * string * list (string * Z) :=
  (Assessment.status
     (SensorReport.assessment (Analysis.sensorAssessment analysis)),
   Diagnosis.verdict (Analysis.intelligentDiagnosis analysis),
   Emergency.level (Analysis.emergencyLevel analysis),
   map (fun r => (Recommendation.action r, Recommendation.priority r))
     (Analysis.recommendations analysis)).

(** The double 0.9. *)
Definition confidence90 : number :=
  Eval vm_compute in Number.dyadic 8106479329266893 (-53).

(** *** Vocabulary of the further properties *)

(** The reading is for a sensor of the engine's table and lies outside its
    interval. *)
Definition flagged (entry : string * number) : bool :=
  match assoc sensorTable (fst entry) with
  | Some standard =>
      Number.lt (snd entry) (Standard.min standard)
      || Number.gt (snd entry) (Standard.max standard)
  | None => false
  end.

(** The first key of a readings object has a truthy entry in the engine's
    table object. *)
Definition firstKeyKnown (sensorData : readings) : Prop :=
  match sensorData with
  | [] => False
  | (key, _) :: _ => truthy (sensorStandards key) = true
  end.

(** The labels [detectNutrientDeficiencies] can push, in push order. *)
Definition nutrientLabels : list string :=
  ["Nitrogen (N)"; "Phosphorus (P)"; "Potassium (K)"].

(** The name [identifySpecificDeficiencies] uses for a label. *)
Definition nutrientCode (label : string) : string :=
  if String.eqb label "Nitrogen (N)" then "NITROGEN"
  else if String.eqb label "Phosphorus (P)" then "PHOSPHORUS"
  else "POTASSIUM".

Definition deficiencyName (d : deficiency) : string :=
  match d with
  | VisualDeficiency _ name _ _ => name
  | SensorDeficiency _ name _ _ _ _ => name
  end.

Definition isVisual (d : deficiency) : bool :=
  match d with VisualDeficiency _ _ _ _ => true | _ => false end.

(** Every action the recommendation generator can emit. *)
Definition knownActions : list string :=
  [ "ISOLATE PLANT"; "CHECK SENSOR CONNECTIONS";
    "APPLY NITROGEN-RICH FERTILIZER (20-10-10)";
    "ADD BONE MEAL OR ROCK PHOSPHATE";
    "APPLY POTASH OR POTASSIUM SULFATE";
    "WATER IMMEDIATELY"; "REDUCE WATERING";
    "ADD LIME TO RAISE pH"; "ADD SULFUR TO LOWER pH" ].

Definition actions (l : list Recommendation.t) : list string :=
  map Recommendation.action l.

(** Checks on a list of actions, decided by computation. *)
Definition member (a : string) (l : list string) : bool :=
  existsb (String.eqb a) l.

Fixpoint distinct (l : list string) : bool :=
  match l with
  | [] => true
  | a :: rest => negb (member a rest) && distinct rest
  end.

Definition wellFormedActions (l : list string) : bool :=
  distinct l
  && (List.length l <=? 6)%nat
  && forallb (fun a => member a knownActions) l
  && negb (member "WATER IMMEDIATELY" l && member "REDUCE WATERING" l)
  && negb (member "ADD LIME TO RAISE pH" l
           && member "ADD SULFUR TO LOWER pH" l).

(** The colour a colour name of the engine stands for. *)
Definition namedColor (name : string) : Colors.t :=
  if String.eqb name "red" then Colors.red
  else if String.eqb name "orange" then Colors.orange
  else if String.eqb name "green" then Colors.green
  else Colors.grey.

(** * Properties of the engine *)

(** ** Numbers *)

Lemma strictEq_finite (v : number) (s : bool) (m : positive) (e : Z) :
  Number.strictEq v (S754_finite s m e) = true <-> v = S754_finite s m e.
Proof.
  unfold Number.strictEq, SFeqb.
  destruct v as [s' | s' | | s' m' e']; simpl.
  - destruct s; split; discriminate.
  - destruct s'; split; discriminate.
  - split; discriminate.
  - change (Pos.compare_cont Eq m' m) with (Pos.compare m' m).
    destruct s', s; simpl; try (split; discriminate);
      destruct (Z.compare_spec e' e) as [He | He | He];
      try (split; [discriminate | intros H; inversion H; lia]);
      destruct (Pos.compare_spec m' m) as [Hm | Hm | Hm]; simpl;
      try (split; [discriminate | intros H; inversion H; lia]);
      subst; split; reflexivity.
Qed.

Lemma strictEq_zero (v : number) :
  Number.strictEq v n0 = true <-> isZero v.
Proof.
  unfold Number.strictEq, SFeqb, isZero.
  destruct v as [s' | s' | | s' m' e']; simpl.
  - split; [intros _; now exists s' | reflexivity].
  - destruct s'; split; try discriminate; intros [s H]; discriminate.
  - split; [discriminate | intros [s H]; discriminate].
  - destruct s'; split; try discriminate; intros [s H]; discriminate.
Qed.

Lemma strictEq_100 (v : number) : Number.strictEq v n100 = true <-> v = n100.
Proof. apply strictEq_finite. Qed.

(** ** The standards table *)

Lemma assoc_In {A : Type} (l : list (string * A)) (k : string) (a : A) :
  assoc l k = Some a -> In (k, a) l.
Proof.
  induction l as [| [k' a'] l IH]; simpl; [discriminate |].
  destruct (String.eqb_spec k' k) as [-> | _].
  - intros [= ->]. now left.
  - intros H. right. now apply IH.
Qed.

(** Every interval of the table lies strictly between 0 and 100. *)
Lemma table_bounds (key : string) (s : Standard.t) :
  assoc sensorTable key = Some s ->
  (forall b, Number.lt (S754_zero b) (Standard.min s) = true)
  /\ Number.gt n100 (Standard.max s) = true.
Proof.
  intros H. apply assoc_In in H. simpl in H.
  repeat (destruct H as [H | H];
          [ injection H as _ <-; split; [intros []; reflexivity | reflexivity]
          | ]).
  contradiction.
Qed.

Lemma sensor_own (key : string) :
  isSensor key -> exists s, sensorStandards key = Own s.
Proof.
  intros [s H]. exists s. unfold sensorStandards. now rewrite H.
Qed.

Lemma in_range_not_zero (key : string) (s : Standard.t) (v : number) :
  assoc sensorTable key = Some s -> ~ outside s v -> ~ isZero v.
Proof.
  intros Hs Hin [b ->]. apply Hin. left.
  now destruct (table_bounds key s Hs) as [H0 _].
Qed.

Lemma in_range_not_100 (key : string) (s : Standard.t) (v : number) :
  assoc sensorTable key = Some s -> ~ outside s v -> v <> n100.
Proof.
  intros Hs Hin ->. apply Hin. right.
  now destruct (table_bounds key s Hs) as [_ H100].
Qed.

(** ** Credibility of the readings *)

Lemma allZero_true (sensorData : readings) :
  Forall (fun entry => isZero (snd entry)) sensorData ->
  allZero sensorData = true.
Proof.
  intros H. unfold allZero, Object.values.
  apply forallb_forall. intros val Hin.
  apply in_map_iff in Hin. destruct Hin as [entry [<- Hin]].
  rewrite Forall_forall in H. specialize (H entry Hin).
  apply strictEq_zero in H. now rewrite H.
Qed.

Lemma allZero_false (sensorData : readings) (key : string) (v : number) :
  In (key, v) sensorData -> ~ isZero v -> allZero sensorData = false.
Proof.
  intros Hin Hnz. destruct (allZero sensorData) eqn:E; [| reflexivity].
  exfalso. apply Hnz. apply strictEq_zero.
  unfold allZero in E. rewrite forallb_forall in E.
  specialize (E v (in_map snd _ _ Hin)).
  now apply orb_prop in E as [E | E].
Qed.

Lemma allMax_false (sensorData : readings) (key : string) (v : number) :
  In (key, v) sensorData -> v <> n100 -> allMax sensorData = false.
Proof.
  intros Hin Hne. destruct (allMax sensorData) eqn:E; [| reflexivity].
  exfalso. apply Hne. apply strictEq_100.
  unfold allMax in E. rewrite forallb_forall in E.
  specialize (E v (in_map snd _ _ Hin)).
  now apply andb_prop in E as [_ E].
Qed.

Lemma allMax_true (sensorData : readings) :
  Forall (fun entry => isSensor (fst entry) /\ snd entry = n100) sensorData ->
  allMax sensorData = true.
Proof.
  intros H. unfold allMax. apply forallb_forall. intros val Hval.
  assert (Hv : val = n100).
  { apply in_map_iff in Hval. destruct Hval as [entry [<- Hin]].
    rewrite Forall_forall in H. now apply H. }
  subst val.
  destruct sensorData as [| [k0 v0] rest]; [contradiction |].
  apply Forall_inv in H. simpl in H. destruct H as [Hk ->].
  simpl. rewrite String.eqb_refl. simpl.
  destruct (sensor_own k0 Hk) as [s ->]. reflexivity.
Qed.

Lemma no_issue_entry (key : string) (value : number) :
  (forall s, assoc sensorTable key = Some s -> ~ outside s value) ->
  checkEntry (key, value) = [].
Proof.
  intros H. unfold checkEntry, sensorStandards.
  destruct (assoc sensorTable key) as [s |] eqn:E.
  - specialize (H s eq_refl). unfold outside in H.
    destruct (Number.lt value (Standard.min s)); [exfalso; auto |].
    destruct (Number.gt value (Standard.max s)); [exfalso; auto |].
    reflexivity.
  - now destruct (existsb _ _).
Qed.

Lemma no_issues (sensorData : readings) :
  (forall key value s,
      In (key, value) sensorData -> assoc sensorTable key = Some s ->
      ~ outside s value) ->
  Validity.issues (checkSensorValidity sensorData) = [].
Proof.
  intros H. unfold checkSensorValidity, Object.entries.
  cbn [Validity.issues].
  induction sensorData as [| [key value] rest IH]; [reflexivity |].
  cbn [flat_map]. rewrite no_issue_entry.
  - apply IH. intros k v s Hin. apply H. now right.
  - intros s. apply H. now left.
Qed.

(** C1, as corrected.  When the readings object is not empty, every key is
    one of the seven sensors of the standards table and every value is
    exactly 100, the assessment is 'suspicious'. *)
Theorem all_100_known_sensors_suspicious (sensorData : readings) :
  sensorData <> [] ->
  Forall (fun entry => isSensor (fst entry) /\ snd entry = n100) sensorData ->
  Assessment.status (assessSensorCredibility sensorData) = "suspicious".
Proof.
  intros Hne H. unfold assessSensorCredibility.
  destruct sensorData as [| [k0 v0] rest]; [contradiction |].
  rewrite (allZero_false _ k0 v0).
  - now rewrite (allMax_true _ H).
  - now left.
  - apply Forall_inv in H. destruct H as [_ Hv]. simpl in Hv. subst v0.
    intros [s Hs]. discriminate.
Qed.

Lemma all_100_known_sensors_suspicious_witness :
  Assessment.status
    (assessSensorCredibility [("nitrogen", n100); ("ph", n100)])
  = "suspicious".
Proof.
  apply all_100_known_sensors_suspicious.
  - discriminate.
  - repeat constructor; simpl; eexists; reflexivity.
Defined.

(** C1 as stated fails: an empty readings object (every supplied value is
    100, vacuously) is 'malfunctioning', and a single reading of 100 for a
    name outside the standards table is 'credible'. *)
Lemma all_100_not_suspicious :
  (Forall (fun entry : string * number => snd entry = n100) []
   /\ Assessment.status (assessSensorCredibility []) = "malfunctioning")
  /\ (Forall (fun entry => snd entry = n100) [("humidity", n100)]
      /\ Assessment.status (assessSensorCredibility [("humidity", n100)])
         = "credible").
Proof.
  split; split; try reflexivity; repeat constructor.
Qed.

(** C2.  When every supplied value is exactly 0 the assessment is
    'malfunctioning', and the recommendations are CHECK SENSOR CONNECTIONS
    at priority 1, preceded by ISOLATE PLANT at priority 1 exactly when the
    emergency level is 'high'; nothing else is appended.  This holds for the
    recommendation generator on its own and inside [analyzeSituation] for
    every vision result. *)
Theorem all_zero_malfunctioning (sensorData : readings) :
  Forall (fun entry => isZero (snd entry)) sensorData ->
  let summary :=
    map (fun r => (Recommendation.action r, Recommendation.priority r)) in
  let expected (emergencyLevel : Emergency.t) :=
    if String.eqb (Emergency.level emergencyLevel) "high"
    then [("ISOLATE PLANT", 1%Z); ("CHECK SENSOR CONNECTIONS", 1%Z)]
    else [("CHECK SENSOR CONNECTIONS", 1%Z)] in
  Assessment.status (assessSensorCredibility sensorData) = "malfunctioning"
  /\ (forall diagnosis emergencyLevel,
         summary (generateActionableRecommendations diagnosis sensorData
                    (assessSensorCredibility sensorData) emergencyLevel)
         = expected emergencyLevel)
  /\ (forall aiResult,
         let analysis := analyzeSituation aiResult sensorData in
         summary (Analysis.recommendations analysis)
         = expected (Analysis.emergencyLevel analysis)).
Proof.
  intros H summary expected.
  assert (Hs : Assessment.status (assessSensorCredibility sensorData)
               = "malfunctioning").
  { unfold assessSensorCredibility. now rewrite (allZero_true _ H). }
  assert (Hr : forall diagnosis emergencyLevel,
             summary (generateActionableRecommendations diagnosis sensorData
                        (assessSensorCredibility sensorData) emergencyLevel)
             = expected emergencyLevel).
  { intros diagnosis emergencyLevel.
    unfold generateActionableRecommendations. rewrite Hs. simpl.
    unfold emergencyActions, expected.
    now destruct (String.eqb (Emergency.level emergencyLevel) "high"). }
  repeat split; [exact Hs | exact Hr |].
  intros aiResult analysis. apply Hr.
Qed.

Lemma all_zero_malfunctioning_witness :
  Assessment.status
    (assessSensorCredibility [("nitrogen", n0); ("moisture", S754_zero true)])
  = "malfunctioning".
Proof.
  apply all_zero_malfunctioning.
  repeat constructor; simpl; eexists; reflexivity.
Defined.

(** C3, as corrected.  When no supplied value falls outside the interval of
    its own standard, the issues list is empty; the status is 'credible' as
    soon as at least one supplied key is a sensor of the standards table. *)
Theorem in_range_credible (sensorData : readings) :
  (forall key value s,
      In (key, value) sensorData -> assoc sensorTable key = Some s ->
      ~ outside s value) ->
  Validity.issues (checkSensorValidity sensorData) = []
  /\ (forall aiResult,
         SensorReport.issues
           (Analysis.sensorAssessment (analyzeSituation aiResult sensorData))
         = [])
  /\ ((exists key, In key (Object.keys sensorData) /\ isSensor key) ->
      Assessment.status (assessSensorCredibility sensorData) = "credible").
Proof.
  intros H. pose proof (no_issues sensorData H) as Hi.
  repeat split; [exact Hi | intros; exact Hi |].
  intros [key [Hkey [s Hs]]].
  apply in_map_iff in Hkey. destruct Hkey as [[k v] [Hk Hin]].
  simpl in Hk. subst k.
  unfold assessSensorCredibility.
  rewrite (allZero_false _ key v Hin (in_range_not_zero key s v Hs (H _ _ _ Hin Hs))).
  rewrite (allMax_false _ key v Hin (in_range_not_100 key s v Hs (H _ _ _ Hin Hs))).
  simpl in Hi. simpl. now rewrite Hi.
Qed.

Lemma in_range_credible_witness :
  Assessment.status
    (assessSensorCredibility [("nitrogen", n60); ("ph", n7); ("humidity", n0)])
  = "credible".
Proof.
  apply in_range_credible.
  - intros key value s Hin Hs [Ho | Ho]; simpl in Hin;
      repeat (destruct Hin as [Hin | Hin];
              [ injection Hin as <- <-; vm_compute in Hs;
                try discriminate; injection Hs as <-; discriminate Ho
              | ]);
      contradiction.
  - exists "nitrogen". split; [now left | eexists; reflexivity].
Defined.

(** C3 as stated fails: in an empty readings object, and in one whose only
    reading is a 0 for a name outside the standards table, no value falls
    outside its standard's interval, yet the status is 'malfunctioning'. *)
Lemma in_range_not_credible :
  ((forall key value s,
       In (key, value) (@nil (string * number)) ->
       assoc sensorTable key = Some s -> ~ outside s value)
   /\ Assessment.status (assessSensorCredibility []) = "malfunctioning")
  /\ ((forall key value s,
          In (key, value) [("humidity", n0)] ->
          assoc sensorTable key = Some s -> ~ outside s value)
      /\ Assessment.status (assessSensorCredibility [("humidity", n0)])
         = "malfunctioning").
Proof.
  split; split; try reflexivity.
  - intros key value s [].
  - intros key value s [Hin | []] Hs. injection Hin as <- <-. discriminate.
Qed.

(** ** Substring tests *)

Lemma prefix_append (needle hay : string) :
  String.prefix needle hay = true
  <-> exists after, hay = (needle ++ after)%string.
Proof.
  revert hay. induction needle as [| a needle IH]; intros hay.
  - destruct hay; simpl; split; trivial; intros _; eexists; reflexivity.
  - destruct hay as [| b hay]; simpl.
    + split; [discriminate | intros [after H]; discriminate].
    + destruct (ascii_dec a b) as [-> | Hab].
      * rewrite IH. split; intros [after H]; exists after;
          [now rewrite H | now injection H].
      * split; [discriminate |].
        intros [after H]. injection H as H _. now contradiction Hab.
Qed.

Lemma includes_Contains (needle hay : string) :
  includes needle hay = true <-> Contains needle hay.
Proof.
  induction hay as [| c hay IH].
  - cbn [includes]. rewrite orb_false_r, prefix_append. split.
    + intros [after H]. now exists "", after.
    + intros [before [after H]]. destruct before; [now exists after |].
      discriminate.
  - cbn [includes]. rewrite orb_true_iff, IH, prefix_append. split.
    + intros [[after H] | [before [after H]]].
      * now exists "", after.
      * exists (String c before), after. simpl. now rewrite H.
    + intros [before [after H]]. destruct before as [| c' before].
      * left. now exists after.
      * right. simpl in H. injection H as _ H. now exists before, after.
Qed.

(** ** Emergency level *)

(** C5.  [determineEmergencyLevel] returns the 'high' record exactly when
    the verdict contains "DISEASE" or immediate action is required;
    otherwise the 'medium' record exactly when the status is
    'malfunctioning' or the verdict contains "WARNING"; otherwise the 'low'
    record.  Each level carries its own colour, icon and message. *)
Theorem emergency_level_rules (diagnosis : Diagnosis.t)
  (sensorAssessment : Assessment.t) :
  let urgent :=
    Contains "DISEASE" (Diagnosis.verdict diagnosis)
    \/ Diagnosis.requiresImmediateAction diagnosis = true in
  let attention :=
    Assessment.status sensorAssessment = "malfunctioning"
    \/ Contains "WARNING" (Diagnosis.verdict diagnosis) in
  let result := determineEmergencyLevel diagnosis sensorAssessment in
  (Emergency.level result = "high" <-> urgent)
  /\ (Emergency.level result = "medium" <-> ~ urgent /\ attention)
  /\ (Emergency.level result = "low" <-> ~ urgent /\ ~ attention)
  /\ (Emergency.level result = "high" ->
      result = Emergency.mk "high" "red" "🚨" "IMMEDIATE ACTION REQUIRED")
  /\ (Emergency.level result = "medium" ->
      result = Emergency.mk "medium" "orange" "⚠️" "ATTENTION NEEDED")
  /\ (Emergency.level result = "low" ->
      result = Emergency.mk "low" "green" "✅" "MONITOR REGULARLY").
Proof.
  intros urgent attention result.
  assert (Hu : includes "DISEASE" (Diagnosis.verdict diagnosis)
               || Diagnosis.requiresImmediateAction diagnosis = true
               <-> urgent).
  { unfold urgent. now rewrite orb_true_iff, includes_Contains. }
  assert (Ha : String.eqb (Assessment.status sensorAssessment) "malfunctioning"
               || includes "WARNING" (Diagnosis.verdict diagnosis) = true
               <-> attention).
  { unfold attention.
    now rewrite orb_true_iff, includes_Contains, String.eqb_eq. }
  subst result. unfold determineEmergencyLevel.
  destruct (includes "DISEASE" (Diagnosis.verdict diagnosis)
            || Diagnosis.requiresImmediateAction diagnosis) eqn:Eu.
  - assert (urgent) by now apply Hu.
    cbn. repeat split; try discriminate; tauto.
  - assert (~ urgent) by (intros Hc; apply Hu in Hc; discriminate).
    destruct (String.eqb (Assessment.status sensorAssessment) "malfunctioning"
              || includes "WARNING" (Diagnosis.verdict diagnosis)) eqn:Ea.
    + assert (attention) by now apply Ha.
      cbn. repeat split; try discriminate; tauto.
    + assert (~ attention) by (intros Hc; apply Ha in Hc; discriminate).
      cbn. repeat split; try discriminate; tauto.
Qed.

Lemma emergency_level_rules_witness :
  Emergency.level
    (determineEmergencyLevel
       (Diagnosis.mk "EARLY WARNING" "medium" (Lit "") "" false)
       (Assessment.mk "credible" "" "high" ""))
  = "medium".
Proof.
  apply emergency_level_rules. split.
  - intros [Hc | Hc]; [| discriminate Hc].
    apply includes_Contains in Hc. discriminate Hc.
  - right. now exists "EARLY ", "".
Defined.

(** ** Diagnosis *)

Lemma hasIssues_true (sensorData : readings) :
  Validity.hasIssues (checkSensorValidity sensorData) = true
  <-> Validity.issues (checkSensorValidity sensorData) <> [].
Proof.
  cbn [checkSensorValidity Validity.hasIssues Validity.issues].
  destruct (flat_map checkEntry (Object.entries sensorData)); simpl.
  - split; [discriminate | congruence].
  - split; [discriminate | reflexivity].
Qed.

Lemma hasIssues_false (sensorData : readings) :
  Validity.hasIssues (checkSensorValidity sensorData) = false
  <-> Validity.issues (checkSensorValidity sensorData) = [].
Proof.
  cbn [checkSensorValidity Validity.hasIssues Validity.issues].
  destruct (flat_map checkEntry (Object.entries sensorData)); simpl.
  - split; reflexivity.
  - split; discriminate.
Qed.

(** The verdict and the action flag of every diagnosis the engine can
    produce, by the rule that produced it. *)
Lemma diagnosis_rule (aiPrediction : string) (aiConfidence : number)
  (sensorData : readings) (sensorAssessment : Assessment.t)
  (calculatedNPK : option NPK.t) :
  let d :=
    generateIntelligentDiagnosis aiPrediction aiConfidence sensorData
      sensorAssessment calculatedNPK in
  let hasIssues := Validity.hasIssues (checkSensorValidity sensorData) in
  let outcome := (Diagnosis.verdict d, Diagnosis.requiresImmediateAction d) in
  (aiPrediction = "healthy" /\ hasIssues = false
   /\ outcome = ("PLANT IS HEALTHY", false))
  \/ (aiPrediction = "nutrient_deficient" /\ hasIssues = true
      /\ outcome = ("NUTRIENT DEFICIENCY CONFIRMED", true))
  \/ (aiPrediction = "diseased" /\ hasIssues = true
      /\ outcome = ("DISEASE DETECTED", true))
  \/ (aiPrediction = "healthy" /\ hasIssues = true
      /\ Assessment.status sensorAssessment = "malfunctioning"
      /\ outcome = ("SENSOR MALFUNCTION", false))
  \/ (aiPrediction = "healthy" /\ hasIssues = true
      /\ Assessment.status sensorAssessment <> "malfunctioning"
      /\ outcome = ("EARLY WARNING", true))
  \/ (aiPrediction <> "healthy" /\ hasIssues = false
      /\ outcome = ("VISUAL ISSUE DETECTED", true))
  \/ (~ knownPrediction aiPrediction /\ hasIssues = true
      /\ outcome = ("INCONCLUSIVE", false)).
Proof.
  intros d hasIssues outcome. subst outcome d.
  unfold generateIntelligentDiagnosis, agreementVerdict. fold hasIssues.
  destruct (String.eqb_spec aiPrediction "healthy") as [Hh | Hh].
  - destruct hasIssues; cbn.
    + destruct (String.eqb_spec (Assessment.status sensorAssessment)
                  "malfunctioning") as [Hm | Hm]; cbn; tauto.
    + tauto.
  - destruct hasIssues; cbn.
    + destruct (String.eqb_spec aiPrediction "nutrient_deficient")
        as [Hn | Hn]; cbn; [tauto |].
      destruct (String.eqb_spec aiPrediction "diseased") as [Hd | Hd];
        cbn; [tauto |].
      do 6 right. unfold knownPrediction. tauto.
    + tauto.
Qed.

(** C4.  With prediction 'healthy' and at least one out-of-range issue the
    verdict is SENSOR MALFUNCTION (no immediate action) when the assessment
    status is 'malfunctioning' and EARLY WARNING (immediate action)
    otherwise.  The agreement rules come first: whatever the assessment
    status, 'healthy' without issues is PLANT IS HEALTHY, and
    'nutrient_deficient' or 'diseased' with issues is NUTRIENT DEFICIENCY
    CONFIRMED or DISEASE DETECTED. *)
Theorem healthy_with_issues (aiPrediction : string) (aiConfidence : number)
  (sensorData : readings) (sensorAssessment : Assessment.t)
  (calculatedNPK : option NPK.t) :
  let d :=
    generateIntelligentDiagnosis aiPrediction aiConfidence sensorData
      sensorAssessment calculatedNPK in
  let issues := Validity.issues (checkSensorValidity sensorData) in
  let outcome := (Diagnosis.verdict d, Diagnosis.requiresImmediateAction d) in
  (aiPrediction = "healthy" -> issues <> [] ->
   (Assessment.status sensorAssessment = "malfunctioning" ->
    outcome = ("SENSOR MALFUNCTION", false))
   /\ (Assessment.status sensorAssessment <> "malfunctioning" ->
       outcome = ("EARLY WARNING", true)))
  /\ (aiPrediction = "healthy" -> issues = [] ->
      outcome = ("PLANT IS HEALTHY", false))
  /\ (aiPrediction = "nutrient_deficient" -> issues <> [] ->
      outcome = ("NUTRIENT DEFICIENCY CONFIRMED", true))
  /\ (aiPrediction = "diseased" -> issues <> [] ->
      outcome = ("DISEASE DETECTED", true)).
Proof.
  intros d issues outcome. subst outcome d issues.
  unfold generateIntelligentDiagnosis, agreementVerdict.
  split; [| split; [| split]].
  - intros -> Hi. apply hasIssues_true in Hi. rewrite Hi. cbn. split.
    + intros Hs. rewrite Hs. reflexivity.
    + intros Hs. apply String.eqb_neq in Hs. rewrite Hs. reflexivity.
  - intros -> Hi. apply hasIssues_false in Hi. rewrite Hi. reflexivity.
  - intros -> Hi. apply hasIssues_true in Hi. rewrite Hi. reflexivity.
  - intros -> Hi. apply hasIssues_true in Hi. rewrite Hi. reflexivity.
Qed.

Lemma healthy_with_issues_witness :
  let sensorData := [("nitrogen", n0); ("ph", n0)] in
  let d :=
    generateIntelligentDiagnosis "healthy" n1 sensorData
      (assessSensorCredibility sensorData) None in
  (Diagnosis.verdict d, Diagnosis.requiresImmediateAction d)
  = ("SENSOR MALFUNCTION", false).
Proof.
  intros sensorData d.
  destruct (healthy_with_issues "healthy" n1 sensorData
              (assessSensorCredibility sensorData) None) as [H _].
  destruct (H eq_refl) as [Hm _]; [discriminate |].
  apply Hm. reflexivity.
Defined.

(** Keep only the last component of a conjunction [H]. *)
Ltac last_conjunct H :=
  repeat match type of H with _ /\ _ => destruct H as [_ H] end.

(** The fallback is taken exactly for an unknown prediction with issues. *)
Lemma inconclusive_iff (aiPrediction : string) (aiConfidence : number)
  (sensorData : readings) (sensorAssessment : Assessment.t)
  (calculatedNPK : option NPK.t) :
  let d :=
    generateIntelligentDiagnosis aiPrediction aiConfidence sensorData
      sensorAssessment calculatedNPK in
  (Diagnosis.verdict d = "INCONCLUSIVE"
   <-> ~ knownPrediction aiPrediction
       /\ Validity.hasIssues (checkSensorValidity sensorData) = true)
  /\ (Diagnosis.verdict d = "INCONCLUSIVE" ->
      Diagnosis.requiresImmediateAction d = false).
Proof.
  pose proof (diagnosis_rule aiPrediction aiConfidence sensorData
                sensorAssessment calculatedNPK) as H.
  cbv zeta in *. unfold knownPrediction in *.
  destruct H as [H | [H | [H | [H | [H | [H | H]]]]]].
  1-3: destruct H as [Hp [Hi H]].
  4-5: destruct H as [Hp [Hi [_ H]]].
  6-7: destruct H as [Hp [Hi H]].
  all: injection H as Hv Ha; rewrite Hv, Ha.
  7: tauto.
  all: split; [split; [discriminate |] | discriminate].
  all: intros [Hu Hi']; exfalso; try (apply Hu; tauto); congruence.
Qed.


(** C9.  For a prediction among 'healthy', 'nutrient_deficient' and
    'diseased' the diagnosis is never the INCONCLUSIVE fallback. *)
Theorem known_prediction_conclusive (aiPrediction : string)
  (aiConfidence : number) (sensorData : readings)
  (sensorAssessment : Assessment.t) (calculatedNPK : option NPK.t) :
  knownPrediction aiPrediction ->
  Diagnosis.verdict
    (generateIntelligentDiagnosis aiPrediction aiConfidence sensorData
       sensorAssessment calculatedNPK)
  <> "INCONCLUSIVE".
Proof.
  intros Hk.
  pose proof (diagnosis_rule aiPrediction aiConfidence sensorData
                sensorAssessment calculatedNPK) as H.
  cbv zeta in H.
  destruct H as [H | [H | [H | [H | [H | [H | H]]]]]].
  7: { now destruct H as [Hu _]. }
  all: last_conjunct H.
  all: apply (f_equal fst) in H; cbn [fst] in H; rewrite H; discriminate.
Qed.

Lemma known_prediction_conclusive_witness :
  Diagnosis.verdict
    (generateIntelligentDiagnosis "diseased" n1 [("moisture", n10)]
       (assessSensorCredibility [("moisture", n10)]) None)
  <> "INCONCLUSIVE".
Proof.
  apply known_prediction_conclusive. right. right. reflexivity.
Defined.

(** C10.  A diagnosis with verdict EARLY WARNING requires immediate action,
    so its emergency level is 'high' for every assessment; and for every
    diagnosis the engine produces, a 'medium' level is due to a
    'malfunctioning' assessment, never to the "WARNING" test. *)
Theorem early_warning_is_high (aiPrediction : string) (aiConfidence : number)
  (sensorData : readings) (sensorAssessment : Assessment.t)
  (calculatedNPK : option NPK.t) :
  let d :=
    generateIntelligentDiagnosis aiPrediction aiConfidence sensorData
      sensorAssessment calculatedNPK in
  (Diagnosis.verdict d = "EARLY WARNING" ->
   Diagnosis.requiresImmediateAction d = true
   /\ forall assessment,
        Emergency.level (determineEmergencyLevel d assessment) = "high")
  /\ (forall assessment,
         Emergency.level (determineEmergencyLevel d assessment) = "medium" ->
         Assessment.status assessment = "malfunctioning").
Proof.
  intros d.
  pose proof (diagnosis_rule aiPrediction aiConfidence sensorData
                sensorAssessment calculatedNPK) as H.
  cbv zeta in H. fold d in H.
  assert (Hd : exists verdict action,
             Diagnosis.verdict d = verdict
             /\ Diagnosis.requiresImmediateAction d = action
             /\ In (verdict, action)
                  [ ("PLANT IS HEALTHY", false);
                    ("NUTRIENT DEFICIENCY CONFIRMED", true);
                    ("DISEASE DETECTED", true);
                    ("SENSOR MALFUNCTION", false);
                    ("EARLY WARNING", true);
                    ("VISUAL ISSUE DETECTED", true);
                    ("INCONCLUSIVE", false) ]).
  { exists (Diagnosis.verdict d), (Diagnosis.requiresImmediateAction d).
    split; [reflexivity | split; [reflexivity |]].
    destruct H as [H | [H | [H | [H | [H | [H | H]]]]]];
      last_conjunct H; injection H as -> ->; simpl; tauto. }
  clear H. destruct Hd as [verdict [action [Hv [Ha Hin]]]].
  unfold determineEmergencyLevel. rewrite Hv, Ha.
  simpl in Hin.
  destruct Hin as [Hin | [Hin | [Hin | [Hin | [Hin | [Hin | [Hin | []]]]]]]];
    injection Hin as <- <-; (split; [intros Hw; try discriminate Hw |]).
  all: try (split; [reflexivity | intros assessment; reflexivity]).
  all: intros assessment; cbn; try discriminate.
  all: destruct (String.eqb_spec (Assessment.status assessment)
                   "malfunctioning"); cbn; [trivial | discriminate].
Qed.

Lemma early_warning_is_high_witness :
  Emergency.level
    (determineEmergencyLevel
       (generateIntelligentDiagnosis "healthy" n1 [("moisture", n10)]
          (assessSensorCredibility [("moisture", n10)]) None)
       (assessSensorCredibility [("moisture", n10)]))
  = "high".
Proof.
  destruct (early_warning_is_high "healthy" n1 [("moisture", n10)]
              (assessSensorCredibility [("moisture", n10)]) None)
    as [H _].
  destruct (H eq_refl) as [_ Hl]. apply Hl.
Defined.

(** ** Sorting by a numeric key *)

Section KeyedSort.
Context {A : Type}.
Variable key : A -> Z.
Variable compare : A -> A -> Z.
Hypothesis compare_key : forall a b, compare a b = (key a - key b)%Z.

Lemma insertBy_HdRel (x y : A) (l : list A) :
  (key y <= key x)%Z -> HdRel (nonDecreasing key) y l ->
  HdRel (nonDecreasing key) y (insertBy compare x l).
Proof.
  intros Hyx Hy. destruct l as [| z l]; simpl.
  - now constructor.
  - destruct (compare x z <=? 0)%Z; constructor; trivial.
    now inversion Hy.
Qed.

Lemma insertBy_Sorted (x : A) (l : list A) :
  Sorted (nonDecreasing key) l -> Sorted (nonDecreasing key) (insertBy compare x l).
Proof.
  induction 1 as [| y l Hl IH Hy]; simpl.
  - repeat constructor.
  - destruct (compare x y <=? 0)%Z eqn:E.
    + apply Z.leb_le in E. rewrite compare_key in E.
      repeat constructor; trivial. unfold nonDecreasing. lia.
    + apply Z.leb_gt in E. rewrite compare_key in E.
      constructor; [exact IH |].
      apply insertBy_HdRel; [lia | exact Hy].
Qed.

Lemma sort_Sorted (l : list A) : Sorted (nonDecreasing key) (sort compare l).
Proof.
  induction l as [| x l IH]; simpl; [constructor |].
  now apply insertBy_Sorted.
Qed.

Lemma insertBy_Permutation (x : A) (l : list A) :
  Permutation (x :: l) (insertBy compare x l).
Proof.
  induction l as [| y l IH]; simpl; [reflexivity |].
  destruct (compare x y <=? 0)%Z; [reflexivity |].
  rewrite perm_swap. now constructor.
Qed.

Lemma sort_Permutation (l : list A) : Permutation l (sort compare l).
Proof.
  induction l as [| x l IH]; simpl; [constructor |].
  rewrite <- insertBy_Permutation. now constructor.
Qed.

(** An element only moves past elements of a strictly smaller key, so
    the elements of any one key keep their relative order. *)
Lemma insertBy_withKey (p : Z) (x : A) (l : list A) :
  filter (withKey key p) (insertBy compare x l) = filter (withKey key p) (x :: l).
Proof.
  induction l as [| y l IH]; [reflexivity |].
  cbn [insertBy]. destruct (compare x y <=? 0)%Z eqn:E; [reflexivity |].
  apply Z.leb_gt in E. rewrite compare_key in E.
  cbn [filter] in *. rewrite IH. unfold withKey.
  destruct (Z.eqb_spec (key y) p), (Z.eqb_spec (key x) p);
    try reflexivity; lia.
Qed.

Lemma sort_withKey (p : Z) (l : list A) :
  filter (withKey key p) (sort compare l) = filter (withKey key p) l.
Proof.
  induction l as [| x l IH]; [reflexivity |].
  cbn [sort fold_right]. fold (sort compare l).
  rewrite insertBy_withKey. cbn [filter]. now rewrite IH.
Qed.
(** The two properties determine the outcome: a sorted list with the same
    elements of every key, in the same order, is the list computed by
    [sort].  Any stable sorting algorithm therefore returns it. *)
Lemma filter_withKey_nil (l : list A) :
  (forall p, filter (withKey key p) l = []) -> l = [].
Proof.
  destruct l as [| y l]; [reflexivity |].
  intros H. specialize (H (key y)). cbn [filter] in H.
  unfold withKey in H. now rewrite Z.eqb_refl in H.
Qed.

Lemma filter_withKey_In (p : Z) (x : A) (l l' : list A) :
  filter (withKey key p) l = x :: l' -> exists z, In z l /\ key z = p.
Proof.
  intros H. exists x.
  assert (Hin : In x (filter (withKey key p) l)) by (rewrite H; now left).
  apply filter_In in Hin. destruct Hin as [Hin Hk].
  split; [exact Hin |]. now apply Z.eqb_eq in Hk.
Qed.

Lemma Sorted_head_least (x : A) (l : list A) (z : A) :
  Sorted (nonDecreasing key) (x :: l) -> In z (x :: l) ->
  (key x <= key z)%Z.
Proof.
  intros Hs Hin. apply Sorted_StronglySorted in Hs.
  - apply StronglySorted_inv in Hs. destruct Hs as [_ Hall].
    destruct Hin as [<- | Hin]; [lia |].
    rewrite Forall_forall in Hall. now apply Hall.
  - intros a b c. unfold nonDecreasing. lia.
Qed.

Lemma filter_withKey_cons (p : Z) (x : A) (l : list A) :
  filter (withKey key p) (x :: l)
  = if (key x =? p)%Z then x :: filter (withKey key p) l
    else filter (withKey key p) l.
Proof. reflexivity. Qed.

Lemma stable_sorted_unique (l1 l2 : list A) :
  Sorted (nonDecreasing key) l1 -> Sorted (nonDecreasing key) l2 ->
  (forall p, filter (withKey key p) l1 = filter (withKey key p) l2) ->
  l1 = l2.
Proof.
  revert l2. induction l1 as [| x l1 IH]; intros l2 H1 H2 H.
  - symmetry. apply filter_withKey_nil. intros p. now rewrite <- H.
  - destruct l2 as [| y l2].
    + apply filter_withKey_nil. intros p. now rewrite H.
    + assert (Hxy : key x = key y).
      { pose proof (H (key x)) as Hx. pose proof (H (key y)) as Hy.
        rewrite (filter_withKey_cons (key x) x), Z.eqb_refl in Hx.
        rewrite (filter_withKey_cons (key y) y), Z.eqb_refl in Hy.
        symmetry in Hx. apply filter_withKey_In in Hx.
        apply filter_withKey_In in Hy.
        destruct Hx as [z [Hz Hkz]], Hy as [w [Hw Hkw]].
        pose proof (Sorted_head_least y l2 z H2 Hz).
        pose proof (Sorted_head_least x l1 w H1 Hw). lia. }
      assert (Hhead : x = y /\ forall p,
                 filter (withKey key p) l1 = filter (withKey key p) l2).
      { split.
        - specialize (H (key x)). rewrite !filter_withKey_cons in H.
          rewrite <- Hxy, Z.eqb_refl in H. now injection H.
        - intros p. specialize (H p). rewrite !filter_withKey_cons in H.
          rewrite <- Hxy in H.
          destruct (key x =? p)%Z; [now injection H | exact H]. }
      destruct Hhead as [<- Htail]. f_equal.
      apply Sorted_inv in H1, H2. now apply IH.
Qed.

Lemma sort_determined (l sorted : list A) :
  Sorted (nonDecreasing key) sorted ->
  (forall p, filter (withKey key p) sorted = filter (withKey key p) l) ->
  sorted = sort compare l.
Proof.
  intros Hs Hf. apply stable_sorted_unique; [exact Hs | apply sort_Sorted |].
  intros p. now rewrite sort_withKey.
Qed.
End KeyedSort.

(** ** Recommendations *)

(** C6.  The list returned by [generateActionableRecommendations] holds
    exactly the pushed recommendations, is sorted non-decreasing by
    priority, and keeps recommendations of equal priority in insertion
    order. *)
Theorem recommendations_sorted_stable (diagnosis : Diagnosis.t)
  (sensorData : readings) (sensorAssessment : Assessment.t)
  (emergencyLevel : Emergency.t) :
  let result :=
    generateActionableRecommendations diagnosis sensorData sensorAssessment
      emergencyLevel in
  let pushed := insertionOrder sensorData sensorAssessment emergencyLevel in
  Sorted (nonDecreasing Recommendation.priority) result
  /\ Permutation pushed result
  /\ forall p : Z,
       filter (withKey Recommendation.priority p) result
       = filter (withKey Recommendation.priority p) pushed.
Proof.
  intros result pushed. subst result pushed.
  unfold generateActionableRecommendations, insertionOrder.
  destruct (String.eqb (Assessment.status sensorAssessment) "malfunctioning").
  - repeat split; [| reflexivity].
    unfold emergencyActions.
    destruct (String.eqb (Emergency.level emergencyLevel) "high"); simpl;
      repeat constructor.
    unfold nonDecreasing. simpl. lia.
  - assert (Hc : forall a b,
               byPriority a b
               = (Recommendation.priority a - Recommendation.priority b)%Z)
      by reflexivity.
    repeat split.
    + now apply sort_Sorted.
    + now apply sort_Permutation.
    + intros p. now apply sort_withKey.
Qed.

(** ** The NPK estimate *)

Lemma SFltb_SFleb (a b : number) : SFltb a b = true -> SFleb a b = true.
Proof.
  unfold SFltb, SFleb. now destruct (SFcompare a b) as [[| |] |].
Qed.

(** The clamp by the sign and class of its argument. *)
Lemma clamp_cases (x : number) :
  clamp x =
  match x with
  | S754_nan => S754_nan
  | S754_finite false _ _ => if SFltb x n100 then x else n100
  | S754_infinity false => n100
  | _ => n0
  end.
Proof.
  destruct x as [[|] | [|] | | [|] m e]; reflexivity.
Qed.

Lemma clamp_NaN (x : number) : clamp x = Number.NaN <-> x = Number.NaN.
Proof.
  rewrite clamp_cases. unfold Number.NaN, n0, n100.
  destruct x as [[|] | [|] | | [|] m e];
    try (split; discriminate); try tauto.
  destruct (SFltb (S754_finite false m e) _); split; discriminate.
Qed.

Lemma clamp_range (x : number) :
  x <> Number.NaN -> Number.within n0 n100 (clamp x) = true.
Proof.
  rewrite clamp_cases. unfold Number.NaN, Number.within.
  destruct x as [[|] | [|] | | [|] m e]; try reflexivity;
    try (intros H; now contradiction H).
  intros _. destruct (SFltb (S754_finite false m e) n100) eqn:E.
  - now rewrite (SFltb_SFleb _ _ E).
  - reflexivity.
Qed.

(** *** When a formula is not NaN *)

Section Rounding.
Variables prec emax : Z.

Lemma shr_1_nonneg (mrs : shr_record) :
  (0 <= shr_m mrs)%Z -> (0 <= shr_m (shr_1 mrs))%Z.
Proof.
  destruct mrs as [m r s]. simpl.
  destruct m as [| [p | p |] | [p | p |]]; simpl; lia.
Qed.

Lemma iter_shr_1_nonneg (p : positive) (mrs : shr_record) :
  (0 <= shr_m mrs)%Z -> (0 <= shr_m (iter_pos shr_1 p mrs))%Z.
Proof.
  revert mrs. induction p as [p IH | p IH |]; intros mrs H; simpl.
  - apply IH, IH. now apply shr_1_nonneg.
  - now apply IH, IH.
  - now apply shr_1_nonneg.
Qed.

Lemma shr_fexp_nonneg (m e : Z) (l : location) :
  (0 <= m)%Z -> (0 <= shr_m (fst (shr_fexp prec emax m e l)))%Z.
Proof.
  intros H. unfold shr_fexp, shr.
  assert (H0 : (0 <= shr_m (shr_record_of_loc m l))%Z)
    by (destruct l as [| []]; exact H).
  destruct (fexp prec emax (Zdigits2 m + e) - e)%Z; simpl; trivial.
  now apply iter_shr_1_nonneg.
Qed.

Lemma round_nearest_even_nonneg (m : Z) (l : location) :
  (0 <= m)%Z -> (0 <= round_nearest_even m l)%Z.
Proof.
  intros H. destruct l as [| []]; simpl; trivial; try lia.
  destruct (Z.even m); lia.
Qed.

Lemma binary_round_aux_not_NaN (sx : bool) (mx ex : Z) (lx : location) :
  (0 <= mx)%Z -> binary_round_aux prec emax sx mx ex lx <> S754_nan.
Proof.
  intros H. unfold binary_round_aux.
  pose proof (shr_fexp_nonneg mx ex lx H) as H1.
  destruct (shr_fexp prec emax mx ex lx) as [mrs' e'].
  simpl in H1.
  pose proof (shr_fexp_nonneg _ e' loc_Exact
                (round_nearest_even_nonneg _ (loc_of_shr_record mrs') H1))
    as H2.
  destruct (shr_fexp prec emax _ e' loc_Exact) as [mrs'' e''].
  simpl in H2.
  destruct (shr_m mrs'') as [| p | p]; try discriminate; [| lia].
  destruct (e'' <=? emax - prec)%Z; discriminate.
Qed.

Lemma binary_normalize_not_NaN (m e : Z) (szero : bool) :
  binary_normalize prec emax m e szero <> S754_nan.
Proof.
  unfold binary_normalize, binary_round.
  destruct m as [| p | p]; [discriminate | |];
    destruct (shl_align _ _ _) as [mz ez];
    apply binary_round_aux_not_NaN; lia.
Qed.

Lemma SFadd_not_NaN (a b : number) :
  isFinite a = true -> b <> S754_nan -> SFadd prec emax a b <> S754_nan.
Proof.
  destruct a as [sa | | | sa ma ea], b as [sb | sb | | sb mb eb];
    simpl; try discriminate; try tauto; intros _ _.
  - now destruct sa, sb.
  - apply binary_normalize_not_NaN.
Qed.

Lemma SFmul_finite_not_NaN (a : number) (s : bool) (m : positive) (e : Z) :
  a <> S754_nan -> SFmul prec emax a (S754_finite s m e) <> S754_nan.
Proof.
  destruct a; simpl; try discriminate; try tauto; intros _.
  apply binary_round_aux_not_NaN. lia.
Qed.

Lemma SFsub_not_NaN (a b : number) :
  isFinite a = true -> b <> S754_nan -> SFsub prec emax a b <> S754_nan.
Proof.
  destruct a as [sa | | | sa ma ea], b as [sb | sb | | sb mb eb];
    simpl; try discriminate; try tauto; intros _ _.
  - now destruct sa, sb.
  - apply binary_normalize_not_NaN.
Qed.

Lemma SFsub_finite_not_NaN (a : number) (s : bool) (m : positive) (e : Z) :
  a <> S754_nan -> SFsub prec emax a (S754_finite s m e) <> S754_nan.
Proof.
  destruct a; simpl; try discriminate; try tauto; intros _.
  apply binary_normalize_not_NaN.
Qed.

Lemma SFabs_not_NaN (a : number) : a <> S754_nan -> SFabs a <> S754_nan.
Proof. destruct a; simpl; try discriminate; tauto. Qed.
End Rounding.

Lemma nitrogenFormula_not_NaN (ec ph : number) :
  ph <> Number.NaN -> isFinite (Number.mul ec n25) = true ->
  nitrogenFormula ec ph <> Number.NaN.
Proof.
  intros Hph Hec. apply SFadd_not_NaN; [exact Hec |].
  apply SFmul_finite_not_NaN. now apply SFsub_finite_not_NaN.
Qed.

Lemma phosphorusFormula_not_NaN (ec ph : number) :
  ph <> Number.NaN -> isFinite (Number.mul ec n15) = true ->
  phosphorusFormula ec ph <> Number.NaN.
Proof.
  intros Hph Hec. apply SFadd_not_NaN; [exact Hec |].
  apply SFmul_finite_not_NaN. apply SFsub_not_NaN; [reflexivity |].
  apply SFabs_not_NaN. now apply SFsub_not_NaN.
Qed.

Lemma potassiumFormula_not_NaN (ec ph : number) :
  ph <> Number.NaN -> isFinite (Number.mul ec n20) = true ->
  potassiumFormula ec ph <> Number.NaN.
Proof.
  intros Hph Hec. apply SFadd_not_NaN; [exact Hec |].
  apply SFmul_finite_not_NaN. now apply SFsub_finite_not_NaN.
Qed.

(** C7, as corrected.  The three components are the clamped formulas.  A
    component is NaN exactly when its formula evaluates to NaN, and lies
    within [0, 100] otherwise; the formula is not NaN when [ph] is not NaN
    and the product of [ec] with its coefficient is finite. *)
Theorem npk_clamped (ec ph : number) :
  let npk := calculateNPKFromECpH ec ph in
  let bounded (component formula coefficient : number) :=
    component = clamp formula
    /\ (component = Number.NaN <-> formula = Number.NaN)
    /\ (formula <> Number.NaN -> Number.within n0 n100 component = true)
    /\ (ph <> Number.NaN ->
        isFinite (Number.mul ec coefficient) = true ->
        Number.within n0 n100 component = true) in
  bounded (NPK.nitrogen npk) (nitrogenFormula ec ph) n25
  /\ bounded (NPK.phosphorus npk) (phosphorusFormula ec ph) n15
  /\ bounded (NPK.potassium npk) (potassiumFormula ec ph) n20.
Proof.
  intros npk bounded. subst npk bounded. cbv beta.
  cbn [calculateNPKFromECpH NPK.nitrogen NPK.phosphorus NPK.potassium].
  fold (nitrogenFormula ec ph) (phosphorusFormula ec ph)
       (potassiumFormula ec ph).
  fold (clamp (nitrogenFormula ec ph)) (clamp (phosphorusFormula ec ph))
       (clamp (potassiumFormula ec ph)).
  repeat apply conj; try reflexivity; try apply clamp_NaN;
    try apply clamp_range; intros Hph Hec; apply clamp_range.
  - now apply nitrogenFormula_not_NaN.
  - now apply phosphorusFormula_not_NaN.
  - now apply potassiumFormula_not_NaN.
Qed.

Lemma npk_clamped_witness :
  Number.within n0 n100 (NPK.nitrogen (calculateNPKFromECpH n2 n7)) = true.
Proof.
  destruct (npk_clamped n2 n7) as [[_ [_ [_ H]]] _].
  apply H; [discriminate | reflexivity].
Defined.

(** C7 as stated fails: for the finite inputs [ec = 2^1023] and
    [ph = -2^1023] both summands of every formula overflow, to infinities
    of opposite sign; their sum is NaN, which the clamp lets through, and
    NaN is not within [0, 100]. *)
Lemma npk_not_always_within :
  let ec := twoTo1023 in
  let ph := SFopp twoTo1023 in
  let npk := calculateNPKFromECpH ec ph in
  valid_binary Number.prec Number.emax ec = true
  /\ valid_binary Number.prec Number.emax ph = true
  /\ NPK.nitrogen npk = Number.NaN
  /\ NPK.phosphorus npk = Number.NaN
  /\ NPK.potassium npk = Number.NaN
  /\ Number.within n0 n100 (NPK.nitrogen npk) = false
  /\ Number.within n0 n100 (NPK.phosphorus npk) = false
  /\ Number.within n0 n100 (NPK.potassium npk) = false.
Proof.
  vm_compute. repeat split.
Qed.

(** ** The whole analysis *)

Lemma checkEntry_issue (entry : string * number) (issue : Issue.t) :
  In issue (checkEntry entry) ->
  isSensor (fst entry)
  /\ (Issue.sensor issue, Issue.value issue) = entry.
Proof.
  destruct entry as [key value]. unfold checkEntry, sensorStandards.
  destruct (assoc sensorTable key) as [s |] eqn:E.
  - destruct (Number.lt value (Standard.min s)
              || Number.gt value (Standard.max s)); [| contradiction].
    intros [<- | []]. split; [now exists s | reflexivity].
  - now destruct (existsb _ _).
Qed.

Lemma issues_from_readings (sensorData : readings) (issue : Issue.t) :
  In issue (Validity.issues (checkSensorValidity sensorData)) ->
  isSensor (Issue.sensor issue)
  /\ In (Issue.sensor issue, Issue.value issue) sensorData.
Proof.
  cbn [checkSensorValidity Validity.issues]. unfold Object.entries.
  intros H. apply in_flat_map in H. destruct H as [entry [Hin Hissue]].
  apply checkEntry_issue in Hissue. destruct Hissue as [Hs He].
  rewrite He. split; [| exact Hin]. now rewrite <- He in Hs.
Qed.

Lemma checkEntry_flagged (entry : string * number) :
  map (fun i => (Issue.sensor i, Issue.value i)) (checkEntry entry)
  = if flagged entry then [entry] else [].
Proof.
  destruct entry as [key value]. unfold checkEntry, flagged, sensorStandards.
  cbn [fst snd].
  destruct (assoc sensorTable key) as [s |].
  - now destruct (Number.lt value (Standard.min s)
                  || Number.gt value (Standard.max s)).
  - now destruct (existsb _ _).
Qed.

Lemma issues_projection (sensorData : readings) :
  map (fun i => (Issue.sensor i, Issue.value i))
    (Validity.issues (checkSensorValidity sensorData))
  = filter flagged sensorData.
Proof.
  cbn [checkSensorValidity Validity.issues]. unfold Object.entries.
  induction sensorData as [| entry rest IH]; [reflexivity |].
  cbn [flat_map filter]. rewrite map_app, IH, checkEntry_flagged.
  now destruct (flagged entry).
Qed.

(** *** Where the engine can throw, and where it cannot

    On an object of readings and a well-formed vision result every step of
    the engine returns, with the value of the definitions of the first
    part. *)

Lemma forEachPush_returns {A B : Type} (callback : A -> outcome (list B))
  (f : A -> list B) (arr : list A) :
  (forall x, callback x = Returns (f x)) ->
  forEachPush callback arr = Returns (flat_map f arr).
Proof.
  intros H. induction arr as [| x rest IH]; [reflexivity |].
  cbn [forEachPush flat_map]. rewrite H, IH. reflexivity.
Qed.

Lemma checkEntryJS_returns (entry : string * number) :
  checkEntryJS entry = Returns (checkEntry entry).
Proof.
  destruct entry as [key value]. unfold checkEntryJS, checkEntry.
  destruct (sensorStandards key) as [standard | |]; cbn [truthy];
    try reflexivity.
  now destruct (Number.lt value (Standard.min standard)
                || Number.gt value (Standard.max standard)).
Qed.

Lemma checkSensorValidityJS_returns (sensorData : readings) :
  checkSensorValidityJS (JsObject sensorData)
  = Returns (checkSensorValidity sensorData).
Proof.
  unfold checkSensorValidityJS. cbn [deref bind].
  rewrite (forEachPush_returns checkEntryJS checkEntry)
    by apply checkEntryJS_returns.
  reflexivity.
Qed.

Lemma assessSensorCredibilityJS_returns (sensorData : readings) :
  assessSensorCredibilityJS (JsObject sensorData)
  = Returns (assessSensorCredibility sensorData).
Proof.
  unfold assessSensorCredibilityJS, assessSensorCredibility.
  cbn [deref bind].
  destruct (allZero sensorData); [reflexivity |].
  destruct (allMax sensorData); [reflexivity |].
  now rewrite checkSensorValidityJS_returns.
Qed.

Lemma detectNutrientDeficienciesJS_returns (sensorData : readings)
  (calculatedNPK : option NPK.t) :
  detectNutrientDeficienciesJS (JsObject sensorData) calculatedNPK
  = Returns (detectNutrientDeficiencies sensorData calculatedNPK).
Proof.
  now destruct calculatedNPK.
Qed.

Lemma agreementVerdictJS_returns (aiPrediction : string)
  (aiConfidence : number) (sensorData : readings)
  (calculatedNPK : option NPK.t) (hasIssues : bool) :
  agreementVerdictJS aiPrediction aiConfidence (JsObject sensorData)
    calculatedNPK hasIssues
  = Returns (agreementVerdict aiPrediction aiConfidence sensorData
               calculatedNPK hasIssues).
Proof.
  unfold agreementVerdictJS, agreementVerdict.
  rewrite detectNutrientDeficienciesJS_returns. cbn [bind].
  destruct ((String.eqb aiPrediction "healthy" && negb hasIssues)
            || (negb (String.eqb aiPrediction "healthy") && hasIssues));
    [| reflexivity].
  destruct (String.eqb aiPrediction "healthy"); [reflexivity |].
  destruct (String.eqb aiPrediction "nutrient_deficient"); [reflexivity |].
  now destruct (String.eqb aiPrediction "diseased").
Qed.

Lemma generateIntelligentDiagnosisJS_returns (aiPrediction : string)
  (aiConfidence : number) (sensorData : readings)
  (sensorAssessment : Assessment.t) (calculatedNPK : option NPK.t) :
  generateIntelligentDiagnosisJS aiPrediction aiConfidence
    (JsObject sensorData) sensorAssessment calculatedNPK
  = Returns
      (JsObject
         (generateIntelligentDiagnosis aiPrediction aiConfidence sensorData
            sensorAssessment calculatedNPK)).
Proof.
  unfold generateIntelligentDiagnosisJS, generateIntelligentDiagnosis.
  rewrite checkSensorValidityJS_returns. cbn [bind].
  rewrite agreementVerdictJS_returns. cbn [bind].
  destruct (agreementVerdict aiPrediction aiConfidence sensorData
              calculatedNPK _); [reflexivity |].
  destruct (String.eqb aiPrediction "healthy"
            && Validity.hasIssues (checkSensorValidity sensorData)).
  - now destruct (String.eqb (Assessment.status sensorAssessment)
                    "malfunctioning").
  - now destruct (negb (String.eqb aiPrediction "healthy")
                  && negb (Validity.hasIssues
                             (checkSensorValidity sensorData))).
Qed.

Lemma generateActionableRecommendationsJS_returns
  (diagnosis : ref Diagnosis.t) (verdict : Diagnosis.t)
  (sensorData : readings) (sensorAssessment : Assessment.t)
  (emergencyLevel : Emergency.t) :
  generateActionableRecommendationsJS diagnosis (JsObject sensorData)
    sensorAssessment emergencyLevel
  = Returns
      (generateActionableRecommendations verdict sensorData
         sensorAssessment emergencyLevel).
Proof.
  unfold generateActionableRecommendationsJS,
    generateActionableRecommendations.
  now destruct (String.eqb (Assessment.status sensorAssessment)
                  "malfunctioning").
Qed.

Lemma identifySpecificDeficienciesJS_returns (aiResult : AIResult.t)
  (sensorData : readings) (calculatedNPK : option NPK.t) :
  identifySpecificDeficienciesJS (JsObject (inputOf aiResult))
    (JsObject sensorData) calculatedNPK
  = Returns (identifySpecificDeficiencies aiResult sensorData calculatedNPK).
Proof.
  unfold identifySpecificDeficienciesJS, identifySpecificDeficiencies.
  cbn [deref bind inputOf AIInput.possible_issues AIInput.confidence].
  destruct (AIResult.possible_issues aiResult) as [tags |].
  - assert (H : forEachPush (visualDeficiencyJS (AIResult.confidence aiResult))
                  (map TagString tags)
                = Returns
                    (map (fun issue =>
                            VisualDeficiency "visual"
                              (toUpperCase (replace "_deficiency" "" issue))
                              "CNN Model" (AIResult.confidence aiResult))
                         tags)).
    { induction tags as [| tag tags IH]; [reflexivity |].
      cbn [map forEachPush visualDeficiencyJS bind]. rewrite IH.
      reflexivity. }
    rewrite H. cbn [bind]. now destruct calculatedNPK.
  - cbn [bind]. now destruct calculatedNPK.
Qed.

(** On an object of readings and a well-formed vision result the engine
    returns the analysis of [analyzeSituation]. *)
Lemma analyzeSituationJS_returns (aiResult : AIResult.t)
  (sensorData : readings) :
  analyzeSituationJS (JsObject (inputOf aiResult)) (JsObject sensorData)
  = Returns (analyzeSituation aiResult sensorData).
Proof.
  unfold analyzeSituationJS.
  cbn [deref bind inputOf AIInput.prediction AIInput.confidence].
  rewrite assessSensorCredibilityJS_returns. cbn [bind].
  rewrite checkSensorValidityJS_returns. cbn [bind].
  unfold estimateNPKJS. cbn [deref bind].
  rewrite generateIntelligentDiagnosisJS_returns. cbn [bind].
  unfold determineEmergencyLevelJS. cbn [deref bind].
  rewrite (generateActionableRecommendationsJS_returns _
             (generateIntelligentDiagnosis (AIResult.prediction aiResult)
                (AIResult.confidence aiResult) sensorData
                (assessSensorCredibility sensorData)
                (estimateNPK sensorData))).
  cbn [bind].
  change {| AIInput.prediction := AIResult.prediction aiResult;
            AIInput.confidence := AIResult.confidence aiResult;
            AIInput.possible_issues :=
              match AIResult.possible_issues aiResult with
              | Some tags => IssuesArray (map TagString tags)
              | None => IssuesFalsy
              end |}
    with (inputOf aiResult).
  rewrite identifySpecificDeficienciesJS_returns. reflexivity.
Qed.

(** The exceptions are there: a readings argument that is [null] or
    [undefined] stops the engine at [Object.values], and so does a vision
    result that is no object, a [possible_issues] without [forEach], or an
    issue tag without [replace]. *)
Lemma analyzeSituationJS_throws (ai : AIInput.t)
  (sensorData : ref readings) :
  analyzeSituationJS (JsObject ai) JsNull = Throws TypeError
  /\ analyzeSituationJS (JsObject ai) JsUndefined = Throws TypeError
  /\ analyzeSituationJS JsNull sensorData = Throws TypeError
  /\ analyzeSituationJS JsUndefined sensorData = Throws TypeError.
Proof.
  now repeat split.
Qed.

Lemma analyzeSituationJS_needs_readings (aiResult : ref AIInput.t)
  (sensorData : ref readings) (analysis : Analysis.t) :
  analyzeSituationJS aiResult sensorData = Returns analysis ->
  exists object, sensorData = JsObject object.
Proof.
  unfold analyzeSituationJS. destruct aiResult as [| | ai]; try discriminate.
  cbn [deref bind]. unfold assessSensorCredibilityJS at 1.
  destruct sensorData as [| | object]; try discriminate.
  intros _. now exists object.
Qed.

Lemma analyzeSituationJS_needs_result (aiResult : ref AIInput.t)
  (sensorData : ref readings) (analysis : Analysis.t) :
  analyzeSituationJS aiResult sensorData = Returns analysis ->
  exists ai,
    aiResult = JsObject ai
    /\ match AIInput.possible_issues ai with
       | IssuesFalsy => True
       | IssuesArray tags => ~ In TagOther tags
       | IssuesOther => False
       end.
Proof.
  intros H.
  destruct (analyzeSituationJS_needs_readings _ _ _ H) as [object ->].
  unfold analyzeSituationJS in H.
  destruct aiResult as [| | ai]; try discriminate H.
  exists ai. split; [reflexivity |]. cbn [deref bind] in H.
  rewrite assessSensorCredibilityJS_returns in H. cbn [bind] in H.
  rewrite checkSensorValidityJS_returns in H. cbn [bind] in H.
  unfold estimateNPKJS in H. cbn [deref bind] in H.
  rewrite generateIntelligentDiagnosisJS_returns in H. cbn [bind] in H.
  unfold determineEmergencyLevelJS in H. cbn [deref bind] in H.
  rewrite (generateActionableRecommendationsJS_returns _
             (generateIntelligentDiagnosis (AIInput.prediction ai)
                (AIInput.confidence ai) object
                (assessSensorCredibility object) (estimateNPK object)))
    in H.
  cbn [bind] in H. unfold identifySpecificDeficienciesJS in H.
  cbn [deref bind] in H.
  destruct (AIInput.possible_issues ai) as [| tags |];
    [exact I | | discriminate H].
  intros Hin.
  assert (Hthrows : forEachPush (visualDeficiencyJS (AIInput.confidence ai))
                      tags = Throws TypeError).
  { clear H. induction tags as [| tag tags IH]; [contradiction |].
    cbn [forEachPush]. destruct tag as [s |]; [| reflexivity].
    cbn [visualDeficiencyJS bind]. rewrite IH; [reflexivity |].
    destruct Hin as [Hin | Hin]; [discriminate | exact Hin]. }
  rewrite Hthrows in H. discriminate H.
Qed.

(** C8.  On a well-formed vision result and a readings object, whatever
    keys it has, [analyzeSituation] raises no exception: it returns an
    analysis.  That analysis carries the readings it was given.  Its
    issues are exactly the supplied readings of sensors of the standards
    table that lie outside their interval, in the order of the readings, so
    that absent sensors and extra keys are skipped.  [calculatedNPK] is the
    estimate from [ec] and [ph] when both are supplied and null when either
    is absent.  The verdict is INCONCLUSIVE, without immediate action,
    exactly when no other rule matches, that is for a prediction outside
    the three known classes together with at least one reading outside its
    interval. *)
Theorem analyzeSituation_completes (aiResult : AIResult.t)
  (sensorData : readings) :
  exists analysis,
    analyzeSituationJS (JsObject (inputOf aiResult)) (JsObject sensorData)
    = Returns analysis
    /\ SensorReport.readings (Analysis.sensorAssessment analysis)
       = sensorData
    /\ map (fun issue => (Issue.sensor issue, Issue.value issue))
         (SensorReport.issues (Analysis.sensorAssessment analysis))
       = filter flagged sensorData
    /\ (forall issue,
           In issue (SensorReport.issues (Analysis.sensorAssessment analysis)) ->
           isSensor (Issue.sensor issue)
           /\ In (Issue.sensor issue, Issue.value issue) sensorData)
    /\ (forall key issue,
           ~ In key (Object.keys sensorData) ->
           In issue (SensorReport.issues (Analysis.sensorAssessment analysis)) ->
           Issue.sensor issue <> key)
    /\ SensorReport.calculatedNPK (Analysis.sensorAssessment analysis)
       = match Object.get sensorData "ec", Object.get sensorData "ph" with
         | Some ec, Some ph => Some (calculateNPKFromECpH ec ph)
         | _, _ => None
         end
    /\ (Object.get sensorData "ec" = None \/ Object.get sensorData "ph" = None ->
        SensorReport.calculatedNPK (Analysis.sensorAssessment analysis) = None)
    /\ (Diagnosis.verdict (Analysis.intelligentDiagnosis analysis)
        = "INCONCLUSIVE"
        <-> ~ knownPrediction (AIResult.prediction aiResult)
            /\ filter flagged sensorData <> [])
    /\ (Diagnosis.verdict (Analysis.intelligentDiagnosis analysis)
        = "INCONCLUSIVE" ->
        Diagnosis.requiresImmediateAction
          (Analysis.intelligentDiagnosis analysis) = false).
Proof.
  exists (analyzeSituation aiResult sensorData).
  split; [apply analyzeSituationJS_returns |].
  cbn [analyzeSituation Analysis.sensorAssessment SensorReport.issues
       SensorReport.readings SensorReport.calculatedNPK
       Analysis.intelligentDiagnosis].
  split; [reflexivity |].
  split; [apply issues_projection |].
  split; [apply issues_from_readings |].
  split; [| split; [reflexivity | split]].
  - intros key issue Hkey Hin Heq. apply Hkey.
    apply issues_from_readings in Hin. destruct Hin as [_ Hin].
    rewrite Heq in Hin. unfold Object.keys.
    change key with (fst (key, Issue.value issue)). now apply in_map.
  - unfold estimateNPK. intros [-> | H]; [reflexivity |].
    rewrite H. now destruct (Object.get sensorData "ec").
  - assert (Hissues : filter flagged sensorData <> []
                      <-> Validity.hasIssues (checkSensorValidity sensorData)
                          = true).
    { rewrite hasIssues_true, <- issues_projection.
      destruct (Validity.issues (checkSensorValidity sensorData));
        [tauto | split; [discriminate | discriminate]]. }
    rewrite Hissues. apply inconclusive_iff.
Qed.

(** ** The scenarios of the specification *)

Example scenario_healthy :
  outline
    (analyzeSituation (AIResult.mk "healthy" confidence90 None)
       [ ("nitrogen", n60); ("phosphorus", n35); ("potassium", n50);
         ("moisture", n30); ("temperature", n22); ("ph", n7) ])
  = ("credible", "PLANT IS HEALTHY", "low", []).
Proof. vm_compute. reflexivity. Qed.

Example scenario_nitrogen_deficient :
  outline
    (analyzeSituation
       (AIResult.mk "nutrient_deficient" confidence90 (Some []))
       [ ("nitrogen", n10); ("phosphorus", n35); ("potassium", n50);
         ("moisture", n30); ("ph", n7) ])
  = ("needs_attention", "NUTRIENT DEFICIENCY CONFIRMED", "high",
     [ ("ISOLATE PLANT", 1%Z);
       ("APPLY NITROGEN-RICH FERTILIZER (20-10-10)", 2%Z) ]).
Proof. vm_compute. reflexivity. Qed.

Example scenario_dry_soil :
  outline
    (analyzeSituation (AIResult.mk "healthy" confidence90 None)
       [ ("nitrogen", n60); ("phosphorus", n35); ("potassium", n50);
         ("moisture", n10); ("temperature", n22); ("ph", n7) ])
  = ("needs_attention", "EARLY WARNING", "high",
     [ ("ISOLATE PLANT", 1%Z); ("WATER IMMEDIATELY", 2%Z) ]).
Proof. vm_compute. reflexivity. Qed.

Example scenario_no_readings :
  outline (analyzeSituation (AIResult.mk "healthy" confidence90 None) [])
  = ("malfunctioning", "PLANT IS HEALTHY", "medium",
     [ ("CHECK SENSOR CONNECTIONS", 1%Z) ]).
Proof. vm_compute. reflexivity. Qed.

(** Equal priorities keep their push order: the water advice (priority 2)
    stays behind the nitrogen advice (priority 2) and moves in front of the
    phosphorus advice (priority 3). *)
Example scenario_stable_order :
  outline
    (analyzeSituation (AIResult.mk "diseased" confidence90 None)
       [ ("nitrogen", n10); ("phosphorus", n10); ("moisture", n10);
         ("ph", n6) ])
  = ("needs_attention", "DISEASE DETECTED", "high",
     [ ("ISOLATE PLANT", 1%Z);
       ("APPLY NITROGEN-RICH FERTILIZER (20-10-10)", 2%Z);
       ("WATER IMMEDIATELY", 2%Z);
       ("ADD BONE MEAL OR ROCK PHOSPHATE", 3%Z);
       ("ADD LIME TO RAISE pH", 3%Z) ]).
Proof. vm_compute. reflexivity. Qed.

(** * Further properties *)

(** ** The sensor validator *)

Lemma checkEntry_fields (entry : string * number) (issue : Issue.t) :
  In issue (checkEntry entry) ->
  exists standard,
    assoc sensorTable (Issue.sensor issue) = Some standard
    /\ Issue.min issue = Standard.min standard
    /\ Issue.max issue = Standard.max standard
    /\ Issue.unit issue = Standard.unit standard
    /\ ((Issue.severity issue = "low"
         /\ Number.lt (Issue.value issue) (Issue.min issue) = true)
        \/ (Issue.severity issue = "high"
            /\ Number.lt (Issue.value issue) (Issue.min issue) = false
            /\ Number.gt (Issue.value issue) (Issue.max issue) = true)).
Proof.
  destruct entry as [key value]. unfold checkEntry, sensorStandards.
  destruct (assoc sensorTable key) as [s |] eqn:E.
  - destruct (Number.lt value (Standard.min s)) eqn:Elt; cbn [orb].
    + intros [<- | []]. exists s. cbn. rewrite Elt. tauto.
    + destruct (Number.gt value (Standard.max s)) eqn:Egt; [| contradiction].
      intros [<- | []]. exists s. cbn. rewrite Elt, Egt. tauto.
  - now destruct (existsb _ _).
Qed.

(** X1.  The issues of [checkSensorValidity] are exactly the supplied
    readings of table sensors that lie outside their interval, in the order
    of the readings.  Each issue carries the interval and the unit of its
    sensor; its severity is 'low' when the value is below the minimum and
    'high' otherwise, in which case the value is above the maximum. *)
Theorem issues_are_flagged_readings (sensorData : readings) :
  let issues := Validity.issues (checkSensorValidity sensorData) in
  map (fun i => (Issue.sensor i, Issue.value i)) issues
  = filter flagged sensorData
  /\ forall issue,
       In issue issues ->
       exists standard,
         assoc sensorTable (Issue.sensor issue) = Some standard
         /\ Issue.min issue = Standard.min standard
         /\ Issue.max issue = Standard.max standard
         /\ Issue.unit issue = Standard.unit standard
         /\ ((Issue.severity issue = "low"
              /\ Number.lt (Issue.value issue) (Issue.min issue) = true)
             \/ (Issue.severity issue = "high"
                 /\ Number.lt (Issue.value issue) (Issue.min issue) = false
                 /\ Number.gt (Issue.value issue) (Issue.max issue) = true)).
Proof.
  split; [apply issues_projection |].
  cbn [checkSensorValidity Validity.issues]. unfold Object.entries.
  intros issue H. apply in_flat_map in H. destruct H as [entry [_ H]].
  now apply checkEntry_fields in H.
Qed.

(** ** Credibility *)

Lemma allZero_iff (sensorData : readings) :
  allZero sensorData = true
  <-> Forall (fun entry => isZero (snd entry)) sensorData.
Proof.
  split; [| apply allZero_true].
  intros E. unfold allZero in E. rewrite forallb_forall in E.
  apply Forall_forall. intros entry Hin. apply strictEq_zero.
  specialize (E (snd entry) (in_map snd _ _ Hin)).
  now apply orb_prop in E as [E | E].
Qed.

Lemma allMax_iff (sensorData : readings) :
  sensorData <> [] ->
  allMax sensorData = true
  <-> Forall (fun entry => snd entry = n100) sensorData
      /\ firstKeyKnown sensorData.
Proof.
  intros Hne. split.
  - intros Em.
    assert (H100 : Forall (fun entry => snd entry = n100) sensorData).
    { apply Forall_forall. intros entry Hin. apply strictEq_100.
      unfold allMax in Em. rewrite forallb_forall in Em.
      specialize (Em (snd entry) (in_map snd _ _ Hin)).
      now apply andb_prop in Em. }
    split; [exact H100 |].
    destruct sensorData as [| [key value] rest]; [contradiction |].
    apply Forall_inv in H100. cbn [snd] in H100. subst value.
    unfold allMax in Em. cbn [Object.values map forallb] in Em.
    apply andb_prop in Em. destruct Em as [Em _].
    cbn [Object.keys map find Object.get] in Em.
    rewrite String.eqb_refl in Em.
    change (Number.strictEq n100 n100) with true in Em.
    cbn [toPropertyKey fst] in Em. cbn [firstKeyKnown].
    now apply andb_prop in Em.
  - intros [H Hk]. unfold allMax. apply forallb_forall. intros val Hval.
    assert (Hv : val = n100).
    { apply in_map_iff in Hval. destruct Hval as [entry [<- Hin]].
      rewrite Forall_forall in H. now apply H. }
    subst val. destruct sensorData as [| [k0 v0] rest]; [contradiction |].
    apply Forall_inv in H. cbn [snd] in H. subst v0.
    cbn [Object.keys map find Object.get]. rewrite String.eqb_refl.
    change (Number.strictEq n100 n100) with true.
    cbn [toPropertyKey fst]. cbn [firstKeyKnown] in Hk. now rewrite Hk.
Qed.

Lemma allZero_nonempty (sensorData : readings) :
  allZero sensorData = false -> sensorData <> [].
Proof. intros H ->. discriminate H. Qed.

Lemma hundred_not_zero (sensorData : readings) :
  Forall (fun entry => snd entry = n100) sensorData ->
  firstKeyKnown sensorData ->
  ~ Forall (fun entry => isZero (snd entry)) sensorData.
Proof.
  intros H Hk Hz.
  destruct sensorData as [| [key value] rest]; [contradiction |].
  apply Forall_inv in H. apply Forall_inv in Hz. cbn [snd] in H, Hz.
  subst value. destruct Hz as [s Hs]. discriminate.
Qed.

(** X2.  The assessment is 'malfunctioning' exactly when every supplied
    value is 0 (of either sign); an empty readings object is such a case. *)
Theorem malfunctioning_iff_all_zero (sensorData : readings) :
  Assessment.status (assessSensorCredibility sensorData) = "malfunctioning"
  <-> Forall (fun entry => isZero (snd entry)) sensorData.
Proof.
  rewrite <- allZero_iff. unfold assessSensorCredibility.
  destruct (allZero sensorData); [now split |].
  destruct (allMax sensorData); [split; discriminate |].
  cbn [Assessment.status].
  destruct (Validity.hasIssues (checkSensorValidity sensorData));
    split; discriminate.
Qed.

(** X3.  The assessment is 'suspicious' exactly when the readings object is
    not empty, every value is exactly 100 and the first key has an entry in
    the table object: the key looked up for a value is the first key that
    holds an equal value, so later keys are never consulted. *)
Theorem suspicious_iff (sensorData : readings) :
  Assessment.status (assessSensorCredibility sensorData) = "suspicious"
  <-> Forall (fun entry => snd entry = n100) sensorData
      /\ firstKeyKnown sensorData.
Proof.
  unfold assessSensorCredibility.
  destruct (allZero sensorData) eqn:Ez.
  - split; [discriminate |]. intros [H Hk]. exfalso.
    apply (hundred_not_zero sensorData H Hk). now apply allZero_iff.
  - rewrite <- (allMax_iff _ (allZero_nonempty _ Ez)).
    destruct (allMax sensorData); [now split |].
    cbn [Assessment.status].
    destruct (Validity.hasIssues (checkSensorValidity sensorData));
      split; discriminate.
Qed.

(** X4.  Otherwise the status follows the readings: it is 'credible'
    exactly when the readings are neither all zero nor suspicious and no
    reading of a table sensor is out of range, and 'needs_attention'
    exactly when they are neither and some reading is out of range. *)
Theorem credible_iff (sensorData : readings) :
  let status := Assessment.status (assessSensorCredibility sensorData) in
  let allZeros := Forall (fun entry => isZero (snd entry)) sensorData in
  let allHundred :=
    Forall (fun entry => snd entry = n100) sensorData
    /\ firstKeyKnown sensorData in
  (status = "credible"
   <-> ~ allZeros /\ ~ allHundred /\ filter flagged sensorData = [])
  /\ (status = "needs_attention"
      <-> ~ allZeros /\ ~ allHundred /\ filter flagged sensorData <> []).
Proof.
  intros status allZeros allHundred. subst status allZeros allHundred.
  rewrite <- allZero_iff, <- (issues_projection sensorData).
  unfold assessSensorCredibility.
  destruct (allZero sensorData) eqn:Ez.
  { split; (split; [discriminate | intros [H _]; now contradiction H]). }
  rewrite <- (allMax_iff _ (allZero_nonempty _ Ez)).
  destruct (allMax sensorData).
  { split; (split; [discriminate | intros [_ [H _]]; now contradiction H]). }
  cbn [Assessment.status checkSensorValidity Validity.hasIssues
       Validity.issues].
  destruct (flat_map checkEntry (Object.entries sensorData)); cbn;
    repeat split; try discriminate; try congruence;
    intros [_ [_ H]]; congruence.
Qed.

(** ** Readings that are all zero *)

Lemma zero_reading_flagged (sensorData : readings) (key : string)
  (value : number) :
  In (key, value) sensorData -> isSensor key -> isZero value ->
  Validity.hasIssues (checkSensorValidity sensorData) = true.
Proof.
  intros Hin [s Hs] [b ->]. apply hasIssues_true. intros Hnil.
  pose proof (issues_projection sensorData) as Hmap.
  rewrite Hnil in Hmap. cbn [map] in Hmap.
  assert (Hf : In (key, S754_zero b) (filter flagged sensorData)).
  { apply filter_In. split; [exact Hin |].
    unfold flagged. cbn [fst snd]. rewrite Hs.
    destruct (table_bounds key s Hs) as [H0 _]. now rewrite H0. }
  rewrite <- Hmap in Hf. contradiction.
Qed.

(** X5.  When every supplied value is 0 the emergency level is never
    'low'.  For a 'healthy' prediction the level is 'medium' and the only
    recommendation is CHECK SENSOR CONNECTIONS; the verdict is SENSOR
    MALFUNCTION when a sensor of the table is among the readings and PLANT
    IS HEALTHY when none is (as for an empty readings object). *)
Theorem all_zero_analysis (sensorData : readings) :
  Forall (fun entry => isZero (snd entry)) sensorData ->
  (forall aiResult,
      Emergency.level (Analysis.emergencyLevel
                         (analyzeSituation aiResult sensorData)) <> "low")
  /\ (forall confidence possible_issues,
         outline (analyzeSituation
                    (AIResult.mk "healthy" confidence possible_issues)
                    sensorData)
         = ("malfunctioning",
            if existsb flagged sensorData
            then "SENSOR MALFUNCTION" else "PLANT IS HEALTHY",
            "medium", [("CHECK SENSOR CONNECTIONS", 1%Z)]))
  /\ (existsb flagged sensorData = true
      <-> exists key, In key (Object.keys sensorData) /\ isSensor key).
Proof.
  intros Hz.
  assert (Hs : Assessment.status (assessSensorCredibility sensorData)
               = "malfunctioning")
    by (unfold assessSensorCredibility; now rewrite (allZero_true _ Hz)).
  assert (Hflag : existsb flagged sensorData
                  = Validity.hasIssues (checkSensorValidity sensorData)).
  { pose proof (issues_projection sensorData) as Hmap.
    cbn [checkSensorValidity Validity.hasIssues Validity.issues] in *.
    destruct (existsb flagged sensorData) eqn:E.
    - apply existsb_exists in E. destruct E as [entry [Hin Hf]].
      assert (Hi : In entry (filter flagged sensorData))
        by now apply filter_In.
      rewrite <- Hmap in Hi.
      destruct (flat_map checkEntry (Object.entries sensorData));
        [contradiction | reflexivity].
    - destruct (filter flagged sensorData) as [| entry l] eqn:F.
      + now destruct (flat_map checkEntry (Object.entries sensorData)).
      + assert (Hi : In entry (filter flagged sensorData))
          by (rewrite F; now left).
        apply filter_In in Hi. destruct Hi as [Hin Hf].
        assert (existsb flagged sensorData = true)
          by (apply existsb_exists; now exists entry).
        congruence. }
  split; [| split].
  - intros aiResult. cbn [analyzeSituation Analysis.emergencyLevel].
    unfold determineEmergencyLevel. rewrite Hs.
    destruct (includes "DISEASE" _ || Diagnosis.requiresImmediateAction _);
      discriminate.
  - intros confidence possible_issues. rewrite Hflag.
    unfold outline.
    cbn [analyzeSituation Analysis.sensorAssessment SensorReport.assessment
         Analysis.intelligentDiagnosis Analysis.emergencyLevel
         Analysis.recommendations AIResult.prediction AIResult.confidence].
    unfold generateActionableRecommendations, determineEmergencyLevel,
      generateIntelligentDiagnosis, agreementVerdict.
    rewrite Hs.
    now destruct (Validity.hasIssues (checkSensorValidity sensorData)).
  - rewrite existsb_exists. split.
    + intros [[key value] [Hin Hf]]. exists key. split.
      * change key with (fst (key, value)). now apply in_map.
      * unfold flagged in Hf. cbn [fst] in Hf. unfold isSensor.
        destruct (assoc sensorTable key) as [s |]; [now exists s |].
        discriminate.
    + intros [key [Hin [s Hk]]]. apply in_map_iff in Hin.
      destruct Hin as [[k value] [Hfst Hin]]. cbn [fst] in Hfst. subst k.
      exists (key, value). split; [exact Hin |].
      unfold flagged. cbn [fst snd]. rewrite Hk.
      rewrite Forall_forall in Hz. destruct (Hz _ Hin) as [b Hb].
      cbn [snd] in Hb. subst value.
      destruct (table_bounds key s Hk) as [H0 _]. now rewrite H0.
Qed.

Lemma all_zero_analysis_witness :
  outline (analyzeSituation (AIResult.mk "healthy" confidence90 None)
             [("nitrogen", n0); ("humidity", S754_zero true)])
  = ("malfunctioning", "SENSOR MALFUNCTION", "medium",
     [("CHECK SENSOR CONNECTIONS", 1%Z)]).
Proof.
  destruct (all_zero_analysis
              [("nitrogen", n0); ("humidity", S754_zero true)])
    as [_ [H _]].
  - repeat constructor; cbn [snd]; eexists; reflexivity.
  - apply H.
Defined.

(** ** Emergency level of an engine diagnosis *)

Lemma engine_level (aiPrediction : string)
  (aiConfidence : number) (sensorData : readings)
  (sensorAssessment : Assessment.t) (calculatedNPK : option NPK.t)
  (assessment : Assessment.t) :
  let d :=
    generateIntelligentDiagnosis aiPrediction aiConfidence sensorData
      sensorAssessment calculatedNPK in
  Emergency.level (determineEmergencyLevel d assessment)
  = if Diagnosis.requiresImmediateAction d then "high"
    else if String.eqb (Assessment.status assessment) "malfunctioning"
         then "medium" else "low".
Proof.
  intros d.
  pose proof (diagnosis_rule aiPrediction aiConfidence sensorData
                sensorAssessment calculatedNPK) as H.
  cbv zeta in H. fold d in H.
  unfold determineEmergencyLevel.
  destruct H as [H | [H | [H | [H | [H | [H | H]]]]]];
    last_conjunct H; injection H as -> ->; cbn;
    now destruct (String.eqb (Assessment.status assessment) "malfunctioning").
Qed.

(** X6.  For every diagnosis the engine produces, the emergency level is
    decided by the action flag and the assessment status alone: 'high'
    exactly when immediate action is required, 'medium' exactly when it is
    not and the status is 'malfunctioning', 'low' exactly when it is not
    and the status is anything else.  The substring tests on the verdict
    never change the outcome. *)
Theorem level_of_engine_diagnosis (aiPrediction : string)
  (aiConfidence : number) (sensorData : readings)
  (sensorAssessment : Assessment.t) (calculatedNPK : option NPK.t)
  (assessment : Assessment.t) :
  let d :=
    generateIntelligentDiagnosis aiPrediction aiConfidence sensorData
      sensorAssessment calculatedNPK in
  let level := Emergency.level (determineEmergencyLevel d assessment) in
  (level = "high" <-> Diagnosis.requiresImmediateAction d = true)
  /\ (level = "medium" <->
      Diagnosis.requiresImmediateAction d = false
      /\ Assessment.status assessment = "malfunctioning")
  /\ (level = "low" <->
      Diagnosis.requiresImmediateAction d = false
      /\ Assessment.status assessment <> "malfunctioning").
Proof.
  intros d level. subst level d.
  rewrite (engine_level aiPrediction aiConfidence sensorData
             sensorAssessment calculatedNPK assessment).
  destruct (Diagnosis.requiresImmediateAction _).
  - repeat split; try discriminate; intros [H _]; discriminate H.
  - destruct (String.eqb_spec (Assessment.status assessment)
                "malfunctioning") as [Hs | Hs].
    + repeat split; try discriminate; trivial.
      intros [_ H]. contradiction.
    + repeat split; try discriminate; trivial.
      intros [_ H]. contradiction.
Qed.

(** X7.  In an analysis the next-steps block is chosen by the action flag
    alone: with immediate action the button reads TAKE EMERGENCY ACTION,
    without it VIEW ACTION PLAN.  The START RECOVERY PLAN text is never
    returned, because immediate action always comes with level 'high'. *)
Theorem next_steps_of_analysis (aiResult : AIResult.t)
  (sensorData : readings) :
  let analysis := analyzeSituation aiResult sensorData in
  let steps := Analysis.nextSteps analysis in
  (Diagnosis.requiresImmediateAction (Analysis.intelligentDiagnosis analysis)
   = true ->
   NextSteps.title steps = "🔄 WHAT TO DO NEXT"
   /\ NextSteps.buttonText steps = "🚨 TAKE EMERGENCY ACTION")
  /\ (Diagnosis.requiresImmediateAction
        (Analysis.intelligentDiagnosis analysis) = false ->
      NextSteps.title steps = "📝 RECOMMENDED NEXT STEPS"
      /\ NextSteps.buttonText steps = "🌱 VIEW ACTION PLAN")
  /\ NextSteps.buttonText steps <> "⚡ START RECOVERY PLAN".
Proof.
  intros analysis steps. subst steps analysis.
  cbn [analyzeSituation Analysis.nextSteps Analysis.intelligentDiagnosis].
  pose proof (engine_level (AIResult.prediction aiResult)
                (AIResult.confidence aiResult) sensorData
                (assessSensorCredibility sensorData)
                (estimateNPK sensorData)
                (assessSensorCredibility sensorData)) as Hl.
  cbv zeta in Hl. unfold generateNextSteps.
  destruct (Diagnosis.requiresImmediateAction _).
  - rewrite Hl. cbn. repeat split; try discriminate.
  - cbn. repeat split; discriminate.
Qed.

(** ** Recommendations *)

Lemma recommendations_Permutation (diagnosis : Diagnosis.t)
  (sensorData : readings) (sensorAssessment : Assessment.t)
  (emergencyLevel : Emergency.t) :
  Permutation
    (insertionOrder sensorData sensorAssessment emergencyLevel)
    (generateActionableRecommendations diagnosis sensorData sensorAssessment
       emergencyLevel).
Proof.
  unfold insertionOrder, generateActionableRecommendations.
  destruct (String.eqb (Assessment.status sensorAssessment) "malfunctioning");
    [reflexivity |].
  apply sort_Permutation.
Qed.

Lemma emergency_part (emergencyLevel : Emergency.t) :
  emergencyActions emergencyLevel
  = if String.eqb (Emergency.level emergencyLevel) "high"
    then [isolatePlant] else [].
Proof. reflexivity. Qed.

Lemma nutrient_part (sensorData : readings) :
  exists n p k : bool,
    actions (nutrientRecommendations sensorData)
    = (if n then ["APPLY NITROGEN-RICH FERTILIZER (20-10-10)"] else [])
      ++ (if p then ["ADD BONE MEAL OR ROCK PHOSPHATE"] else [])
      ++ (if k then ["APPLY POTASH OR POTASSIUM SULFATE"] else [])
    /\ Forall (fun r => (2 <= Recommendation.priority r <= 4)%Z)
         (nutrientRecommendations sensorData).
Proof.
  unfold nutrientRecommendations, detectNutrientDeficiencies.
  exists (ltU (npkValues sensorData None "nitrogen") n40),
         (ltU (npkValues sensorData None "phosphorus") n20),
         (ltU (npkValues sensorData None "potassium") n30).
  destruct (ltU (npkValues sensorData None "nitrogen") n40),
           (ltU (npkValues sensorData None "phosphorus") n20),
           (ltU (npkValues sensorData None "potassium") n30);
    (split; [reflexivity | repeat constructor; cbn; lia]).
Qed.

Lemma water_part (sensorData : readings) :
  (actions (waterRecommendations sensorData) = []
   \/ actions (waterRecommendations sensorData) = ["WATER IMMEDIATELY"]
   \/ actions (waterRecommendations sensorData) = ["REDUCE WATERING"])
  /\ Forall (fun r => Recommendation.priority r = 2%Z)
       (waterRecommendations sensorData).
Proof.
  unfold waterRecommendations.
  destruct (Object.get sensorData "moisture") as [moisture |];
    [| split; [now left | constructor]].
  destruct (Number.lt moisture n20);
    [split; [right; now left | now repeat constructor] |].
  destruct (Number.gt moisture n40);
    [split; [right; now right | now repeat constructor] |].
  split; [now left | constructor].
Qed.

Lemma ph_part (sensorData : readings) :
  (actions (phRecommendations sensorData) = []
   \/ actions (phRecommendations sensorData) = ["ADD LIME TO RAISE pH"]
   \/ actions (phRecommendations sensorData) = ["ADD SULFUR TO LOWER pH"])
  /\ Forall (fun r => Recommendation.priority r = 3%Z)
       (phRecommendations sensorData).
Proof.
  unfold phRecommendations.
  destruct (Object.get sensorData "ph") as [ph |];
    [| split; [now left | constructor]].
  destruct (Number.lt ph n6_5);
    [split; [right; now left | now repeat constructor] |].
  destruct (Number.gt ph n7_5);
    [split; [right; now right | now repeat constructor] |].
  split; [now left | constructor].
Qed.

Lemma wellFormedActions_sound (l : list string) :
  wellFormedActions l = true ->
  NoDup l
  /\ (List.length l <= 6)%nat
  /\ Forall (fun a => In a knownActions) l
  /\ ~ (In "WATER IMMEDIATELY" l /\ In "REDUCE WATERING" l)
  /\ ~ (In "ADD LIME TO RAISE pH" l /\ In "ADD SULFUR TO LOWER pH" l).
Proof.
  unfold wellFormedActions. intros H.
  repeat (apply andb_prop in H; destruct H as [H ?]).
  assert (Hmem : forall a m, member a m = true <-> In a m).
  { intros a m. unfold member. rewrite existsb_exists. split.
    - intros [x [Hin Hx]]. apply String.eqb_eq in Hx. now subst.
    - intros Hin. exists a. split; [exact Hin | apply String.eqb_refl]. }
  repeat split.
  - clear - H Hmem. induction l as [| a l IH]; [constructor |].
    cbn [distinct] in H. apply andb_prop in H. destruct H as [Ha Hl].
    constructor; [| now apply IH].
    intros Hin. apply Hmem in Hin. rewrite Hin in Ha. discriminate.
  - now apply Nat.leb_le.
  - apply Forall_forall. intros a Hin.
    match goal with
    | Hf : forallb _ l = true |- _ =>
        rewrite forallb_forall in Hf; now apply Hmem, Hf
    end.
  - intros [Hw Hr]. apply Hmem in Hw, Hr.
    match goal with
    | Hx : negb (member "WATER IMMEDIATELY" l && _) = true |- _ =>
        rewrite Hw, Hr in Hx; discriminate
    end.
  - intros [Hw Hr]. apply Hmem in Hw, Hr.
    match goal with
    | Hx : negb (member "ADD LIME TO RAISE pH" l && _) = true |- _ =>
        rewrite Hw, Hr in Hx; discriminate
    end.
Qed.

Lemma insertionOrder_actions (sensorData : readings)
  (sensorAssessment : Assessment.t) (emergencyLevel : Emergency.t) :
  wellFormedActions
    (actions (insertionOrder sensorData sensorAssessment emergencyLevel))
  = true.
Proof.
  unfold insertionOrder, pushedRecommendations, actions.
  rewrite emergency_part.
  destruct (String.eqb (Assessment.status sensorAssessment) "malfunctioning").
  - now destruct (String.eqb (Emergency.level emergencyLevel) "high").
  - rewrite !map_app. fold (actions (nutrientRecommendations sensorData))
      (actions (waterRecommendations sensorData))
      (actions (phRecommendations sensorData)).
    destruct (nutrient_part sensorData) as [n [p [k [-> _]]]].
    destruct (water_part sensorData) as [[-> | [-> | ->]] _],
             (ph_part sensorData) as [[-> | [-> | ->]] _];
      destruct (String.eqb (Emergency.level emergencyLevel) "high"),
               n, p, k; reflexivity.
Qed.

Lemma insertionOrder_priorities (sensorData : readings)
  (sensorAssessment : Assessment.t) (emergencyLevel : Emergency.t) :
  Forall (fun r => (1 <= Recommendation.priority r <= 4)%Z)
    (insertionOrder sensorData sensorAssessment emergencyLevel).
Proof.
  unfold insertionOrder, pushedRecommendations. rewrite emergency_part.
  assert (He : Forall (fun r => (1 <= Recommendation.priority r <= 4)%Z)
                 (if String.eqb (Emergency.level emergencyLevel) "high"
                  then [isolatePlant] else [])).
  { destruct (String.eqb _ _); repeat constructor; cbn; lia. }
  destruct (String.eqb (Assessment.status sensorAssessment) "malfunctioning").
  - apply Forall_app. split; [exact He |]. repeat constructor; cbn; lia.
  - destruct (nutrient_part sensorData) as [_ [_ [_ [_ Hn]]]].
    destruct (water_part sensorData) as [_ Hw].
    destruct (ph_part sensorData) as [_ Hp].
    repeat (apply Forall_app; split); trivial;
      eapply Forall_impl; try eassumption; cbn; intros; lia.
Qed.

(** X8.  Every recommendation carries one of the nine actions of the
    generator, never the APPLY BALANCED FERTILIZER default of
    [getNutrientAction], and a priority between 1 and 4. *)
Theorem recommendation_actions_known (diagnosis : Diagnosis.t)
  (sensorData : readings) (sensorAssessment : Assessment.t)
  (emergencyLevel : Emergency.t) (r : Recommendation.t) :
  In r (generateActionableRecommendations diagnosis sensorData
          sensorAssessment emergencyLevel) ->
  In (Recommendation.action r) knownActions
  /\ Recommendation.action r <> "APPLY BALANCED FERTILIZER"
  /\ (1 <= Recommendation.priority r <= 4)%Z.
Proof.
  intros Hin.
  apply (Permutation_in _
           (Permutation_sym
              (recommendations_Permutation diagnosis sensorData
                 sensorAssessment emergencyLevel))) in Hin.
  pose proof (insertionOrder_actions sensorData sensorAssessment
                emergencyLevel) as Ha.
  apply wellFormedActions_sound in Ha. destruct Ha as [_ [_ [Hk _]]].
  rewrite Forall_forall in Hk.
  assert (Hact : In (Recommendation.action r) knownActions)
    by (apply Hk; unfold actions; now apply in_map).
  split; [exact Hact | split].
  - intros Heq. rewrite Heq in Hact. cbn in Hact.
    repeat (destruct Hact as [Hact | Hact]; [discriminate Hact |]).
    contradiction.
  - pose proof (insertionOrder_priorities sensorData sensorAssessment
                  emergencyLevel) as Hp.
    rewrite Forall_forall in Hp. now apply Hp.
Qed.

Lemma recommendation_actions_known_witness :
  In "WATER IMMEDIATELY" knownActions.
Proof.
  pose (water :=
          {| Recommendation.action := "WATER IMMEDIATELY";
             Recommendation.reason :=
               Shown "Soil moisture at " n10 "% (optimal: 20-40%)";
             Recommendation.priority := 2;
             Recommendation.icon := "💧" |}).
  apply (recommendation_actions_known
           (Diagnosis.mk "EARLY WARNING" "medium" (Lit "") "" true)
           [("moisture", n10)] (Assessment.mk "needs_attention" "" "high" "")
           (Emergency.mk "low" "green" "" "") water).
  vm_compute. left. reflexivity.
Defined.

(** X9.  A recommendation list never repeats an action, has at most six
    entries, and never advises both watering and reduced watering, nor
    both lime and sulfur. *)
Theorem recommendations_consistent (diagnosis : Diagnosis.t)
  (sensorData : readings) (sensorAssessment : Assessment.t)
  (emergencyLevel : Emergency.t) :
  let advice :=
    actions (generateActionableRecommendations diagnosis sensorData
               sensorAssessment emergencyLevel) in
  NoDup advice
  /\ (List.length advice <= 6)%nat
  /\ ~ (In "WATER IMMEDIATELY" advice /\ In "REDUCE WATERING" advice)
  /\ ~ (In "ADD LIME TO RAISE pH" advice
        /\ In "ADD SULFUR TO LOWER pH" advice).
Proof.
  intros advice. subst advice.
  pose proof (Permutation_map Recommendation.action
                (recommendations_Permutation diagnosis sensorData
                   sensorAssessment emergencyLevel)) as Hperm.
  fold (actions (insertionOrder sensorData sensorAssessment emergencyLevel))
    in Hperm.
  fold (actions (generateActionableRecommendations diagnosis sensorData
                   sensorAssessment emergencyLevel)) in Hperm.
  pose proof (insertionOrder_actions sensorData sensorAssessment
                emergencyLevel) as Ha.
  apply wellFormedActions_sound in Ha.
  destruct Ha as [Hnd [Hlen [_ [Hw Hp]]]].
  repeat split.
  - now apply (Permutation_NoDup Hperm).
  - now rewrite <- (Permutation_length Hperm).
  - intros [H1 H2]. apply Hw.
    split; now apply (Permutation_in _ (Permutation_sym Hperm)).
  - intros [H1 H2]. apply Hp.
    split; now apply (Permutation_in _ (Permutation_sym Hperm)).
Qed.

Section LeastFirst.
Context {A : Type}.
Variable key : A -> Z.
Variable compare : A -> A -> Z.
Hypothesis compare_key : forall a b, compare a b = (key a - key b)%Z.

Lemma insertBy_least (x : A) (l : list A) :
  Forall (fun y => (key x <= key y)%Z) l -> insertBy compare x l = x :: l.
Proof.
  destruct l as [| y l]; [reflexivity |].
  intros H. apply Forall_inv in H. cbn [insertBy].
  rewrite compare_key.
  destruct (Z.leb_spec (key x - key y) 0); [reflexivity | lia].
Qed.

Lemma sort_least_first (x : A) (l : list A) :
  Forall (fun y => (key x <= key y)%Z) l ->
  sort compare (x :: l) = x :: sort compare l.
Proof.
  intros H. cbn [sort fold_right]. fold (sort compare l).
  apply insertBy_least.
  now apply (Permutation_Forall (sort_Permutation compare l)).
Qed.
End LeastFirst.

(** X10.  ISOLATE PLANT is recommended exactly when the emergency level is
    'high', and it is then the first entry of the list. *)
Theorem isolate_first_iff_high (diagnosis : Diagnosis.t)
  (sensorData : readings) (sensorAssessment : Assessment.t)
  (emergencyLevel : Emergency.t) :
  let result :=
    generateActionableRecommendations diagnosis sensorData sensorAssessment
      emergencyLevel in
  (Emergency.level emergencyLevel = "high" ->
   exists rest, result = isolatePlant :: rest)
  /\ (In "ISOLATE PLANT" (actions result) <->
      Emergency.level emergencyLevel = "high").
Proof.
  intros result.
  assert (Hfirst : Emergency.level emergencyLevel = "high" ->
                   exists rest, result = isolatePlant :: rest).
  { intros Hl. subst result.
    unfold generateActionableRecommendations, pushedRecommendations.
    rewrite emergency_part, Hl. cbn [String.eqb Ascii.eqb Bool.eqb app].
    destruct (String.eqb (Assessment.status sensorAssessment)
                "malfunctioning"); [now eexists |].
    eexists. apply (sort_least_first Recommendation.priority);
      [reflexivity |].
    destruct (nutrient_part sensorData) as [_ [_ [_ [_ Hn]]]].
    destruct (water_part sensorData) as [_ Hw].
    destruct (ph_part sensorData) as [_ Hp].
    repeat (apply Forall_app; split);
      eapply Forall_impl; try eassumption; cbn; intros; lia. }
  split; [exact Hfirst | split].
  - intros Hin.
    destruct (String.eqb_spec (Emergency.level emergencyLevel) "high")
      as [Hl | Hl]; [exact Hl | exfalso].
    apply (Permutation_in _
             (Permutation_sym
                (Permutation_map Recommendation.action
                   (recommendations_Permutation diagnosis sensorData
                      sensorAssessment emergencyLevel)))) in Hin.
    revert Hin. unfold insertionOrder, pushedRecommendations.
    rewrite emergency_part. apply String.eqb_neq in Hl. rewrite Hl.
    destruct (String.eqb (Assessment.status sensorAssessment)
                "malfunctioning").
    + cbn. intuition discriminate.
    + cbn [app]. rewrite !map_app.
      fold (actions (nutrientRecommendations sensorData))
        (actions (waterRecommendations sensorData))
        (actions (phRecommendations sensorData)).
      destruct (nutrient_part sensorData) as [n [p [k [-> _]]]].
      destruct (water_part sensorData) as [[-> | [-> | ->]] _],
               (ph_part sensorData) as [[-> | [-> | ->]] _];
        destruct n, p, k; cbn; intuition discriminate.
  - intros Hl. destruct (Hfirst Hl) as [rest ->]. now left.
Qed.

Lemma isolate_first_iff_high_witness :
  exists rest,
    generateActionableRecommendations
      (Diagnosis.mk "DISEASE DETECTED" "high" (Lit "") "" true)
      [("moisture", n10); ("ph", n6)]
      (Assessment.mk "needs_attention" "" "high" "")
      (Emergency.mk "high" "red" "" "")
    = isolatePlant :: rest.
Proof.
  apply isolate_first_iff_high. reflexivity.
Defined.

Lemma get_In (sensorData : readings) (key : string) (value : number) :
  Object.get sensorData key = Some value -> In (key, value) sensorData.
Proof.
  induction sensorData as [| [k v] rest IH]; cbn [Object.get];
    [discriminate |].
  destruct (String.eqb_spec k key) as [-> | _].
  - intros [= ->]. now left.
  - intros H. right. now apply IH.
Qed.

Lemma no_issues_not_flagged (sensorData : readings) (key : string)
  (value : number) :
  Validity.issues (checkSensorValidity sensorData) = [] ->
  Object.get sensorData key = Some value ->
  flagged (key, value) = false.
Proof.
  intros Hnil Hget. apply get_In in Hget.
  destruct (flagged (key, value)) eqn:E; [exfalso | reflexivity].
  assert (Hf : In (key, value) (filter flagged sensorData))
    by now apply filter_In.
  rewrite <- (issues_projection sensorData), Hnil in Hf. contradiction.
Qed.

Lemma no_issues_actions (diagnosis : Diagnosis.t)
  (sensorData : readings) (sensorAssessment : Assessment.t)
  (emergencyLevel : Emergency.t) :
  Validity.issues (checkSensorValidity sensorData) = [] ->
  actions (generateActionableRecommendations diagnosis sensorData
             sensorAssessment emergencyLevel)
  = (if String.eqb (Emergency.level emergencyLevel) "high"
     then ["ISOLATE PLANT"] else [])
    ++ (if String.eqb (Assessment.status sensorAssessment) "malfunctioning"
        then ["CHECK SENSOR CONNECTIONS"] else []).
Proof.
  intros Hnil.
  assert (Hlt : forall key threshold standard,
             assoc sensorTable key = Some standard ->
             Standard.min standard = threshold ->
             ltU (Object.get sensorData key) threshold = false).
  { intros key threshold standard Hs <-. unfold ltU.
    destruct (Object.get sensorData key) as [v |] eqn:G; [| reflexivity].
    pose proof (no_issues_not_flagged _ _ _ Hnil G) as Hf.
    unfold flagged in Hf. cbn [fst snd] in Hf. rewrite Hs in Hf.
    now apply orb_false_elim in Hf. }
  assert (Hgt : forall key v threshold standard,
             assoc sensorTable key = Some standard ->
             Standard.max standard = threshold ->
             Object.get sensorData key = Some v ->
             Number.gt v threshold = false).
  { intros key v threshold standard Hs <- G.
    pose proof (no_issues_not_flagged _ _ _ Hnil G) as Hf.
    unfold flagged in Hf. cbn [fst snd] in Hf. rewrite Hs in Hf.
    now apply orb_false_elim in Hf. }
  unfold generateActionableRecommendations, actions.
  destruct (String.eqb (Assessment.status sensorAssessment) "malfunctioning").
  - rewrite emergency_part.
    now destruct (String.eqb (Emergency.level emergencyLevel) "high").
  - unfold pushedRecommendations, nutrientRecommendations,
      detectNutrientDeficiencies, waterRecommendations, phRecommendations.
    cbn [npkValues].
    rewrite (Hlt "nitrogen" n40 _ eq_refl eq_refl),
      (Hlt "phosphorus" n20 _ eq_refl eq_refl),
      (Hlt "potassium" n30 _ eq_refl eq_refl).
    pose proof (Hlt "moisture" n20 _ eq_refl eq_refl) as Hm.
    pose proof (Hlt "ph" n6_5 _ eq_refl eq_refl) as Hp.
    unfold ltU in Hm, Hp.
    destruct (Object.get sensorData "moisture") as [moisture |] eqn:Gm;
      [rewrite Hm, (Hgt "moisture" moisture n40 _ eq_refl eq_refl Gm) |];
      (destruct (Object.get sensorData "ph") as [ph |] eqn:Gp;
       [rewrite Hp, (Hgt "ph" ph n7_5 _ eq_refl eq_refl Gp) |]);
      rewrite emergency_part;
      now destruct (String.eqb (Emergency.level emergencyLevel) "high").
Qed.

(** X11.  When no reading is out of range, the generator gives no
    nutrient, watering or pH advice: the list is ISOLATE PLANT for level
    'high', followed by CHECK SENSOR CONNECTIONS for a 'malfunctioning'
    assessment, and nothing else.  Every threshold of the generator lies
    on a bound of the standards table. *)
Theorem no_issues_no_advice (diagnosis : Diagnosis.t)
  (sensorData : readings) (sensorAssessment : Assessment.t)
  (emergencyLevel : Emergency.t) :
  Validity.issues (checkSensorValidity sensorData) = [] ->
  let advice :=
    actions (generateActionableRecommendations diagnosis sensorData
               sensorAssessment emergencyLevel) in
  advice
  = (if String.eqb (Emergency.level emergencyLevel) "high"
     then ["ISOLATE PLANT"] else [])
    ++ (if String.eqb (Assessment.status sensorAssessment) "malfunctioning"
        then ["CHECK SENSOR CONNECTIONS"] else [])
  /\ forall action,
       In action advice ->
       action = "ISOLATE PLANT" \/ action = "CHECK SENSOR CONNECTIONS".
Proof.
  intros Hnil advice. subst advice.
  rewrite (no_issues_actions diagnosis sensorData sensorAssessment
             emergencyLevel Hnil).
  split; [reflexivity |].
  intros action Hin. apply in_app_or in Hin.
  destruct Hin as [Hin | Hin].
  - destruct (String.eqb (Emergency.level emergencyLevel) "high");
      [| contradiction].
    destruct Hin as [<- | []]. now left.
  - destruct (String.eqb (Assessment.status sensorAssessment)
                "malfunctioning"); [| contradiction].
    destruct Hin as [<- | []]. now right.
Qed.

Lemma no_issues_no_advice_witness :
  actions (generateActionableRecommendations
             (Diagnosis.mk "VISUAL ISSUE DETECTED" "medium" (Lit "") "" true)
             [("nitrogen", n60); ("moisture", n30); ("ph", n7)]
             (Assessment.mk "credible" "" "high" "")
             (Emergency.mk "high" "red" "" ""))
  = ["ISOLATE PLANT"].
Proof.
  apply (no_issues_no_advice
           (Diagnosis.mk "VISUAL ISSUE DETECTED" "medium" (Lit "") "" true)
           [("nitrogen", n60); ("moisture", n30); ("ph", n7)]
           (Assessment.mk "credible" "" "high" "")
           (Emergency.mk "high" "red" "" "")).
  reflexivity.
Defined.

(** ** Deficiencies *)

Lemma sensorDeficiency_names (name : string) (reading : option number)
  (threshold severeBelow : number) :
  let found := sensorDeficiency name reading threshold severeBelow in
  filter isVisual found = []
  /\ filter (fun d => negb (isVisual d)) found = found
  /\ map deficiencyName found = if ltU reading threshold then [name] else [].
Proof.
  unfold sensorDeficiency, ltU.
  destruct reading as [level |]; [| now repeat split].
  destruct (Number.lt level threshold); now repeat split.
Qed.

Lemma visual_part (confidence : number) (tags : list string) :
  let found :=
    map (fun issue =>
           VisualDeficiency "visual"
             (toUpperCase (replace "_deficiency" "" issue))
             "CNN Model" confidence) tags in
  filter isVisual found = found
  /\ filter (fun d => negb (isVisual d)) found = [].
Proof.
  cbv zeta. induction tags as [| tag tags [IH1 IH2]]; [now split |].
  cbn [map filter isVisual negb]. now rewrite IH1, IH2.
Qed.

(** X12.  [identifySpecificDeficiencies] lists the visual deficiencies
    first, one per issue tag of the vision result, and then the sensor
    deficiencies; the names of the sensor deficiencies are exactly those
    that [detectNutrientDeficiencies] reports for the same readings and
    estimate, in the same order. *)
Theorem deficiencies_structure (aiResult : AIResult.t)
  (sensorData : readings) (calculatedNPK : option NPK.t) :
  let result := identifySpecificDeficiencies aiResult sensorData
                  calculatedNPK in
  let visual := filter isVisual result in
  let sensor := filter (fun d => negb (isVisual d)) result in
  result = visual ++ sensor
  /\ List.length visual
     = match AIResult.possible_issues aiResult with
       | Some tags => List.length tags
       | None => 0
       end
  /\ map deficiencyName sensor
     = map nutrientCode
         (detectNutrientDeficiencies sensorData calculatedNPK).
Proof.
  intros result visual sensor. subst visual sensor result.
  unfold identifySpecificDeficiencies, detectNutrientDeficiencies.
  set (npk := npkValues sensorData calculatedNPK).
  set (tags := match AIResult.possible_issues aiResult with
               | Some tags => tags
               | None => []
               end).
  assert (Hv : match AIResult.possible_issues aiResult with
               | Some possible_issues =>
                   map (fun issue =>
                          VisualDeficiency "visual"
                            (toUpperCase (replace "_deficiency" "" issue))
                            "CNN Model" (AIResult.confidence aiResult))
                     possible_issues
               | None => []
               end
               = map (fun issue =>
                        VisualDeficiency "visual"
                          (toUpperCase (replace "_deficiency" "" issue))
                          "CNN Model" (AIResult.confidence aiResult)) tags).
  { subst tags. now destruct (AIResult.possible_issues aiResult). }
  rewrite Hv.
  destruct (visual_part (AIResult.confidence aiResult) tags) as [V1 V2].
  destruct (sensorDeficiency_names "NITROGEN" (npk "nitrogen") n40 n20)
    as [N1 [N2 N3]].
  destruct (sensorDeficiency_names "PHOSPHORUS" (npk "phosphorus") n20 n10)
    as [P1 [P2 P3]].
  destruct (sensorDeficiency_names "POTASSIUM" (npk "potassium") n30 n15)
    as [K1 [K2 K3]].
  rewrite !filter_app, V1, V2, N1, N2, P1, P2, K1, K2.
  rewrite !app_nil_r. cbn [app]. split; [reflexivity | split].
  - rewrite length_map. subst tags.
    now destruct (AIResult.possible_issues aiResult).
  - rewrite !map_app, N3, P3, K3.
    now destruct (ltU (npk "nitrogen") n40), (ltU (npk "phosphorus") n20),
      (ltU (npk "potassium") n30).
Qed.

(** X13.  When [ec] and [ph] are both supplied, the deficiencies of an
    analysis depend on the readings through [ec] and [ph] only: the
    nitrogen, phosphorus and potassium readings are not consulted. *)
Theorem deficiencies_from_estimate (aiResult : AIResult.t)
  (sensorData sensorData' : readings) (ec ph : number) :
  Object.get sensorData "ec" = Some ec ->
  Object.get sensorData "ph" = Some ph ->
  Object.get sensorData' "ec" = Some ec ->
  Object.get sensorData' "ph" = Some ph ->
  Analysis.deficiencies (analyzeSituation aiResult sensorData)
  = Analysis.deficiencies (analyzeSituation aiResult sensorData').
Proof.
  intros He Hp He' Hp'.
  cbn [analyzeSituation Analysis.deficiencies]. unfold estimateNPK.
  rewrite He, Hp, He', Hp'. reflexivity.
Qed.

Lemma deficiencies_from_estimate_witness :
  Analysis.deficiencies
    (analyzeSituation (AIResult.mk "healthy" confidence90 None)
       [("nitrogen", n10); ("ec", n2); ("ph", n7)])
  = Analysis.deficiencies
      (analyzeSituation (AIResult.mk "healthy" confidence90 None)
         [("ph", n7); ("ec", n2); ("nitrogen", n60)]).
Proof.
  apply (deficiencies_from_estimate _ _ _ n2 n7); reflexivity.
Defined.

(** ** The sensor service *)

Lemma tables_agree (key : string) :
  match assoc serviceTable key,
        (if String.eqb "ec" key then None else assoc sensorTable key) with
  | Some a, Some b =>
      Standard.min a = Standard.min b /\ Standard.max a = Standard.max b
  | None, None => True
  | _, _ => False
  end.
Proof.
  unfold serviceTable, sensorTable. cbn [assoc].
  destruct (String.eqb_spec "nitrogen" key) as [<- | _]; [now split |].
  destruct (String.eqb_spec "phosphorus" key) as [<- | _]; [now split |].
  destruct (String.eqb_spec "potassium" key) as [<- | _]; [now split |].
  destruct (String.eqb_spec "moisture" key) as [<- | _]; [now split |].
  destruct (String.eqb_spec "temperature" key) as [<- | _]; [now split |].
  destruct (String.eqb_spec "ph" key) as [<- | _]; [now split |].
  now destruct (String.eqb "ec" key).
Qed.

Lemma analyzeEntry_checkEntry (entry : string * number) :
  (fst entry = "ec" -> flagged entry = false) ->
  analyzeEntry entry
  = map (fun i => (Issue.sensor i ++ "_out_of_range")%string)
      (checkEntry entry).
Proof.
  destruct entry as [key value]. cbn [fst]. intros Hec.
  unfold analyzeEntry, checkEntry, serviceStandards, sensorStandards.
  pose proof (tables_agree key) as H.
  destruct (String.eqb_spec "ec" key) as [<- | Hne].
  - specialize (Hec eq_refl). unfold flagged in Hec. cbn [fst snd] in Hec.
    destruct (assoc serviceTable "ec"); [contradiction |].
    destruct (assoc sensorTable "ec") as [s |].
    + rewrite Hec. reflexivity.
    + reflexivity.
  - destruct (assoc serviceTable key) as [a |],
             (assoc sensorTable key) as [b |]; try contradiction.
    + destruct H as [-> ->].
      now destruct (Number.lt value (Standard.min b)
                    || Number.gt value (Standard.max b)).
    + now destruct (existsb _ _).
Qed.

(** X14.  On readings without an out-of-range [ec] value,
    [analyzeSensorData] flags exactly the sensors the engine's
    [checkSensorValidity] flags, in the same order, each as
    [<sensor>_out_of_range]; its status is 'optimal' exactly when the
    engine finds no issue, and its severity is 'low' for no issue, 'medium'
    for one or two and 'high' for more. *)
Theorem service_agrees_with_engine (now : string) (sensorData : readings) :
  (forall value, In ("ec", value) sensorData ->
                 flagged ("ec", value) = false) ->
  let report := analyzeSensorData now sensorData in
  let issues := Validity.issues (checkSensorValidity sensorData) in
  SensorAnalysis.issues report
  = map (fun i => (Issue.sensor i ++ "_out_of_range")%string) issues
  /\ (SensorAnalysis.status report = "optimal" <-> issues = [])
  /\ SensorAnalysis.severity report
     = if (2 <? List.length issues)%nat then "high"
       else if (0 <? List.length issues)%nat then "medium" else "low".
Proof.
  intros Hec report issues. subst report issues.
  assert (Hi : flat_map analyzeEntry (Object.entries sensorData)
               = map (fun i => (Issue.sensor i ++ "_out_of_range")%string)
                   (flat_map checkEntry (Object.entries sensorData))).
  { unfold Object.entries.
    induction sensorData as [| [key value] rest IH]; [reflexivity |].
    cbn [flat_map]. rewrite map_app, IH, analyzeEntry_checkEntry.
    - reflexivity.
    - cbn [fst]. intros ->. apply Hec. now left.
    - intros v Hin. apply Hec. now right. }
  cbn [analyzeSensorData checkSensorValidity SensorAnalysis.issues
       SensorAnalysis.status SensorAnalysis.severity Validity.issues].
  rewrite Hi, length_map. split; [reflexivity | split; [| reflexivity]].
  destruct (flat_map checkEntry (Object.entries sensorData)); cbn;
    split; congruence.
Qed.

Lemma service_agrees_with_engine_witness :
  SensorAnalysis.issues
    (analyzeSensorData "2026-01-01T00:00:00.000Z"
       [("nitrogen", n10); ("ec", n2); ("moisture", n50)])
  = ["nitrogen_out_of_range"; "moisture_out_of_range"].
Proof.
  destruct (service_agrees_with_engine "2026-01-01T00:00:00.000Z"
              [("nitrogen", n10); ("ec", n2); ("moisture", n50)])
    as [H _].
  - intros value [Hin | [Hin | [Hin | []]]]; try discriminate Hin.
    injection Hin as <-. reflexivity.
  - rewrite H. reflexivity.
Defined.

(** ** The analysis route *)

Lemma recommendations_Sorted (diagnosis : Diagnosis.t)
  (sensorData : readings) (sensorAssessment : Assessment.t)
  (emergencyLevel : Emergency.t) :
  Sorted (nonDecreasing Recommendation.priority)
    (generateActionableRecommendations diagnosis sensorData sensorAssessment
       emergencyLevel).
Proof.
  unfold generateActionableRecommendations.
  destruct (String.eqb (Assessment.status sensorAssessment) "malfunctioning").
  - rewrite emergency_part.
    destruct (String.eqb (Emergency.level emergencyLevel) "high");
      repeat constructor.
    unfold nonDecreasing. cbn. lia.
  - now apply sort_Sorted.
Qed.

Lemma mapi_from_steps (index : nat) (l : list Recommendation.t) :
  map Step.step (mapi_from stepView index l) = seq (index + 1) (List.length l)
  /\ map (fun s => (Step.action s, Step.priority s))
       (mapi_from stepView index l)
     = map (fun r => (Recommendation.action r, Recommendation.priority r)) l.
Proof.
  revert index. induction l as [| r l IH]; intros index; [now split |].
  cbn [mapi_from map List.length seq]. destruct (IH (S index)) as [H1 H2].
  rewrite H1, H2. cbn [stepView Step.step Step.action Step.priority].
  now replace (S index + 1) with (S (index + 1)) by lia.
Qed.

Lemma Sorted_map_priority (l : list Recommendation.t) (steps : list Step.t) :
  map Step.priority steps = map Recommendation.priority l ->
  Sorted (nonDecreasing Recommendation.priority) l ->
  Sorted (nonDecreasing Step.priority) steps.
Proof.
  revert steps. induction l as [| r l IH]; intros steps Hm Hs.
  - destruct steps; [constructor | discriminate].
  - destruct steps as [| s steps]; [discriminate |].
    injection Hm as Hp Hm. apply Sorted_inv in Hs. destruct Hs as [Hs Hh].
    constructor; [now apply IH |].
    destruct steps as [| s' steps]; [constructor |].
    destruct l as [| r' l]; [discriminate |].
    injection Hm as Hp' _. constructor. apply HdRel_inv in Hh.
    unfold nonDecreasing in *. lia.
Qed.

(** The handler on a request with a file: the engine's exception, or the
    response to the readings the field stands for. *)
Lemma postAnalysis_outcome (now filename : string) (field : sensorField)
  (ai : aiOutcome) (mock : Classification.t) :
  let aiResult :=
    match ai with
    | Resolved aiResult => aiResult
    | Rejected => mock
    end in
  match parseSensorData field with
  | JsObject sensorData =>
      postAnalysis now (Some filename) field ai mock
      = Json (buildResponse now filename aiResult sensorData)
  | JsNull | JsUndefined =>
      postAnalysis now (Some filename) field ai mock = Next TypeError
  end.
Proof.
  intros aiResult. unfold postAnalysis. fold aiResult.
  destruct (parseSensorData field) as [| | sensorData].
  - reflexivity.
  - reflexivity.
  - rewrite analyzeSituationJS_returns. reflexivity.
Qed.

(** X15.  A request without an uploaded file is answered with status 400
    whatever else it carries.  A request with a file whose [sensorData]
    field parses to [null] makes the engine throw a TypeError; the handler
    passes it on, and the global error handler answers with status 500 and
    [success: false].  Every other request, that is one with a file and a
    [sensorData] field that is absent, does not parse, or parses to a
    readings object, is answered, for a well-formed vision result, with a
    success response in which the steps of [priorityOrder] are numbered
    1, 2, ... up to [totalSteps], repeat the engine's recommendations for
    those readings in their order, and have non-decreasing priority. *)
Theorem response_steps (now : string) (file : option string)
  (field : sensorField) (ai : aiOutcome) (mock : Classification.t) :
  match postAnalysis now file field ai mock with
  | Status400 success error =>
      file = None /\ success = false /\ error = "No image file received"
  | Next error =>
      file <> None
      /\ field = FieldParsedNull
      /\ forall development,
           ErrorReply.status (globalErrorHandler development error) = 500%Z
           /\ ErrorReply.success (globalErrorHandler development error)
              = false
  | Json response =>
      let order :=
        ResponseRecommendations.priorityOrder
          (Response.recommendations response) in
      let total :=
        ResponseRecommendations.totalSteps
          (Response.recommendations response) in
      file = Some (Response.image response)
      /\ field <> FieldParsedNull
      /\ Response.success response = true
      /\ map Step.step order = seq 1 total
      /\ List.length order = total
      /\ Sorted (nonDecreasing Step.priority) order
      /\ exists sensorData,
           parseSensorData field = JsObject sensorData
           /\ map (fun s => (Step.action s, Step.priority s)) order
              = map (fun r =>
                       (Recommendation.action r, Recommendation.priority r))
                  (Analysis.recommendations
                     (analyzeSituation
                        (Classification.result
                           (match ai with
                            | Resolved aiResult => aiResult
                            | Rejected => mock
                            end))
                        sensorData))
  end.
Proof.
  destruct file as [filename |]; [| now repeat split].
  pose proof (postAnalysis_outcome now filename field ai mock) as H.
  cbv zeta in H.
  set (aiResult := match ai with
                   | Resolved aiResult => aiResult
                   | Rejected => mock
                   end) in *.
  destruct (parseSensorData field) as [| | sensorData] eqn:Hfield; rewrite H.
  - destruct field; try discriminate Hfield.
    split; [discriminate | split; [reflexivity |]].
    intros development. now split.
  - destruct field; discriminate Hfield.
  - cbn [buildResponse responseFrom Response.recommendations Response.image
         Response.success ResponseRecommendations.priorityOrder
         ResponseRecommendations.totalSteps].
    set (recs := Analysis.recommendations
                   (analyzeSituation (Classification.result aiResult)
                      sensorData)).
    destruct (mapi_from_steps 0 recs) as [Hsteps Hsame].
    fold (mapi stepView recs) in Hsteps, Hsame.
    split; [reflexivity |].
    split; [intros ->; discriminate Hfield |].
    split; [reflexivity |].
    split; [exact Hsteps | split; [| split]].
    + rewrite <- (length_map Step.step), Hsteps. apply length_seq.
    + apply (Sorted_map_priority recs).
      * apply (f_equal (map snd)) in Hsame. now rewrite !map_map in Hsame.
      * subst recs. cbn [analyzeSituation Analysis.recommendations].
        apply recommendations_Sorted.
    + exists sensorData. split; [reflexivity | exact Hsame].
Qed.

Lemma issueView_status (issue : Issue.t) :
  (Issue.severity issue = "low"
   /\ Number.lt (Issue.value issue) (Issue.min issue) = true)
  \/ (Issue.severity issue = "high"
      /\ Number.lt (Issue.value issue) (Issue.min issue) = false
      /\ Number.gt (Issue.value issue) (Issue.max issue) = true) ->
  (IssueView.status (issueView issue) = "too_low"
   /\ Number.lt (Issue.value issue) (Issue.min issue) = true)
  \/ (IssueView.status (issueView issue) = "too_high"
      /\ Number.lt (Issue.value issue) (Issue.min issue) = false
      /\ Number.gt (Issue.value issue) (Issue.max issue) = true).
Proof.
  cbn [issueView IssueView.status].
  intros [[-> H] | [-> H]]; [left | right]; now split.
Qed.

(** X16.  The issues of a response are the out-of-range readings of table
    sensors, in the order of the readings.  Each is shown with the
    interval and unit of its sensor, with status 'too_low' when the value
    is below the minimum and 'too_high' otherwise, in which case the value
    is above the maximum. *)
Theorem response_issues (now filename : string)
  (aiResult : Classification.t) (sensorData : readings) :
  let shown :=
    ResponseSensors.issues
      (Response.sensorReadings
         (buildResponse now filename aiResult sensorData)) in
  map (fun v => (IssueView.sensor v, IssueView.value v)) shown
  = filter flagged sensorData
  /\ forall v,
       In v shown ->
       exists standard,
         assoc sensorTable (IssueView.sensor v) = Some standard
         /\ IssueView.optimalRange v
            = Range (Standard.min standard) (Standard.max standard)
                (Standard.unit standard)
         /\ ((IssueView.status v = "too_low"
              /\ Number.lt (IssueView.value v) (Standard.min standard) = true)
             \/ (IssueView.status v = "too_high"
                 /\ Number.lt (IssueView.value v) (Standard.min standard)
                    = false
                 /\ Number.gt (IssueView.value v) (Standard.max standard)
                    = true)).
Proof.
  cbn [buildResponse responseFrom Response.sensorReadings ResponseSensors.issues
       analyzeSituation Analysis.sensorAssessment SensorReport.issues].
  split.
  - rewrite map_map. cbn [issueView IssueView.sensor IssueView.value].
    apply issues_projection.
  - intros v Hin. apply in_map_iff in Hin. destruct Hin as [issue [<- Hin]].
    cbn [checkSensorValidity Validity.issues] in Hin.
    apply in_flat_map in Hin. destruct Hin as [entry [_ Hin]].
    apply checkEntry_fields in Hin.
    destruct Hin as [standard [Hs [Hmin [Hmax [Hunit Hsev]]]]].
    exists standard. split; [exact Hs | split].
    + cbn [issueView IssueView.optimalRange]. now rewrite Hmin, Hmax, Hunit.
    + apply issueView_status in Hsev. rewrite Hmin, Hmax in Hsev.
      exact Hsev.
Qed.

(** X17.  A request that carries no sensor data, or sensor data that does
    not parse, is analysed as an empty readings object: the assessment is
    'malfunctioning' without any issue or NPK estimate, the last step is
    CHECK SENSOR CONNECTIONS, and the verdict depends on the prediction
    alone: PLANT IS HEALTHY at level 'medium' for 'healthy', VISUAL ISSUE
    DETECTED at level 'high', with ISOLATE PLANT first, for anything
    else. *)
Theorem response_without_readings (now filename : string)
  (field : sensorField) (ai : aiOutcome) (mock : Classification.t) :
  field = FieldAbsent \/ field = FieldUnparseable ->
  exists response,
    postAnalysis now (Some filename) field ai mock = Json response
    /\ let healthy :=
         String.eqb (ResponseVisual.cnnPrediction
                       (Response.visualAssessment response)) "healthy" in
       Assessment.status
         (SensorReport.assessment
            (ResponseSensors.assessment (Response.sensorReadings response)))
       = "malfunctioning"
       /\ ResponseSensors.issues (Response.sensorReadings response) = []
       /\ ResponseSensors.calculatedNPK (Response.sensorReadings response)
          = None
       /\ ResponseDiagnosis.verdict (Response.intelligentDiagnosis response)
          = (if healthy then "PLANT IS HEALTHY" else "VISUAL ISSUE DETECTED")
       /\ ResponseRecommendations.emergencyLevel
            (Response.recommendations response)
          = (if healthy then "medium" else "high")
       /\ map (fun s => (Step.step s, Step.action s))
            (ResponseRecommendations.priorityOrder
               (Response.recommendations response))
          = if healthy then [(1, "CHECK SENSOR CONNECTIONS")]
            else [(1, "ISOLATE PLANT"); (2, "CHECK SENSOR CONNECTIONS")].
Proof.
  intros Hfield.
  assert (Hp : parseSensorData field = JsObject [])
    by (destruct Hfield as [-> | ->]; reflexivity).
  pose proof (postAnalysis_outcome now filename field ai mock) as H.
  cbv zeta in H. rewrite Hp in H.
  eexists. split; [exact H |].
  set (aiResult := Classification.result
                     match ai with
                     | Resolved aiResult => aiResult
                     | Rejected => mock
                     end).
  cbn [buildResponse responseFrom Response.visualAssessment Response.sensorReadings
       Response.intelligentDiagnosis Response.recommendations
       ResponseVisual.cnnPrediction ResponseSensors.assessment
       ResponseSensors.issues ResponseSensors.calculatedNPK
       ResponseDiagnosis.verdict ResponseRecommendations.emergencyLevel
       ResponseRecommendations.priorityOrder].
  fold aiResult.
  cbn [analyzeSituation Analysis.sensorAssessment SensorReport.assessment
       SensorReport.issues SensorReport.calculatedNPK
       Analysis.intelligentDiagnosis Analysis.emergencyLevel
       Analysis.recommendations].
  unfold generateIntelligentDiagnosis, agreementVerdict.
  change (Validity.hasIssues (checkSensorValidity [])) with false.
  change (assessSensorCredibility []) with
    (Assessment.mk "malfunctioning"
       "⚠️ SENSOR MALFUNCTION DETECTED: All sensors read 0" "low"
       "Check sensor connections and power supply").
  destruct (String.eqb (AIResult.prediction aiResult) "healthy");
    repeat split; reflexivity.
Qed.

Lemma response_without_readings_witness :
  exists response,
    postAnalysis "2026-01-01T00:00:00.000Z" (Some "1_plant.jpg")
      FieldUnparseable Rejected
      (Classification.mk (AIResult.mk "diseased" confidence90
                            (Some ["test_issue"])) true)
    = Json response
    /\ ResponseDiagnosis.verdict (Response.intelligentDiagnosis response)
       = "VISUAL ISSUE DETECTED".
Proof.
  destruct (response_without_readings "2026-01-01T00:00:00.000Z"
              "1_plant.jpg" FieldUnparseable Rejected
              (Classification.mk (AIResult.mk "diseased" confidence90
                                    (Some ["test_issue"])) true))
    as [response [Hr [_ [_ [_ [Hv _]]]]]].
  - now right.
  - exists response. split; [exact Hr |].
    injection Hr as <-. reflexivity.
Defined.

(** ** The dashboard *)

(** X18.  For every emergency level the engine determines, the dashboard
    paints the colour the engine names: red for 'high', orange for
    'medium', green for 'low'; the grey default is never used. *)
Theorem dashboard_colour_matches (diagnosis : Diagnosis.t)
  (sensorAssessment : Assessment.t) :
  let emergencyLevel := determineEmergencyLevel diagnosis sensorAssessment in
  _getEmergencyColor (Some (Emergency.level emergencyLevel))
  = namedColor (Emergency.color emergencyLevel)
  /\ _getEmergencyColor (Some (Emergency.level emergencyLevel))
     <> Colors.grey.
Proof.
  intros emergencyLevel. subst emergencyLevel.
  unfold determineEmergencyLevel.
  destruct (includes "DISEASE" (Diagnosis.verdict diagnosis)
            || Diagnosis.requiresImmediateAction diagnosis).
  - split; [reflexivity | discriminate].
  - destruct (String.eqb (Assessment.status sensorAssessment)
                "malfunctioning"
              || includes "WARNING" (Diagnosis.verdict diagnosis));
      (split; [reflexivity | discriminate]).
Qed.

(** ** A healthy verdict *)

(** X19.  An analysis whose verdict is PLANT IS HEALTHY comes from a
    'healthy' prediction without any sensor issue.  It never requires
    immediate action or isolation: its level is 'medium' when the
    assessment is 'malfunctioning' and 'low' otherwise, its only possible
    recommendation is CHECK SENSOR CONNECTIONS, and its button reads VIEW
    ACTION PLAN. *)
Theorem healthy_verdict_analysis (aiResult : AIResult.t)
  (sensorData : readings) :
  let analysis := analyzeSituation aiResult sensorData in
  let malfunctioning :=
    String.eqb
      (Assessment.status
         (SensorReport.assessment (Analysis.sensorAssessment analysis)))
      "malfunctioning" in
  Diagnosis.verdict (Analysis.intelligentDiagnosis analysis)
  = "PLANT IS HEALTHY" ->
  AIResult.prediction aiResult = "healthy"
  /\ SensorReport.issues (Analysis.sensorAssessment analysis) = []
  /\ Emergency.level (Analysis.emergencyLevel analysis)
     = (if malfunctioning then "medium" else "low")
  /\ actions (Analysis.recommendations analysis)
     = (if malfunctioning then ["CHECK SENSOR CONNECTIONS"] else [])
  /\ NextSteps.buttonText (Analysis.nextSteps analysis)
     = "🌱 VIEW ACTION PLAN".
Proof.
  intros analysis malfunctioning. subst malfunctioning analysis.
  cbn [analyzeSituation Analysis.intelligentDiagnosis
       Analysis.sensorAssessment SensorReport.assessment
       SensorReport.issues Analysis.emergencyLevel Analysis.recommendations
       Analysis.nextSteps].
  intros Hv.
  pose proof (diagnosis_rule (AIResult.prediction aiResult)
                (AIResult.confidence aiResult) sensorData
                (assessSensorCredibility sensorData)
                (estimateNPK sensorData)) as H.
  pose proof (engine_level (AIResult.prediction aiResult)
                (AIResult.confidence aiResult) sensorData
                (assessSensorCredibility sensorData)
                (estimateNPK sensorData)
                (assessSensorCredibility sensorData)) as Hl.
  cbv zeta in H, Hl.
  destruct H as [H | [H | [H | [H | [H | [H | H]]]]]].
  2-7: last_conjunct H; apply (f_equal fst) in H; cbn [fst] in H;
    rewrite H in Hv; discriminate Hv.
  destruct H as [Hp [Hi H]]. apply (f_equal snd) in H. cbn [snd] in H.
  apply hasIssues_false in Hi.
  rewrite H in Hl.
  split; [exact Hp | split; [exact Hi | split; [exact Hl |]]].
  split.
  - rewrite (no_issues_actions _ _ _ _ Hi), Hl.
    now destruct (String.eqb
                    (Assessment.status (assessSensorCredibility sensorData))
                    "malfunctioning").
  - unfold generateNextSteps. now rewrite H.
Qed.

Lemma healthy_verdict_analysis_witness :
  actions
    (Analysis.recommendations
       (analyzeSituation (AIResult.mk "healthy" confidence90 None)
          [("nitrogen", n60); ("ph", n7)]))
  = [].
Proof.
  apply (healthy_verdict_analysis (AIResult.mk "healthy" confidence90 None)
           [("nitrogen", n60); ("ph", n7)]).
  reflexivity.
Defined.

(** ** A NaN estimate *)

(** X20.  When [ec] or [ph] is NaN, all three components of the estimate
    are NaN, and no nutrient deficiency is derived from such an estimate,
    whatever the readings are. *)
Theorem nan_estimate (ec ph : number) :
  ec = Number.NaN \/ ph = Number.NaN ->
  calculateNPKFromECpH ec ph = NPK.mk Number.NaN Number.NaN Number.NaN
  /\ forall sensorData,
       detectNutrientDeficiencies sensorData
         (Some (calculateNPKFromECpH ec ph)) = [].
Proof.
  intros H.
  assert (Hn : calculateNPKFromECpH ec ph
               = NPK.mk Number.NaN Number.NaN Number.NaN).
  { unfold calculateNPKFromECpH.
    fold (nitrogenFormula ec ph) (phosphorusFormula ec ph)
      (potassiumFormula ec ph).
    fold (clamp (nitrogenFormula ec ph)) (clamp (phosphorusFormula ec ph))
      (clamp (potassiumFormula ec ph)).
    assert (Hadd : forall x, Number.add x Number.NaN = Number.NaN)
      by (intros x; now destruct x).
    destruct H as [-> | ->].
    - reflexivity.
    - unfold nitrogenFormula, phosphorusFormula, potassiumFormula.
      change (Number.mul (Number.sub Number.NaN n6) n10) with Number.NaN.
      change (Number.mul
                (Number.sub n7 (Math.abs (Number.sub n7 Number.NaN))) n15)
        with Number.NaN.
      change (Number.mul (Number.sub Number.NaN n6_5) n12) with Number.NaN.
      rewrite !Hadd. reflexivity. }
  split; [exact Hn |]. intros sensorData. rewrite Hn. reflexivity.
Qed.

Lemma nan_estimate_witness :
  calculateNPKFromECpH Number.NaN n7
  = NPK.mk Number.NaN Number.NaN Number.NaN.
Proof.
  apply nan_estimate. now left.
Defined.
